(** * A content-moderation HTTP front-end (main.go), embedded in Rocq

    The service decodes a batch of messages, renders a prompt per message,
    posts it to an inference backend, parses the model's answer and returns
    the verdicts as a JSON array.  This file embeds the handlers of main.go
    together with the part of Go's standard library they rely on
    (encoding/json, net/http's ResponseWriter and http.Error), and proves
    the properties the specification states about them.

    main.go is kept in two revisions.  The earlier one has the backend
    URL, the model, the prompt and the response format written into the
    code; the later one reads them from config.json, and is the one the
    specification describes.  Module [Main] embeds the later revision,
    module [Legacy] the earlier one.  corsMiddleware and
    handleOllamaHealth are the same in both, up to where the URL comes
    from, and so is handleAnalyze, up to the configuration it passes on.

    Conventions:
    - Go strings are byte strings, modelled by [string];
    - a Go slice that may be nil is an [option (list _)], [None] being nil;
    - a Go [(T, error)] result is a [result T];
    - the world outside the process (backend, file system, template engine,
      URL parser) is a parameter of the handlers. *)

From Stdlib Require Import String Ascii List ZArith NArith Bool Lia.
From Stdlib Require Import DecimalString.
Import ListNotations.

Set Warnings "-register-all".

Local Open Scope list_scope.
Local Open Scope string_scope.

(** ** Byte helpers *)

Definition byteN (c : ascii) : N := N_of_ascii c.
Definition chr (n : N) : ascii := ascii_of_N n.

(** The double quote, written by its code. *)
Definition dquote : ascii := "034"%char.

(** JSON test data is written with apostrophes in place of double quotes;
    [js] puts the double quotes back. *)
Fixpoint js (s : string) : string :=
  match s with
  | EmptyString => EmptyString
  | String c r => String (if Ascii.eqb c "'"%char then dquote else c) (js r)
  end.

Fixpoint string_of_chars (l : list ascii) : string :=
  match l with
  | [] => EmptyString
  | c :: r => String c (string_of_chars r)
  end.

(** * encoding/json *)

Module JSON.

(** A JSON value as the scanner of encoding/json delimits it.  A number keeps
    its literal; object members keep their order and their duplicates. *)
Inductive json : Type :=
| JNull
| JBool (b : bool)
| JNum (lit : string)
| JStr (s : string)
| JArr (elems : list json)
| JObj (members : list (string * json)).

(** *** UTF-8 (unicode/utf8) *)

(** utf8.EncodeRune for a rune that is neither a surrogate nor above
    U+10FFFF (the callers below never pass one). *)
Definition encodeRune (r : N) : string :=
  (if r <? 0x80 then
     String (chr r) ""
   else if r <? 0x800 then
     String (chr (0xC0 + r / 64)) (String (chr (0x80 + r mod 64)) "")
   else if r <? 0x10000 then
     String (chr (0xE0 + r / 4096))
       (String (chr (0x80 + (r / 64) mod 64))
          (String (chr (0x80 + r mod 64)) ""))
   else
     String (chr (0xF0 + r / 262144))
       (String (chr (0x80 + (r / 4096) mod 64))
          (String (chr (0x80 + (r / 64) mod 64))
             (String (chr (0x80 + r mod 64)) ""))))%N.

(** U+FFFD, which replaces every byte that is not part of well-formed
    UTF-8 and every unpaired surrogate escape. *)
Definition replacementChar : string := encodeRune 0xFFFD.

(** The content of a string literal, cut into units: a byte (written as
    such, or through a one-letter escape) or a [\uXXXX] escape. *)
Inductive sunit : Type :=
| UByte (c : ascii)
| UEsc (r : N).

Definition inRange (lo hi : N) (u : sunit) : bool :=
  match u with
  | UByte c => ((lo <=? byteN c) && (byteN c <=? hi))%N
  | UEsc _ => false
  end.

(** The number of continuation bytes of the well-formed UTF-8 sequence that
    starts with lead byte [c] and goes on in [rest]; [0] when there is no
    such sequence (utf8.DecodeRune then returns RuneError with size 1). *)
Definition seqTail (c : N) (rest : list sunit) : nat :=
  let second lo hi :=
    match rest with u :: _ => inRange lo hi u | _ => false end in
  let third :=
    match rest with _ :: u :: _ => inRange 0x80 0xBF u | _ => false end in
  let fourth :=
    match rest with _ :: _ :: u :: _ => inRange 0x80 0xBF u | _ => false end in
  (if (0xC2 <=? c) && (c <=? 0xDF) then
     if second 0x80 0xBF then 1%nat else 0%nat
   else if c =? 0xE0 then
     if second 0xA0 0xBF && third then 2%nat else 0%nat
   else if c =? 0xED then
     if second 0x80 0x9F && third then 2%nat else 0%nat
   else if (0xE1 <=? c) && (c <=? 0xEF) then
     if second 0x80 0xBF && third then 2%nat else 0%nat
   else if c =? 0xF0 then
     if second 0x90 0xBF && third && fourth then 3%nat else 0%nat
   else if c =? 0xF4 then
     if second 0x80 0x8F && third && fourth then 3%nat else 0%nat
   else if (0xF1 <=? c) && (c <=? 0xF3) then
     if second 0x80 0xBF && third && fourth then 3%nat else 0%nat
   else 0%nat)%N.

Definition isSurrogate (r : N) : bool := ((0xD800 <=? r) && (r <? 0xE000))%N.

(** utf16.DecodeRune: the rune of a high and a low surrogate. *)
Definition decodeSurrogates (r1 r2 : N) : option N :=
  (if (0xD800 <=? r1) && (r1 <? 0xDC00) && (0xDC00 <=? r2) && (r2 <? 0xE000)
   then Some ((r1 - 0xD800) * 1024 + (r2 - 0xDC00) + 0x10000)
   else None)%N.

(** unquoteBytes: the Go string a literal denotes.  Escapes are replaced,
    surrogate pairs are joined, and the result is coerced to well-formed
    UTF-8. *)
Fixpoint unquote (us : list sunit) : string :=
  match us with
  | [] => ""
  | UEsc r :: rest =>
      if isSurrogate r then
        match rest with
        | UEsc r2 :: rest2 =>
            match decodeSurrogates r r2 with
            | Some dec => encodeRune dec ++ unquote rest2
            | None => replacementChar ++ unquote rest
            end
        | _ => replacementChar ++ unquote rest
        end
      else encodeRune r ++ unquote rest
  | UByte c :: rest =>
      if (byteN c <? 0x80)%N then String c (unquote rest)
      else
        match seqTail (byteN c) rest, rest with
        | 1%nat, UByte c1 :: r1 =>
            String c (String c1 (unquote r1))
        | 2%nat, UByte c1 :: UByte c2 :: r2 =>
            String c (String c1 (String c2 (unquote r2)))
        | 3%nat, UByte c1 :: UByte c2 :: UByte c3 :: r3 =>
            String c (String c1 (String c2 (String c3 (unquote r3))))
        | _, _ => replacementChar ++ unquote rest
        end
  end.

(** *** The scanner, as a lexer *)

Inductive token : Type :=
| TLBrace | TRBrace | TLBrack | TRBrack | TColon | TComma
| TStr (s : string)
| TNum (lit : string)
| TTrue | TFalse | TNull
| TBad.

(** The scanner's number states: state after a minus sign, after a leading
    zero, in the integer digits, after the point, in the fraction, after
    the exponent letter, after the exponent sign, in the exponent. *)
Inductive numstate : Type :=
| NNeg | NZero | NInt | NDot | NFrac | NE | NESign | NExp.

Definition isDigit (c : ascii) : bool :=
  ((48 <=? byteN c) && (byteN c <=? 57))%N.

Definition isExpLetter (c : ascii) : bool :=
  Ascii.eqb c "e"%char || Ascii.eqb c "E"%char.

Definition numStep (st : numstate) (c : ascii) : option numstate :=
  match st with
  | NNeg =>
      if Ascii.eqb c "0"%char then Some NZero
      else if isDigit c then Some NInt else None
  | NZero =>
      if Ascii.eqb c "."%char then Some NDot
      else if isExpLetter c then Some NE else None
  | NInt =>
      if isDigit c then Some NInt
      else if Ascii.eqb c "."%char then Some NDot
      else if isExpLetter c then Some NE else None
  | NDot => if isDigit c then Some NFrac else None
  | NFrac =>
      if isDigit c then Some NFrac
      else if isExpLetter c then Some NE else None
  | NE =>
      if Ascii.eqb c "+"%char || Ascii.eqb c "-"%char then Some NESign
      else if isDigit c then Some NExp else None
  | NESign => if isDigit c then Some NExp else None
  | NExp => if isDigit c then Some NExp else None
  end.

(** The states in which the number read so far is complete. *)
Definition numAccepting (st : numstate) : bool :=
  match st with
  | NZero | NInt | NFrac | NExp => true
  | _ => false
  end.

Inductive lexmode : Type :=
| LIdle
| LString (acc : list sunit)
| LEscape (acc : list sunit)
| LHex (acc : list sunit) (k : nat) (v : N)
| LNumber (st : numstate) (acc : list ascii)
| LLiteral (t : token) (rest : string).

Definition isSpace (c : ascii) : bool :=
  match c with
  | " "%char | "009"%char | "010"%char | "013"%char => true
  | _ => false
  end.

Definition hexDigit (c : ascii) : option N :=
  let n := byteN c in
  (if (48 <=? n) && (n <=? 57) then Some (n - 48)
   else if (97 <=? n) && (n <=? 102) then Some (n - 87)
   else if (65 <=? n) && (n <=? 70) then Some (n - 55)
   else None)%N.

Definition bad : list token * option lexmode := ([TBad], None).

(** A byte met between two tokens. *)
Definition lexIdle (c : ascii) : list token * option lexmode :=
  if isSpace c then ([], Some LIdle)
  else if Ascii.eqb c dquote then ([], Some (LString []))
  else if Ascii.eqb c "0"%char then ([], Some (LNumber NZero [c]))
  else if isDigit c then ([], Some (LNumber NInt [c]))
  else
    match c with
    | "{"%char => ([TLBrace], Some LIdle)
    | "}"%char => ([TRBrace], Some LIdle)
    | "["%char => ([TLBrack], Some LIdle)
    | "]"%char => ([TRBrack], Some LIdle)
    | ":"%char => ([TColon], Some LIdle)
    | ","%char => ([TComma], Some LIdle)
    | "-"%char => ([], Some (LNumber NNeg [c]))
    | "t"%char => ([], Some (LLiteral TTrue "rue"))
    | "f"%char => ([], Some (LLiteral TFalse "alse"))
    | "n"%char => ([], Some (LLiteral TNull "ull"))
    | _ => bad
    end.

(** One byte of input: the tokens it completes and the mode it leaves the
    lexer in, [None] once the input is rejected. *)
Definition lexStep (m : lexmode) (c : ascii) : list token * option lexmode :=
  match m with
  | LIdle => lexIdle c
  | LString acc =>
      if Ascii.eqb c dquote then ([TStr (unquote (rev acc))], Some LIdle)
      else if Ascii.eqb c "\"%char then ([], Some (LEscape acc))
      else if (byteN c <? 32)%N then bad
      else ([], Some (LString (UByte c :: acc)))
  | LEscape acc =>
      let lit (b : ascii) := ([], Some (LString (UByte b :: acc))) in
      if Ascii.eqb c dquote then lit c
      else
        match c with
        | "\"%char | "/"%char => lit c
        | "b"%char => lit "008"%char
        | "f"%char => lit "012"%char
        | "n"%char => lit "010"%char
        | "r"%char => lit "013"%char
        | "t"%char => lit "009"%char
        | "u"%char => ([], Some (LHex acc 3 0%N))
        | _ => bad
        end
  | LHex acc k v =>
      match hexDigit c with
      | None => bad
      | Some d =>
          let v' := (v * 16 + d)%N in
          match k with
          | O => ([], Some (LString (UEsc v' :: acc)))
          | S k' => ([], Some (LHex acc k' v'))
          end
      end
  | LNumber st acc =>
      match numStep st c with
      | Some st' => ([], Some (LNumber st' (c :: acc)))
      | None =>
          if numAccepting st then
            let '(toks, m') := lexIdle c in
            (TNum (string_of_chars (rev acc)) :: toks, m')
          else bad
      end
  | LLiteral t rest =>
      match rest with
      | String d rest' =>
          if Ascii.eqb c d then
            match rest' with
            | EmptyString => ([t], Some LIdle)
            | _ => ([], Some (LLiteral t rest'))
            end
          else bad
      | EmptyString => bad
      end
  end.

(** The end of the input. *)
Definition lexEnd (m : lexmode) : list token :=
  match m with
  | LIdle => []
  | LNumber st acc =>
      if numAccepting st then [TNum (string_of_chars (rev acc))] else [TBad]
  | _ => [TBad]
  end.

Fixpoint lex (m : lexmode) (s : string) : list token :=
  match s with
  | EmptyString => lexEnd m
  | String c r =>
      match lexStep m c with
      | (toks, Some m') => (toks ++ lex m' r)%list
      | (toks, None) => toks
      end
  end.

(** *** The scanner's parse stack *)

(** An open array with its elements so far (latest first), or an open
    object with its members so far and the key that awaits its value. *)
Inductive frame : Type :=
| FArr (acc : list json)
| FObj (acc : list (string * json)) (key : option string).

Inductive pmode : Type :=
| PValue | PArrFirst | PObjFirst | PKey | PColon | PAfter.

Inductive pres : Type :=
| PDone (v : json)
| PMore (st : list frame) (m : pmode)
| PFail.

Definition maxNestingDepth : N := 10000.

Definition scalar (t : token) : option json :=
  match t with
  | TStr s => Some (JStr s)
  | TNum l => Some (JNum l)
  | TTrue => Some (JBool true)
  | TFalse => Some (JBool false)
  | TNull => Some JNull
  | _ => None
  end.

(** A value is complete: it is the top-level value, or it joins the
    innermost open container. *)
Definition finish (v : json) (st : list frame) : pres :=
  match st with
  | [] => PDone v
  | FArr acc :: st' => PMore (FArr (v :: acc) :: st') PAfter
  | FObj acc (Some k) :: st' => PMore (FObj ((k, v) :: acc) None :: st') PAfter
  | FObj _ None :: _ => PFail
  end.

(** pushParseState: at most [maxNestingDepth] containers are open. *)
Definition openFrame (f : frame) (m : pmode) (st : list frame) : pres :=
  if (N.of_nat (List.length st) <? maxNestingDepth)%N
  then PMore (f :: st) m else PFail.

Definition pstep (st : list frame) (m : pmode) (t : token) : pres :=
  match m with
  | PValue | PArrFirst =>
      match t with
      | TLBrack => openFrame (FArr []) PArrFirst st
      | TLBrace => openFrame (FObj [] None) PObjFirst st
      | TRBrack =>
          match m, st with
          | PArrFirst, FArr [] :: st' => finish (JArr []) st'
          | _, _ => PFail
          end
      | _ =>
          match scalar t with
          | Some v => finish v st
          | None => PFail
          end
      end
  | PObjFirst | PKey =>
      match t, st with
      | TStr k, FObj acc None :: st' => PMore (FObj acc (Some k) :: st') PColon
      | TRBrace, FObj acc None :: st' =>
          match m with
          | PObjFirst => finish (JObj (rev acc)) st'
          | _ => PFail
          end
      | _, _ => PFail
      end
  | PColon =>
      match t with
      | TColon => PMore st PValue
      | _ => PFail
      end
  | PAfter =>
      match t, st with
      | TComma, FArr _ :: _ => PMore st PValue
      | TRBrack, FArr acc :: st' => finish (JArr (rev acc)) st'
      | TComma, FObj _ None :: _ => PMore st PKey
      | TRBrace, FObj acc None :: st' => finish (JObj (rev acc)) st'
      | _, _ => PFail
      end
  end.

(** The first JSON value of a token stream, and the tokens after it. *)
Fixpoint parseTokens (st : list frame) (m : pmode) (ts : list token)
  : option (json * list token) :=
  match ts with
  | [] => None
  | t :: ts' =>
      match pstep st m t with
      | PDone v => Some (v, ts')
      | PMore st' m' => parseTokens st' m' ts'
      | PFail => None
      end
  end.

(** What Decoder.Decode reads: the first value of the stream.  The bytes
    after it are left for the next call and never looked at here. *)
Definition readValue (text : string) : option json :=
  match parseTokens [] PValue (lex LIdle text) with
  | Some (v, _) => Some v
  | None => None
  end.

(** What Unmarshal accepts (checkValid): one value and nothing but white
    space around it. *)
Definition parse (text : string) : option json :=
  match parseTokens [] PValue (lex LIdle text) with
  | Some (v, []) => Some v
  | _ => None
  end.

(** *** Decoding into Go values (decode.go) *)

(** A type mismatch does not stop the decoding: it is recorded
    (decodeState.saveError), the value in hand is left as it was, and the
    rest of the input is still decoded.  A store therefore returns the new
    value and whether it met no mismatch. *)
Definition store (A : Type) : Type := A -> json -> A * bool.

(** literalStore on a bool: a JSON null leaves it unchanged. *)
Definition storeBool : store bool :=
  fun old v =>
    match v with
    | JBool b => (b, true)
    | JNull => (old, true)
    | _ => (old, false)
    end.

(** literalStore on a string. *)
Definition storeString : store string :=
  fun old v =>
    match v with
    | JStr s => (s, true)
    | JNull => (old, true)
    | _ => (old, false)
    end.

(** The element loop of decodeState.array on a []string: element [i] is
    decoded into slot [i] of the slice, which holds the old element when
    the slice was that long and the zero string otherwise. *)
Fixpoint storeElems (old : list string) (vs : list json) : list string * bool :=
  match vs with
  | [] => ([], true)
  | v :: vs' =>
      let '(x, ok1) := storeString (hd "" old) v in
      let '(xs, ok2) := storeElems (tl old) vs' in
      (x :: xs, ok1 && ok2)
  end.

(** A []string: null makes it nil, an array makes it a non-nil slice of the
    array's length, anything else is a mismatch. *)
Definition storeStrings : store (option (list string)) :=
  fun old v =>
    match v with
    | JNull => (None, true)
    | JArr vs =>
        let '(xs, ok) := storeElems (match old with Some l => l | None => [] end) vs in
        (Some xs, ok)
    | _ => (old, false)
    end.

(** A value of Go's empty interface, as the decoder builds it: nil, bool,
    float64 (kept as the literal it is the nearest float64 of), string,
    []interface{} and map[string]interface{}. *)
Inductive any : Type :=
| ANil
| ABool (b : bool)
| AFloat (lit : string)
| AString (s : string)
| ASlice (elems : list any)
| AMap (entries : list (string * any)).

(** m[k] = v on a map kept as a list of entries with distinct keys. *)
Fixpoint mapSet (k : string) (v : any) (m : list (string * any))
  : list (string * any) :=
  match m with
  | [] => [(k, v)]
  | (k', v') :: m' =>
      if String.eqb k' k then (k, v) :: m' else (k', v') :: mapSet k v m'
  end.

(** The parts of a number literal: sign, digits before and after the
    point, and the exponent. *)
Record numparts : Type := {
  npNeg : bool;
  npMant : Z;          (* the digits of integer part and fraction, as one integer *)
  npFrac : Z;          (* the number of fraction digits *)
  npExpNeg : bool;
  npExp : Z;
  npPhase : nat        (* 0: integer part, 1: fraction, 2: exponent *)
}.

Definition numpartsStep (p : numparts) (c : ascii) : numparts :=
  let d := Z.of_N (byteN c - 48) in
  if Ascii.eqb c "-"%char then
    match npPhase p with
    | 2%nat => {| npNeg := npNeg p; npMant := npMant p; npFrac := npFrac p;
                  npExpNeg := true; npExp := npExp p; npPhase := 2 |}
    | _ => {| npNeg := true; npMant := npMant p; npFrac := npFrac p;
              npExpNeg := npExpNeg p; npExp := npExp p; npPhase := npPhase p |}
    end
  else if Ascii.eqb c "+"%char then p
  else if Ascii.eqb c "."%char then
    {| npNeg := npNeg p; npMant := npMant p; npFrac := npFrac p;
       npExpNeg := npExpNeg p; npExp := npExp p; npPhase := 1 |}
  else if isExpLetter c then
    {| npNeg := npNeg p; npMant := npMant p; npFrac := npFrac p;
       npExpNeg := npExpNeg p; npExp := npExp p; npPhase := 2 |}
  else
    match npPhase p with
    | 0%nat => {| npNeg := npNeg p; npMant := npMant p * 10 + d; npFrac := npFrac p;
                  npExpNeg := npExpNeg p; npExp := npExp p; npPhase := 0 |}
    | 1%nat => {| npNeg := npNeg p; npMant := npMant p * 10 + d; npFrac := npFrac p + 1;
                  npExpNeg := npExpNeg p; npExp := npExp p; npPhase := 1 |}
    | _ => {| npNeg := npNeg p; npMant := npMant p; npFrac := npFrac p;
              npExpNeg := npExpNeg p; npExp := npExp p * 10 + d; npPhase := 2 |}
    end.

Fixpoint numpartsOf (p : numparts) (lit : string) : numparts :=
  match lit with
  | EmptyString => p
  | String c r => numpartsOf (numpartsStep p c) r
  end.

(** strconv.ParseFloat(lit, 64) fails on a JSON number exactly when the
    number rounds to an infinity: when its magnitude reaches
    2^1024 - 2^970, half way between the largest float64 and 2^1024. *)
Definition floatInRange (lit : string) : bool :=
  let p := numpartsOf {| npNeg := false; npMant := 0; npFrac := 0;
                         npExpNeg := false; npExp := 0; npPhase := 0 |} lit in
  let e := ((if npExpNeg p then - npExp p else npExp p) - npFrac p)%Z in
  let limit := (2 ^ 1024 - 2 ^ 970)%Z in
  (if 0 <=? e then npMant p * 10 ^ e <? limit
   else npMant p <? limit * 10 ^ (- e))%Z.

(** valueInterface: the Go value a JSON value decodes to in an empty
    interface.  A number out of float64's range is a mismatch and leaves
    nil. *)
Fixpoint valueInterface (v : json) : any * bool :=
  match v with
  | JNull => (ANil, true)
  | JBool b => (ABool b, true)
  | JNum lit => if floatInRange lit then (AFloat lit, true) else (ANil, false)
  | JStr s => (AString s, true)
  | JArr vs =>
      let r :=
        (fix elems (l : list json) : list any * bool :=
           match l with
           | [] => ([], true)
           | x :: l' =>
               let '(a, ok1) := valueInterface x in
               let '(r', ok2) := elems l' in
               (a :: r', ok1 && ok2)
           end) vs in
      (ASlice (fst r), snd r)
  | JObj ms =>
      let r :=
        (fix members (l : list (string * json)) (m : list (string * any))
           : list (string * any) * bool :=
           match l with
           | [] => (m, true)
           | (k, x) :: l' =>
               let '(a, ok1) := valueInterface x in
               let '(m', ok2) := members l' (mapSet k a m) in
               (m', ok1 && ok2)
           end) ms [] in
      (AMap (fst r), snd r)
  end.

(** An interface{} field that holds no pointer is overwritten. *)
Definition storeInterface : store any :=
  fun _ v => valueInterface v.

(** foldName: the form under which a key is compared with the field names
    when no field has exactly the key's name.  ASCII letters are folded to
    upper case; U+017F (long s) and U+212A (Kelvin sign) are the two runes
    outside ASCII that fold to ASCII letters. *)
Fixpoint foldName (s : string) : string :=
  match s with
  | EmptyString => EmptyString
  | String c r =>
      let n := byteN c in
      if ((97 <=? n) && (n <=? 122))%N then String (chr (n - 32)) (foldName r)
      else
        match r with
        | String c1 r1 =>
            if ((n =? 0xC5) && (byteN c1 =? 0xBF))%N then String "S" (foldName r1)
            else
              match r1 with
              | String c2 r2 =>
                  if ((n =? 0xE2) && (byteN c1 =? 0x84) && (byteN c2 =? 0xAA))%N
                  then String "K" (foldName r2)
                  else String c (foldName r)
              | EmptyString => String c (foldName r)
              end
        | EmptyString => String c (foldName r)
        end
  end.

(** The field a key names: the field of exactly that name, or else the
    first one equal to it under [foldName]. *)
Definition findField {F : Type} (fields : list (string * F)) (key : string)
  : option F :=
  match find (fun f => String.eqb (fst f) key) fields with
  | Some f => Some (snd f)
  | None =>
      match find (fun f => String.eqb (foldName (fst f)) (foldName key)) fields with
      | Some f => Some (snd f)
      | None => None
      end
  end.

(** decodeState.object on a struct: the members are taken in order, each
    is stored into the field its key names, and a member whose key names
    no field is skipped. *)
Fixpoint object {S : Type} (fields : list (string * store S))
  (members : list (string * json)) (s : S) : S * bool :=
  match members with
  | [] => (s, true)
  | (k, v) :: rest =>
      match findField fields k with
      | Some st =>
          let '(s1, ok1) := st s v in
          let '(s2, ok2) := object fields rest s1 in
          (s2, ok1 && ok2)
      | None => object fields rest s
      end
  end.

(** A struct: null leaves it unchanged, an object fills its fields,
    anything else is a mismatch. *)
Definition storeStruct {S : Type} (fields : list (string * store S)) : store S :=
  fun s v =>
    match v with
    | JNull => (s, true)
    | JObj members => object fields members s
    | _ => (s, false)
    end.

(** The store of a struct field, from the field's getter, its setter and
    the store of its type. *)
Definition field {S A : Type} (get : S -> A) (set : S -> A -> S) (st : store A)
  : store S :=
  fun s v => let '(x, ok) := st (get s) v in (set s x, ok).

(** The two errors the callers tell apart from success: the input is not
    (or does not start with) a JSON value (SyntaxError, io.EOF,
    io.ErrUnexpectedEOF), or a value does not fit the Go type it is bound
    for (UnmarshalTypeError). *)
Inductive error : Type :=
| SyntaxError
| UnmarshalTypeError.

(** json.Unmarshal(text, &s): the value of [s] afterwards and the error.
    Invalid text leaves [s] untouched. *)
Definition Unmarshal {S : Type} (st : store S) (text : string) (s : S)
  : S * option error :=
  match parse text with
  | None => (s, Some SyntaxError)
  | Some v =>
      let '(s', ok) := st s v in
      (s', if ok then None else Some UnmarshalTypeError)
  end.

(** json.NewDecoder(r).Decode(&s) on a reader that delivers [text]. *)
Definition Decode {S : Type} (st : store S) (text : string) (s : S)
  : S * option error :=
  match readValue text with
  | None => (s, Some SyntaxError)
  | Some v =>
      let '(s', ok) := st s v in
      (s', if ok then None else Some UnmarshalTypeError)
  end.

(** *** Encoding (encode.go) *)

Definition hexChar (n : N) : ascii :=
  (if n <? 10 then chr (48 + n) else chr (87 + n))%N.

(** One ASCII byte of a string, as Encoder writes it (HTML escaping is on
    by default). *)
Definition quoteByte (c : ascii) : string :=
  let n := byteN c in
  if Ascii.eqb c dquote || Ascii.eqb c "\"%char then String "\" (String c "")
  else if (n =? 8)%N then "\b"
  else if (n =? 12)%N then "\f"
  else if (n =? 10)%N then "\n"
  else if (n =? 13)%N then "\r"
  else if (n =? 9)%N then "\t"
  else if (n <? 32)%N || Ascii.eqb c "<"%char || Ascii.eqb c ">"%char
          || Ascii.eqb c "&"%char then
    "\u00" ++ String (hexChar (n / 16)) (String (hexChar (n mod 16)) "")
  else String c "".

(** The content of a string literal for a Go string given as byte units:
    bytes that are not well-formed UTF-8 are written as the escape of
    U+FFFD, and U+2028 and U+2029 are escaped. *)
Fixpoint quoteUnits (us : list sunit) : string :=
  match us with
  | [] => ""
  | UEsc _ :: rest => quoteUnits rest
  | UByte c :: rest =>
      if (byteN c <? 0x80)%N then quoteByte c ++ quoteUnits rest
      else
        match seqTail (byteN c) rest, rest with
        | 1%nat, UByte c1 :: r1 =>
            String c (String c1 (quoteUnits r1))
        | 2%nat, UByte c1 :: UByte c2 :: r2 =>
            if ((byteN c =? 0xE2) && (byteN c1 =? 0x80) && (byteN c2 =? 0xA8))%N
            then "\u2028" ++ quoteUnits r2
            else if ((byteN c =? 0xE2) && (byteN c1 =? 0x80) && (byteN c2 =? 0xA9))%N
            then "\u2029" ++ quoteUnits r2
            else String c (String c1 (String c2 (quoteUnits r2)))
        | 3%nat, UByte c1 :: UByte c2 :: UByte c3 :: r3 =>
            String c (String c1 (String c2 (String c3 (quoteUnits r3))))
        | _, _ => "\ufffd" ++ quoteUnits rest
        end
  end.

Definition quote (s : string) : string :=
  String dquote (quoteUnits (map UByte (list_ascii_of_string s)))
  ++ String dquote "".

(** The compact text of a value tree. *)
Fixpoint marshal (v : json) : string :=
  match v with
  | JNull => "null"
  | JBool true => "true"
  | JBool false => "false"
  | JNum lit => lit
  | JStr s => quote s
  | JArr vs =>
      "[" ++
      (fix elems (l : list json) : string :=
         match l with
         | [] => ""
         | [x] => marshal x
         | x :: l' => marshal x ++ "," ++ elems l'
         end) vs
      ++ "]"
  | JObj ms =>
      "{" ++
      (fix members (l : list (string * json)) : string :=
         match l with
         | [] => ""
         | [(k, x)] => quote k ++ ":" ++ marshal x
         | (k, x) :: l' => quote k ++ ":" ++ marshal x ++ "," ++ members l'
         end) ms
      ++ "}"
  end.

(** The value of the first member of an object with exactly the given
    key. *)
Definition member (k : string) (v : json) : option json :=
  match v with
  | JObj ms => option_map snd (find (fun e => String.eqb (fst e) k) ms)
  | _ => None
  end.

(** *** Which values fit which Go type *)

Definition fitsBool (v : json) : bool :=
  match v with
  | JBool _ | JNull => true
  | _ => false
  end.

Definition fitsString (v : json) : bool :=
  match v with
  | JStr _ | JNull => true
  | _ => false
  end.

Definition fitsStrings (v : json) : bool :=
  match v with
  | JNull => true
  | JArr vs => forallb fitsString vs
  | _ => false
  end.

(** Every number of the value is within float64's range. *)
Fixpoint fitsInterface (v : json) : bool :=
  match v with
  | JNum lit => floatInRange lit
  | JArr vs =>
      (fix all (l : list json) : bool :=
         match l with
         | [] => true
         | x :: l' => fitsInterface x && all l'
         end) vs
  | JObj ms =>
      (fix all (l : list (string * json)) : bool :=
         match l with
         | [] => true
         | (_, x) :: l' => fitsInterface x && all l'
         end) ms
  | _ => true
  end.

(** A value fits a struct when it is null, or an object each of whose
    members fits the field its key names, if it names one. *)
Definition fitsStruct (fields : list (string * (json -> bool))) (v : json) : bool :=
  match v with
  | JNull => true
  | JObj ms =>
      forallb (fun kv =>
                 match findField fields (fst kv) with
                 | Some fits => fits (snd kv)
                 | None => true
                 end) ms
  | _ => false
  end.

(** A table of stores and a table of types agree when each store reports
    a mismatch exactly on the values that do not fit the type. *)
Definition agree {S : Type} (fields : list (string * store S))
  (types : list (string * (json -> bool))) : Prop :=
  Forall2 (fun f t => fst f = fst t /\
                      forall s v, snd (snd f s v) = snd t v) fields types.

End JSON.

(** * net/http, as far as the handlers use it *)

Module HTTP.

Definition StatusOK : Z := 200.
Definition StatusBadRequest : Z := 400.
Definition StatusMethodNotAllowed : Z := 405.
Definition StatusBadGateway : Z := 502.
Definition StatusServiceUnavailable : Z := 503.

Definition MethodGet : string := "GET".
Definition MethodPost : string := "POST".
Definition MethodOptions : string := "OPTIONS".

(** The incoming request: its method and the bytes of its body. *)
Record Request : Type := {
  Method : string;
  Body : string
}.

Definition Header : Type := list (string * string).

(** Header.Set and Header.Del.  Every key the handlers use is in canonical
    form already. *)
Fixpoint headerSet (k v : string) (h : Header) : Header :=
  match h with
  | [] => [(k, v)]
  | (k', v') :: h' =>
      if String.eqb k' k then (k, v) :: h' else (k', v') :: headerSet k v h'
  end.

Definition headerDel (k : string) (h : Header) : Header :=
  filter (fun e => negb (String.eqb (fst e) k)) h.

Fixpoint headerGet (k : string) (h : Header) : option string :=
  match h with
  | [] => None
  | (k', v) :: h' => if String.eqb k' k then Some v else headerGet k h'
  end.

(** The ResponseWriter of one request: the header map the handler edits,
    the status line and headers once they are written, and the body bytes
    written so far.  Writes to it do not fail. *)
Record ResponseWriter : Type := {
  header : Header;
  wroteHeader : option (Z * Header);
  written : string
}.

Definition newResponseWriter : ResponseWriter :=
  {| header := []; wroteHeader := None; written := "" |}.

Definition setHeader (k v : string) (w : ResponseWriter) : ResponseWriter :=
  {| header := headerSet k v (header w);
     wroteHeader := wroteHeader w;
     written := written w |}.

Definition delHeader (k : string) (w : ResponseWriter) : ResponseWriter :=
  {| header := headerDel k (header w);
     wroteHeader := wroteHeader w;
     written := written w |}.

(** WriteHeader sends the status and the headers as they are now; a second
    call changes nothing. *)
Definition WriteHeader (code : Z) (w : ResponseWriter) : ResponseWriter :=
  match wroteHeader w with
  | Some _ => w
  | None =>
      {| header := header w;
         wroteHeader := Some (code, header w);
         written := written w |}
  end.

(** Write sends the header with status 200 first when it was not sent.
    (The Content-Type that net/http derives from the first bytes of the
    body when the handler set none, and the headers it adds on its own,
    such as Date, are left out.) *)
Definition Write (data : string) (w : ResponseWriter) : ResponseWriter :=
  let w' := WriteHeader StatusOK w in
  {| header := header w';
     wroteHeader := wroteHeader w';
     written := written w' ++ data |}.

(** http.Error: plain-text headers, the status, and the message on a line. *)
Definition Error (w : ResponseWriter) (msg : string) (code : Z) : ResponseWriter :=
  let w := delHeader "Content-Length" w in
  let w := setHeader "Content-Type" "text/plain; charset=utf-8" w in
  let w := setHeader "X-Content-Type-Options" "nosniff" w in
  let w := WriteHeader code w in
  Write (msg ++ String "010"%char "") w.

(** What the client receives once the handler has returned. *)
Record Served : Type := {
  status : Z;
  headers : Header;
  body : string
}.

Definition served (w : ResponseWriter) : Served :=
  match wroteHeader w with
  | Some (code, h) => {| status := code; headers := h; body := written w |}
  | None => {| status := StatusOK; headers := header w; body := "" |}
  end.

End HTTP.

(** * package main *)

Module Main.

Import JSON HTTP.

(** ** Types *)

Record Config : Type := {
  OllamaURL : string;
  Model : string;
  PromptTemplate : string;
  Policies : option (list string);
  ResponseFormat : any
}.

Record analyzeRequest : Type := {
  Messages : option (list string)
}.

Record analysisResult : Type := {
  Content : string;
  IsSafe : bool;
  ViolatedPolicies : option (list string)
}.

Record ollamaGenerateRequest : Type := {
  ReqModel : string;
  Prompt : string;
  Stream : bool;
  Format : any
}.

Record moderationResult : Type := {
  Safe : bool;
  ModViolatedPolicies : option (list string)
}.

(** The anonymous struct [ollamaResp] of analyzeMessage. *)
Record ollamaResponse : Type := {
  Response : string
}.

(** [len] of a slice; a nil slice has length 0. *)
Definition len {A : Type} (s : option (list A)) : nat :=
  match s with
  | Some l => List.length l
  | None => 0
  end.

(** The elements a [range] loop visits. *)
Definition elements {A : Type} (s : option (list A)) : list A :=
  match s with
  | Some l => l
  | None => []
  end.

(** ** How encoding/json sees the structs: zero values and json tags *)

Definition zeroConfig : Config :=
  {| OllamaURL := ""; Model := ""; PromptTemplate := "";
     Policies := None; ResponseFormat := ANil |}.

Definition Config_fields : list (string * store Config) :=
  [ ("ollama_url",
     field OllamaURL
       (fun c x => {| OllamaURL := x; Model := Model c;
                      PromptTemplate := PromptTemplate c;
                      Policies := Policies c;
                      ResponseFormat := ResponseFormat c |})
       storeString);
    ("model",
     field Model
       (fun c x => {| OllamaURL := OllamaURL c; Model := x;
                      PromptTemplate := PromptTemplate c;
                      Policies := Policies c;
                      ResponseFormat := ResponseFormat c |})
       storeString);
    ("prompt_template",
     field PromptTemplate
       (fun c x => {| OllamaURL := OllamaURL c; Model := Model c;
                      PromptTemplate := x;
                      Policies := Policies c;
                      ResponseFormat := ResponseFormat c |})
       storeString);
    ("policies",
     field Policies
       (fun c x => {| OllamaURL := OllamaURL c; Model := Model c;
                      PromptTemplate := PromptTemplate c;
                      Policies := x;
                      ResponseFormat := ResponseFormat c |})
       storeStrings);
    ("response_format",
     field ResponseFormat
       (fun c x => {| OllamaURL := OllamaURL c; Model := Model c;
                      PromptTemplate := PromptTemplate c;
                      Policies := Policies c;
                      ResponseFormat := x |})
       storeInterface) ].

Definition zeroAnalyzeRequest : analyzeRequest := {| Messages := None |}.

Definition analyzeRequest_fields : list (string * store analyzeRequest) :=
  [ ("messages",
     field Messages (fun _ x => {| Messages := x |}) storeStrings) ].

Definition zeroModerationResult : moderationResult :=
  {| Safe := false; ModViolatedPolicies := None |}.

Definition moderationResult_fields : list (string * store moderationResult) :=
  [ ("safe",
     field Safe
       (fun m x => {| Safe := x; ModViolatedPolicies := ModViolatedPolicies m |})
       storeBool);
    ("violated_policies",
     field ModViolatedPolicies
       (fun m x => {| Safe := Safe m; ModViolatedPolicies := x |})
       storeStrings) ].

Definition zeroOllamaResponse : ollamaResponse := {| Response := "" |}.

Definition ollamaResponse_fields : list (string * store ollamaResponse) :=
  [ ("response",
     field Response (fun _ x => {| Response := x |}) storeString) ].

(** What the encoder writes for a []string and for an analysisResult. *)
Definition encodeStrings (s : option (list string)) : json :=
  match s with
  | None => JNull
  | Some l => JArr (map JStr l)
  end.

Definition encodeResult (r : analysisResult) : json :=
  JObj [ ("content", JStr (Content r));
         ("is_safe", JBool (IsSafe r));
         ("violated_policies", encodeStrings (ViolatedPolicies r)) ].

(** json.NewEncoder(w).Encode(results) writes the array and a newline. *)
Definition encodeResults (results : list analysisResult) : string :=
  marshal (JArr (map encodeResult results)) ++ String "010"%char "".

(** ** Errors and log lines *)

(** The errors main.go builds with fmt.Errorf, by their message. *)
Inductive err : Type :=
| ErrReadingConfig        (* error reading config file *)
| ErrParsingConfig (e : JSON.error)   (* error parsing config file *)
| ErrMissingFields        (* missing required fields in config *)
| ErrParsingTemplate      (* error parsing prompt template *)
| ErrExecutingTemplate    (* error executing template *)
| ErrGeneratingPrompt (e : err)       (* error generating prompt *)
| ErrAPIRequestFailed     (* API request failed *)
| ErrDecodingResponse (e : JSON.error)    (* error decoding response *)
| ErrParsingModeration (e : JSON.error).  (* error parsing moderation result *)

Inductive result (A : Type) : Type :=
| Ok (a : A)
| Err (e : err).

Arguments Ok {A} a.
Arguments Err {A} e.

Inductive logline : Type :=
| LogAnalyzeError (message : string) (e : err)
| LogCopyError.

(** ** The world outside the process *)

Inductive payload : Type :=
| NoBody
| JSONBody (g : ollamaGenerateRequest).

(** A request to the backend.  Its body is the value json.Marshal is
    applied to. *)
Record ClientRequest : Type := {
  reqMethod : string;
  reqURL : string;
  reqHeader : Header;
  reqBody : payload
}.

(** A response of the backend: its status, the body bytes received, and
    whether reading the body ended in an error rather than at its end. *)
Record ClientResponse : Type := {
  StatusCode : Z;
  respBody : string;
  respBodyErr : bool
}.

Inductive DoResult : Type :=
| DoError (msg : string)
| DoResponse (resp : ClientResponse).

(** The environment: text/template (with the function map of
    generatePrompt), net/url's parser as NewRequestWithContext calls it,
    the backend behind http.DefaultClient.Do (its answer may depend on the
    requests it received before; a cancelled request context shows as an
    error), and os.ReadFile. *)
Record Env : Type := {
  Template : Type;
  templateParse : string -> option Template;
  templateExecute : Template -> string -> option (list string) -> option string;
  urlParseError : string -> option string;
  clientDo : list ClientRequest -> ClientRequest -> DoResult;
  readFile : string -> option string
}.

(** What a run has done so far: the calls of Do, and the log. *)
Record World : Type := {
  sent : list ClientRequest;
  logged : list logline
}.

Definition emptyWorld : World := {| sent := []; logged := [] |}.

(** A computation either returns or panics (a nil dereference; net/http
    recovers it and closes the connection without a response). *)
Inductive outcome (A : Type) : Type :=
| Returned (a : A)
| Panicked.

Arguments Returned {A} a.
Arguments Panicked {A}.

Definition M (A : Type) : Type := World -> outcome A * World.

Definition ret {A : Type} (a : A) : M A := fun w => (Returned a, w).

Definition bind {A B : Type} (m : M A) (k : A -> M B) : M B :=
  fun w =>
    match m w with
    | (Returned a, w') => k a w'
    | (Panicked, w') => (Panicked, w')
    end.

Definition panic {A : Type} : M A := fun w => (Panicked, w).

Notation "x <- m ;; k" := (bind m (fun x => k))
  (at level 61, m at next level, right associativity).
Notation "m ;;; k" := (bind m (fun _ => k))
  (at level 61, right associativity).

Definition logPrintf (l : logline) : M unit :=
  fun w => (Returned tt, {| sent := sent w; logged := logged w ++ [l] |}).

Section Service.

Variable env : Env.

(** http.DefaultClient.Do *)
Definition Do (req : ClientRequest) : M DoResult :=
  fun w =>
    (Returned (clientDo env (sent w) req),
     {| sent := sent w ++ [req]; logged := logged w |}).

(** http.NewRequestWithContext with a valid method and a context: it fails
    exactly when the URL does not parse. *)
Definition NewRequest (method url : string) (body : payload)
  : ClientRequest + string :=
  match urlParseError env url with
  | Some msg => inr msg
  | None =>
      inl {| reqMethod := method; reqURL := url; reqHeader := []; reqBody := body |}
  end.

Definition reqHeaderSet (k v : string) (req : ClientRequest) : ClientRequest :=
  {| reqMethod := reqMethod req; reqURL := reqURL req;
     reqHeader := headerSet k v (reqHeader req); reqBody := reqBody req |}.

(** ** loadConfig *)

Definition loadConfig (path : string) : result Config :=
  match readFile env path with
  | None => Err ErrReadingConfig
  | Some data =>
      match Unmarshal (storeStruct Config_fields) data zeroConfig with
      | (_, Some e) => Err (ErrParsingConfig e)
      | (cfg, None) =>
          if String.eqb (OllamaURL cfg) "" || String.eqb (Model cfg) ""
             || String.eqb (PromptTemplate cfg) ""
          then Err ErrMissingFields
          else Ok cfg
      end
  end.

(** ** generatePrompt *)

Definition generatePrompt (message : string) (policies : option (list string))
  (promptTemplate : string) : result string :=
  match templateParse env promptTemplate with
  | None => Err ErrParsingTemplate
  | Some tmpl =>
      match templateExecute env tmpl message policies with
      | None => Err ErrExecutingTemplate
      | Some text => Ok text
      end
  end.

(** ** analyzeMessage *)

Definition analyzeMessage (message : string) (cfg : Config)
  : M (result analysisResult) :=
  match generatePrompt message (Policies cfg) (PromptTemplate cfg) with
  | Err e => ret (Err (ErrGeneratingPrompt e))
  | Ok prompt =>
      let ollamaReq :=
        {| ReqModel := Model cfg; Prompt := prompt; Stream := false;
           Format := ResponseFormat cfg |} in
      let url := OllamaURL cfg ++ "/api/generate" in
      (* the error of NewRequestWithContext is dropped: on failure req is
         nil and req.Header.Set dereferences it *)
      match NewRequest MethodPost url (JSONBody ollamaReq) with
      | inr _ => panic
      | inl req =>
          let req := reqHeaderSet "Content-Type" "application/json" req in
          r <- Do req ;;
          match r with
          | DoError _ => ret (Err ErrAPIRequestFailed)
          | DoResponse resp =>
              if negb (StatusCode resp =? StatusOK)%Z
              then ret (Err ErrAPIRequestFailed)
              else
                match Decode (storeStruct ollamaResponse_fields)
                        (respBody resp) zeroOllamaResponse with
                | (_, Some e) => ret (Err (ErrDecodingResponse e))
                | (ollamaResp, None) =>
                    match Unmarshal (storeStruct moderationResult_fields)
                            (Response ollamaResp) zeroModerationResult with
                    | (_, Some e) => ret (Err (ErrParsingModeration e))
                    | (modResult, None) =>
                        ret (Ok {| Content := message;
                                   IsSafe := Safe modResult;
                                   ViolatedPolicies := ModViolatedPolicies modResult |})
                    end
                end
          end
      end
  end.

(** ** handleAnalyze *)

(** The loop over req.Messages, with the results appended so far. *)
Fixpoint analyzeLoop (cfg : Config) (messages : list string)
  (results : list analysisResult) : M (list analysisResult) :=
  match messages with
  | [] => ret results
  | message :: rest =>
      r <- analyzeMessage message cfg ;;
      match r with
      | Err e =>
          logPrintf (LogAnalyzeError message e) ;;;
          analyzeLoop cfg rest results
      | Ok result => analyzeLoop cfg rest (results ++ [result])%list
      end
  end.

Definition Handler : Type := ResponseWriter -> Request -> M ResponseWriter.

Definition handleAnalyze (cfg : Config) : Handler :=
  fun w r =>
    if negb (String.eqb (Method r) MethodPost) then
      ret (Error w "Method not allowed" StatusMethodNotAllowed)
    else
      match Decode (storeStruct analyzeRequest_fields) (Body r)
              zeroAnalyzeRequest with
      | (_, Some _) => ret (Error w "Invalid request body" StatusBadRequest)
      | (req, None) =>
          if (len (Messages req) =? 0)%nat then
            ret (Error w "Messages array cannot be empty" StatusBadRequest)
          else
            results <- analyzeLoop cfg (elements (Messages req)) [] ;;
            let w := setHeader "Content-Type" "application/json" w in
            (* Encode cannot fail on a []analysisResult *)
            ret (Write (encodeResults results) w)
      end.

(** ** corsMiddleware *)

Definition corsMiddleware (next : Handler) : Handler :=
  fun w r =>
    let w := setHeader "Access-Control-Allow-Origin" "*" w in
    let w := setHeader "Access-Control-Allow-Methods" "POST, OPTIONS" w in
    let w := setHeader "Access-Control-Allow-Headers" "Content-Type" w in
    if String.eqb (Method r) MethodOptions then
      ret (WriteHeader StatusOK w)
    else next w r.

(** ** handleOllamaHealth *)

(** fmt's %d of an int. *)
Definition itoa (n : Z) : string := NilEmpty.string_of_int (Z.to_int n).

Definition handleOllamaHealth (ollamaURL : string) : Handler :=
  fun w r =>
    let url := ollamaURL ++ "/api/version" in
    match NewRequest MethodGet url NoBody with
    | inr msg =>
        ret (Error w ("creating version request: " ++ msg) StatusServiceUnavailable)
    | inl req =>
        res <- Do req ;;
        match res with
        | DoError msg =>
            ret (Error w ("connecting to Ollama: " ++ msg) StatusServiceUnavailable)
        | DoResponse resp =>
            if negb (StatusCode resp =? StatusOK)%Z then
              ret (Error w
                     ("unexpected version status code " ++ itoa (StatusCode resp)
                      ++ ": " ++ respBody resp)
                     StatusBadGateway)
            else
              let w := Write "ollama: " w in
              let w := Write (respBody resp) w in
              if respBodyErr resp
              then logPrintf LogCopyError ;;; ret w
              else ret w
        end
    end.

(** ** main: the handlers it registers *)

Definition handleRoot : Handler :=
  fun w _ => ret (Write "Content moderation service is running" w).

Definition apiHealth (cfg : Config) : Handler :=
  corsMiddleware (handleOllamaHealth (OllamaURL cfg)).

Definition apiAnalyze (cfg : Config) : Handler :=
  corsMiddleware (handleAnalyze cfg).

(** main: a configuration that does not load is fatal (log.Fatalf);
    otherwise the server starts with the configuration loaded. *)
Inductive startup : Type :=
| Fatal (e : err)
| Serving (cfg : Config).

Definition main : startup :=
  match loadConfig "config.json" with
  | Err e => Fatal e
  | Ok cfg => Serving cfg
  end.

(** net/http hands each request a new ResponseWriter. *)
Definition serve (h : Handler) (r : Request) : M Served :=
  w <- h newResponseWriter r ;; ret (served w).

End Service.

(** ** Vocabulary of the properties *)

(** The Go type of each json-tagged field. *)
Definition Config_types : list (string * (json -> bool)) :=
  [ ("ollama_url", fitsString); ("model", fitsString);
    ("prompt_template", fitsString); ("policies", fitsStrings);
    ("response_format", fitsInterface) ].

Definition analyzeRequest_types : list (string * (json -> bool)) :=
  [ ("messages", fitsStrings) ].

Definition moderationResult_types : list (string * (json -> bool)) :=
  [ ("safe", fitsBool); ("violated_policies", fitsStrings) ].

(** The key of a member names the given field of a struct with the given
    json tags. *)
Definition names (tags : list string) (tag key : string) : bool :=
  match findField (map (fun t => (t, t)) tags) key with
  | Some t => String.eqb t tag
  | None => false
  end.

Definition Config_tags : list string :=
  [ "ollama_url"; "model"; "prompt_template"; "policies"; "response_format" ].


Definition analyzeRequest_tags : list string := [ "messages" ].

(** The headers corsMiddleware sets. *)
Definition corsHeaders (w : ResponseWriter) : ResponseWriter :=
  setHeader "Access-Control-Allow-Headers" "Content-Type"
    (setHeader "Access-Control-Allow-Methods" "POST, OPTIONS"
       (setHeader "Access-Control-Allow-Origin" "*" w)).

(** Nothing of the response has been sent yet. *)
Definition unsent (w : ResponseWriter) : Prop :=
  wroteHeader w = None /\ written w = "".

(** The request analyzeMessage builds for a prompt. *)
Definition generateRequest (cfg : Config) (prompt : string) : ClientRequest :=
  {| reqMethod := "POST";
     reqURL := OllamaURL cfg ++ "/api/generate";
     reqHeader := [("Content-Type", "application/json")];
     reqBody := JSONBody {| ReqModel := Model cfg; Prompt := prompt;
                            Stream := false; Format := ResponseFormat cfg |} |}.

(** The model's answer to a message: the prompt is generated, the URL of
    the backend parses, the backend replies with status 200, and the reply
    decodes to the given response text. *)
Definition answers (env : Env) (cfg : Config) (message : string) (w : World)
  (prompt text : string) : Prop :=
  generatePrompt env message (Policies cfg) (PromptTemplate cfg) = Ok prompt /\
  urlParseError env (OllamaURL cfg ++ "/api/generate") = None /\
  exists resp,
    clientDo env (sent w) (generateRequest cfg prompt) = DoResponse resp /\
    StatusCode resp = StatusOK /\
    Decode (storeStruct ollamaResponse_fields) (respBody resp)
      zeroOllamaResponse = ({| Response := text |}, None).


(** The request handleOllamaHealth builds. *)
Definition versionRequest (ollamaURL : string) : ClientRequest :=
  {| reqMethod := "GET";
     reqURL := ollamaURL ++ "/api/version";
     reqHeader := [];
     reqBody := NoBody |}.

Definition addLog (l : logline) (w : World) : World :=
  {| sent := sent w; logged := logged w ++ [l] |}.

Definition addSent (req : ClientRequest) (w : World) : World :=
  {| sent := sent w ++ [req]; logged := logged w |}.

(** The analyses of a batch, one after the other: each message is analysed
    in the world the previous ones left, a failure leaving its log line. *)
Inductive runs (env : Env) (cfg : Config)
  : list string -> World -> list (result analysisResult) -> World -> Prop :=
| runs_nil : forall w, runs env cfg [] w [] w
| runs_ok : forall message rest w w1 w2 res outs,
    analyzeMessage env message cfg w = (Returned (Ok res), w1) ->
    runs env cfg rest w1 outs w2 ->
    runs env cfg (message :: rest) w (Ok res :: outs) w2
| runs_err : forall message rest w w1 w2 e outs,
    analyzeMessage env message cfg w = (Returned (Err e), w1) ->
    runs env cfg rest (addLog (LogAnalyzeError message e) w1) outs w2 ->
    runs env cfg (message :: rest) w (Err e :: outs) w2.

(** The results of the analyses that succeeded, in order. *)
Fixpoint successes (outs : list (result analysisResult)) : list analysisResult :=
  match outs with
  | [] => []
  | Ok res :: rest => res :: successes rest
  | Err _ :: rest => successes rest
  end.

Definition succeeded (out : result analysisResult) : Prop :=
  exists res, out = Ok res.

(** The response headers of a successful /api/analyze. *)
Definition analyzeHeaders : Header :=
  [ ("Access-Control-Allow-Origin", "*");
    ("Access-Control-Allow-Methods", "POST, OPTIONS");
    ("Access-Control-Allow-Headers", "Content-Type");
    ("Content-Type", "application/json") ].

(** The response headers of http.Error behind corsMiddleware. *)
Definition errorHeaders : Header :=
  [ ("Access-Control-Allow-Origin", "*");
    ("Access-Control-Allow-Methods", "POST, OPTIONS");
    ("Access-Control-Allow-Headers", "Content-Type");
    ("Content-Type", "text/plain; charset=utf-8");
    ("X-Content-Type-Options", "nosniff") ].

Definition newline : string := String "010"%char "".

(** ** Test doubles *)

Module Demo.

(** text/template restricted to templates whose only action is
    [{{.Message}}]: any other action is refused when parsing. *)
Fixpoint render (skip : nat) (t message : string) : option string :=
  match t with
  | EmptyString => Some EmptyString
  | String c r =>
      match skip with
      | S k => render k r message
      | O =>
          if String.prefix "{{.Message}}" t
          then option_map (String.append message) (render 11 r message)
          else if String.prefix "{{" t then None
          else option_map (String c) (render 0 r message)
      end
  end.

(** A URL parser that knows http URLs without blanks. *)
Fixpoint hasBlank (s : string) : bool :=
  match s with
  | EmptyString => false
  | String c r => Ascii.eqb c " "%char || hasBlank r
  end.

Definition urlError (u : string) : option string :=
  if String.prefix "http://" u && negb (hasBlank u) then None
  else Some "invalid URL".

Definition configText : string :=
  js "{'ollama_url':'http://localhost:11434','model':'mistral','prompt_template':'Input: {{.Message}}','policies':['hate/harassment'],'response_format':{'type':'object'}}".

Definition envWith (config : string)
  (backend : list ClientRequest -> ClientRequest -> DoResult) : Env :=
  {| Template := string;
     templateParse := fun t =>
       match render 0 t "" with Some _ => Some t | None => None end;
     templateExecute := fun t m _ => render 0 t m;
     urlParseError := urlError;
     clientDo := backend;
     readFile := fun p =>
       if String.eqb p "config.json" then Some config else None |}.

Definition env : (list ClientRequest -> ClientRequest -> DoResult) -> Env :=
  envWith configText.

(** A configuration file with the three required fields only. *)
Definition minimalConfigText : string :=
  js "{'ollama_url':'http://localhost:11434','model':'mistral','prompt_template':'Input: {{.Message}}'}".

Definition cfg : Config :=
  {| OllamaURL := "http://localhost:11434";
     Model := "mistral";
     PromptTemplate := "Input: {{.Message}}";
     Policies := Some ["hate/harassment"];
     ResponseFormat := AMap [("type", AString "object")] |}.

(** The same configuration with a template that does not parse. *)
Definition cfgBadTemplate : Config :=
  {| OllamaURL := "http://localhost:11434";
     Model := "mistral";
     PromptTemplate := "Input: {{.Message";
     Policies := Some ["hate/harassment"];
     ResponseFormat := AMap [("type", AString "object")] |}.

Definition ok200 (text : string) : DoResult :=
  DoResponse {| StatusCode := 200; respBody := text; respBodyErr := false |}.

(** A backend whose model always answers with the given text. *)
Definition answering (text : string) : list ClientRequest -> ClientRequest -> DoResult :=
  fun _ _ =>
    ok200 (marshal (JObj [("model", JStr "mistral"); ("response", JStr text);
                          ("done", JBool true)])).

(** A backend that is down. *)
Definition down : list ClientRequest -> ClientRequest -> DoResult :=
  fun _ _ => DoError "connection refused".

(** A backend that answers every request with status 500. *)
Definition failing : list ClientRequest -> ClientRequest -> DoResult :=
  fun _ _ =>
    DoResponse {| StatusCode := 500; respBody := "boom"; respBodyErr := false |}.

(** A backend whose model answers well the first time, with prose the
    second time, and with an empty object afterwards. *)
Definition moody : list ClientRequest -> ClientRequest -> DoResult :=
  fun before _ =>
    match before with
    | [] => answering (js "{'safe': false, 'violated_policies': ['hate/harassment','self-harm encouragement']}") before (versionRequest "")
    | [_] => answering "I cannot help with that." before (versionRequest "")
    | _ => answering "{}" before (versionRequest "")
    end.

Definition post (text : string) : Request :=
  {| Method := "POST"; Body := text |}.

End Demo.

End Main.

(** * Batches: further vocabulary *)

Module Batch.

Import JSON HTTP Main.

(** The requests a batch gives rise to: one for each message whose prompt
    is generated, in the order of the batch. *)
Definition requestsFor (env : Env) (cfg : Config) (msgs : list string)
  : list ClientRequest :=
  flat_map
    (fun m =>
       match generatePrompt env m (Policies cfg) (PromptTemplate cfg) with
       | Ok prompt => [generateRequest cfg prompt]
       | Err _ => []
       end) msgs.

(** The log lines a batch leaves: one for each message whose analysis
    failed, in the order of the batch. *)
Fixpoint failureLog (msgs : list string) (outs : list (result analysisResult))
  : list logline :=
  match msgs, outs with
  | m :: msgs', Err e :: outs' => LogAnalyzeError m e :: failureLog msgs' outs'
  | _ :: msgs', Ok _ :: outs' => failureLog msgs' outs'
  | _, _ => []
  end.

(** The backend never answers with status 200: it is down, or it answers
    with errors. *)
Definition unavailable (env : Env) : Prop :=
  forall before req resp,
    clientDo env before req = DoResponse resp -> StatusCode resp <> StatusOK.

(** A test double with several files. *)
Definition envFiles (files : list (string * string))
  (backend : list ClientRequest -> ClientRequest -> DoResult) : Env :=
  {| Template := string;
     templateParse := fun t =>
       match Demo.render 0 t "" with Some _ => Some t | None => None end;
     templateExecute := fun t m _ => Demo.render 0 t m;
     urlParseError := Demo.urlError;
     clientDo := backend;
     readFile := fun p =>
       option_map snd (find (fun f => String.eqb (fst f) p) files) |}.

(** The configuration of [Demo.cfg] with a backend URL that does not
    parse. *)
Definition cfgBadURL : Config :=
  {| OllamaURL := "http://local host:11434";
     Model := "mistral";
     PromptTemplate := "Input: {{.Message}}";
     Policies := Some ["hate/harassment"];
     ResponseFormat := AMap [("type", AString "object")] |}.

End Batch.

(** * package main, the earlier revision *)

(** The revision of main.go that has its configuration written into the
    code.  The types, and with them what encoding/json does with them, are
    those of the later revision. *)
Module Legacy.

Import JSON HTTP.

Definition modelName : string := "mistral".
Definition ollamaURL : string := "http://localhost:11434".

(** The two parts of the format string of generatePrompt, before and
    after its [%s]. *)
Definition promptHead : string :=
  js "You are a content moderation system. Follow these policies:
1. Hate/harassment is disallowed.
2. Sexual content is disallowed.
3. Self-harm encouragement is disallowed.
4. Violence/graphic content is disallowed.

User input: '".

Definition promptTail : string :=
  js "'

Return a JSON object with {'safe': boolean, 'violated_policies': string[]}.".

(** ** generatePrompt *)

Definition generatePrompt (message : string) : string :=
  promptHead ++ message ++ promptTail.

(** ** Errors, log lines and the world *)

(** The errors of analyzeMessage, by their message. *)
Inductive failure : Type :=
| APIRequestFailed       (* API request failed *)
| InvalidJSONResponse.   (* invalid JSON response *)

Inductive logline : Type :=
| LogAnalyzeError (message : string) (e : failure)
| LogCopyError.

Record World : Type := {
  sent : list Main.ClientRequest;
  logged : list logline
}.

Definition emptyWorld : World := {| sent := []; logged := [] |}.

Definition M (A : Type) : Type := World -> Main.outcome A * World.

Definition ret {A : Type} (a : A) : M A := fun w => (Main.Returned a, w).

Definition bind {A B : Type} (m : M A) (k : A -> M B) : M B :=
  fun w =>
    match m w with
    | (Main.Returned a, w') => k a w'
    | (Main.Panicked, w') => (Main.Panicked, w')
    end.

Definition panic {A : Type} : M A := fun w => (Main.Panicked, w).

Notation "x <- m ;; k" := (bind m (fun x => k))
  (at level 61, m at next level, right associativity).
Notation "m ;;; k" := (bind m (fun _ => k))
  (at level 61, right associativity).

Definition logPrintf (l : logline) : M unit :=
  fun w => (Main.Returned tt, {| sent := sent w; logged := logged w ++ [l] |}%list).

Section Service.

Variable env : Main.Env.

Definition Do (req : Main.ClientRequest) : M Main.DoResult :=
  fun w =>
    (Main.Returned (Main.clientDo env (sent w) req),
     {| sent := (sent w ++ [req])%list; logged := logged w |}).

(** ** analyzeMessage *)

(** The response format of analyzeMessage, a literal of maps and slices,
    as the value json.Marshal writes for it. *)
Definition responseFormat : any :=
  AMap [ ("type", AString "object");
         ("properties",
          AMap [ ("safe", AMap [("type", AString "boolean")]);
                 ("violated_policies",
                  AMap [ ("type", AString "array");
                         ("items", AMap [("type", AString "string")]) ]) ]);
         ("required", ASlice [AString "safe"; AString "violated_policies"]) ].

Definition analyzeMessage (message : string)
  : M (Main.analysisResult + failure) :=
  let ollamaReq :=
    {| Main.ReqModel := "llama3.2:1b";
       Main.Prompt := generatePrompt message;
       Main.Stream := false;
       Main.Format := responseFormat |} in
  (* the error of NewRequestWithContext is dropped *)
  match Main.NewRequest env "POST" "http://localhost:11434/api/generate"
          (Main.JSONBody ollamaReq) with
  | inr _ => panic
  | inl req =>
      let req := Main.reqHeaderSet "Content-Type" "application/json" req in
      r <- Do req ;;
      match r with
      | Main.DoError _ => ret (inr APIRequestFailed)
      | Main.DoResponse resp =>
          if negb (Main.StatusCode resp =? StatusOK)%Z
          then ret (inr APIRequestFailed)
          else
            (* the error of Decode is dropped *)
            let '(ollamaResp, _) :=
              Decode (storeStruct Main.ollamaResponse_fields)
                (Main.respBody resp) Main.zeroOllamaResponse in
            match Unmarshal (storeStruct Main.moderationResult_fields)
                    (Main.Response ollamaResp) Main.zeroModerationResult with
            | (_, Some _) => ret (inr InvalidJSONResponse)
            | (modResult, None) =>
                ret (inl {| Main.Content := message;
                            Main.IsSafe := Main.Safe modResult;
                            Main.ViolatedPolicies :=
                              Main.ModViolatedPolicies modResult |})
            end
      end
  end.

(** ** handleAnalyze *)

Fixpoint analyzeLoop (messages : list string)
  (results : list Main.analysisResult) : M (list Main.analysisResult) :=
  match messages with
  | [] => ret results
  | message :: rest =>
      r <- analyzeMessage message ;;
      match r with
      | inr e =>
          logPrintf (LogAnalyzeError message e) ;;;
          analyzeLoop rest results
      | inl result => analyzeLoop rest (results ++ [result])%list
      end
  end.

Definition Handler : Type := ResponseWriter -> Request -> M ResponseWriter.

Definition handleAnalyze : Handler :=
  fun w r =>
    if negb (String.eqb (Method r) MethodPost) then
      ret (Error w "Method not allowed" StatusMethodNotAllowed)
    else
      match Decode (storeStruct Main.analyzeRequest_fields) (Body r)
              Main.zeroAnalyzeRequest with
      | (_, Some _) => ret (Error w "Invalid request body" StatusBadRequest)
      | (req, None) =>
          if (Main.len (Main.Messages req) =? 0)%nat then
            ret (Error w "Messages array cannot be empty" StatusBadRequest)
          else
            results <- analyzeLoop (Main.elements (Main.Messages req)) [] ;;
            let w := setHeader "Content-Type" "application/json" w in
            ret (Write (Main.encodeResults results) w)
      end.

(** ** corsMiddleware *)

Definition corsMiddleware (next : Handler) : Handler :=
  fun w r =>
    let w := setHeader "Access-Control-Allow-Origin" "*" w in
    let w := setHeader "Access-Control-Allow-Methods" "POST, OPTIONS" w in
    let w := setHeader "Access-Control-Allow-Headers" "Content-Type" w in
    if String.eqb (Method r) MethodOptions then
      ret (WriteHeader StatusOK w)
    else next w r.

(** ** handleOllamaHealth *)

Definition handleOllamaHealth : Handler :=
  fun w r =>
    match Main.NewRequest env MethodGet (ollamaURL ++ "/api/version")
            Main.NoBody with
    | inr msg =>
        ret (Error w ("creating version request: " ++ msg) StatusServiceUnavailable)
    | inl req =>
        res <- Do req ;;
        match res with
        | Main.DoError msg =>
            ret (Error w ("connecting to Ollama: " ++ msg) StatusServiceUnavailable)
        | Main.DoResponse resp =>
            if negb (Main.StatusCode resp =? StatusOK)%Z then
              ret (Error w
                     ("unexpected version status code "
                      ++ Main.itoa (Main.StatusCode resp)
                      ++ ": " ++ Main.respBody resp)
                     StatusBadGateway)
            else
              let w := Write "ollama: " w in
              let w := Write (Main.respBody resp) w in
              if Main.respBodyErr resp
              then logPrintf LogCopyError ;;; ret w
              else ret w
        end
    end.

(** ** main: the handlers it registers *)

Definition handleRoot : Handler :=
  fun w _ => ret (Write "Content moderation service is running" w).

Definition apiHealth : Handler := corsMiddleware handleOllamaHealth.

Definition apiAnalyze : Handler := corsMiddleware handleAnalyze.

Definition serve (h : Handler) (r : Request) : M Served :=
  w <- h newResponseWriter r ;; ret (served w).

End Service.

(** ** Vocabulary *)

(** The request analyzeMessage builds for a message. *)
Definition generateRequest (message : string) : Main.ClientRequest :=
  {| Main.reqMethod := "POST";
     Main.reqURL := "http://localhost:11434/api/generate";
     Main.reqHeader := [("Content-Type", "application/json")];
     Main.reqBody :=
       Main.JSONBody {| Main.ReqModel := "llama3.2:1b";
                        Main.Prompt := generatePrompt message;
                        Main.Stream := false;
                        Main.Format := responseFormat |} |}.

Definition addSent (req : Main.ClientRequest) (w : World) : World :=
  {| sent := (sent w ++ [req])%list; logged := logged w |}.

End Legacy.

(** * JSON on the wire: vocabulary *)

Module Wire.

Import JSON.

(** Every byte of the string is ASCII. *)
Fixpoint isASCII (s : string) : bool :=
  match s with
  | EmptyString => true
  | String c r => (byteN c <? 128)%N && isASCII r
  end.

(** A value without numbers, all of whose strings and keys are ASCII. *)
Fixpoint plain (v : json) : bool :=
  match v with
  | JNull | JBool _ => true
  | JNum _ => false
  | JStr s => isASCII s
  | JArr vs =>
      (fix all (l : list json) : bool :=
         match l with
         | [] => true
         | x :: l' => plain x && all l'
         end) vs
  | JObj ms =>
      (fix all (l : list (string * json)) : bool :=
         match l with
         | [] => true
         | (k, x) :: l' => isASCII k && plain x && all l'
         end) ms
  end.

(** How deep the arrays and objects of a value nest. *)
Fixpoint depth (v : json) : N :=
  match v with
  | JArr vs =>
      1 + (fix deepest (l : list json) : N :=
             match l with
             | [] => 0
             | x :: l' => N.max (depth x) (deepest l')
             end) vs
  | JObj ms =>
      1 + (fix deepest (l : list (string * json)) : N :=
             match l with
             | [] => 0
             | (_, x) :: l' => N.max (depth x) (deepest l')
             end) ms
  | _ => 0
  end%N.

(** The tokens of the compact text of a value. *)
Fixpoint tokensOf (v : json) : list token :=
  match v with
  | JNull => [TNull]
  | JBool true => [TTrue]
  | JBool false => [TFalse]
  | JNum lit => [TNum lit]
  | JStr s => [TStr s]
  | JArr vs =>
      TLBrack ::
      ((fix elems (l : list json) : list token :=
          match l with
          | [] => []
          | [x] => tokensOf x
          | x :: l' => tokensOf x ++ TComma :: elems l'
          end) vs
       ++ [TRBrack])
  | JObj ms =>
      TLBrace ::
      ((fix members (l : list (string * json)) : list token :=
          match l with
          | [] => []
          | [(k, x)] => TStr k :: TColon :: tokensOf x
          | (k, x) :: l' => TStr k :: TColon :: tokensOf x ++ TComma :: members l'
          end) ms
       ++ [TRBrace])
  end%list.

(** The parts of [marshal], [tokensOf], [plain] and [depth] that go
    through the elements of an array and the members of an object. *)
Definition elemsText : list json -> string :=
  fix elems (l : list json) : string :=
    match l with
    | [] => ""
    | [x] => marshal x
    | x :: l' => marshal x ++ "," ++ elems l'
    end.

Definition membersText : list (string * json) -> string :=
  fix members (l : list (string * json)) : string :=
    match l with
    | [] => ""
    | [(k, x)] => quote k ++ ":" ++ marshal x
    | (k, x) :: l' => quote k ++ ":" ++ marshal x ++ "," ++ members l'
    end.

Definition elemsTokens : list json -> list token :=
  fix elems (l : list json) : list token :=
    match l with
    | [] => []
    | [x] => tokensOf x
    | x :: l' => tokensOf x ++ TComma :: elems l'
    end%list.

Definition membersTokens : list (string * json) -> list token :=
  fix members (l : list (string * json)) : list token :=
    match l with
    | [] => []
    | [(k, x)] => TStr k :: TColon :: tokensOf x
    | (k, x) :: l' => TStr k :: TColon :: tokensOf x ++ TComma :: members l'
    end%list.

Definition elemsPlain : list json -> bool :=
  fix all (l : list json) : bool :=
    match l with
    | [] => true
    | x :: l' => plain x && all l'
    end.

Definition membersPlain : list (string * json) -> bool :=
  fix all (l : list (string * json)) : bool :=
    match l with
    | [] => true
    | (k, x) :: l' => isASCII k && plain x && all l'
    end.

Definition elemsDepth : list json -> N :=
  fix deepest (l : list json) : N :=
    match l with
    | [] => 0
    | x :: l' => N.max (depth x) (deepest l')
    end%N.

Definition membersDepth : list (string * json) -> N :=
  fix deepest (l : list (string * json)) : N :=
    match l with
    | [] => 0
    | (_, x) :: l' => N.max (depth x) (deepest l')
    end%N.

(** What the parser does next, once a value is complete. *)
Definition resume (p : pres) (ts : list token) : option (json * list token) :=
  match p with
  | PDone v => Some (v, ts)
  | PMore st m => parseTokens st m ts
  | PFail => None
  end.

(** The text of a plain value is lexed to its tokens, whatever follows. *)
Definition lexes (v : json) : Prop :=
  plain v = true ->
  forall rest, lex LIdle (marshal v ++ rest) = (tokensOf v ++ lex LIdle rest)%list.

(** Where a value may start, its tokens are parsed to it and the parser
    goes on with what follows. *)
Definition parses (v : json) : Prop :=
  forall st m ts,
    m = PValue \/ m = PArrFirst ->
    (N.of_nat (length st) + depth v <= maxNestingDepth)%N ->
    parseTokens st m (tokensOf v ++ ts) = resume (finish v st) ts.

(** A unit of string content that stands for one ASCII byte. *)
Definition simple (u : sunit) : bool :=
  match u with
  | UByte c => (byteN c <? 128)%N
  | UEsc r => (r <? 128)%N
  end.

(** The compact JSON text of a verdict: the answer the response format
    asks the model for. *)
Definition verdictText (safe : bool) (policies : list string) : string :=
  marshal (JObj [ ("safe", JBool safe);
                  ("violated_policies", JArr (map JStr policies)) ]).

(** The strings of a result are ASCII. *)
Definition asciiResult (res : Main.analysisResult) : bool :=
  isASCII (Main.Content res)
  && forallb isASCII (Main.elements (Main.ViolatedPolicies res)).

End Wire.

(** * Properties of the decoder *)

Module JSONFacts.

Import JSON.

(** Induction on JSON values that reaches into arrays and objects. *)
Lemma json_nested_ind (P : json -> Prop) :
  P JNull ->
  (forall b, P (JBool b)) ->
  (forall lit, P (JNum lit)) ->
  (forall s, P (JStr s)) ->
  (forall vs, Forall P vs -> P (JArr vs)) ->
  (forall ms, Forall (fun kv => P (snd kv)) ms -> P (JObj ms)) ->
  forall v, P v.
Proof.
  intros Hnull Hbool Hnum Hstr Harr Hobj.
  refine (fix IH (v : json) : P v :=
            match v with
            | JNull => Hnull
            | JBool b => Hbool b
            | JNum lit => Hnum lit
            | JStr s => Hstr s
            | JArr vs =>
                Harr vs
                  ((fix all (l : list json) : Forall P l :=
                      match l with
                      | [] => Forall_nil P
                      | x :: l' => Forall_cons x (IH x) (all l')
                      end) vs)
            | JObj ms =>
                Hobj ms
                  ((fix all (l : list (string * json))
                      : Forall (fun kv => P (snd kv)) l :=
                      match l with
                      | [] => Forall_nil _
                      | kv :: l' => Forall_cons kv (IH (snd kv)) (all l')
                      end) ms)
            end).
Qed.

Lemma storeBool_ok old v : snd (storeBool old v) = fitsBool v.
Proof. destruct v; reflexivity. Qed.

Lemma storeString_ok old v : snd (storeString old v) = fitsString v.
Proof. destruct v; reflexivity. Qed.

Lemma storeElems_ok vs : forall old,
  snd (storeElems old vs) = forallb fitsString vs.
Proof.
  induction vs as [|v vs IH]; intros old; simpl; [reflexivity|].
  specialize (IH (tl old)).
  pose proof (storeString_ok (hd "" old) v) as Hv.
  destruct (storeString (hd "" old) v) as [x ok1].
  destruct (storeElems (tl old) vs) as [xs ok2].
  simpl in *. congruence.
Qed.

Lemma storeStrings_ok old v : snd (storeStrings old v) = fitsStrings v.
Proof.
  destruct v; simpl; try reflexivity.
  pose proof (storeElems_ok elems (match old with Some l => l | None => [] end)) as H.
  destruct (storeElems _ elems) as [xs ok]. exact H.
Qed.

(** Strings are stored as they are, whatever the slice held before. *)
Lemma storeElems_strings l : forall old,
  storeElems old (map JStr l) = (l, true).
Proof.
  induction l as [|x l IH]; intros old; simpl; [reflexivity|].
  rewrite IH. reflexivity.
Qed.

Lemma valueInterface_ok v : snd (valueInterface v) = fitsInterface v.
Proof.
  induction v as [ | b | lit | s | vs IH | ms IH ] using json_nested_ind;
    simpl; try reflexivity.
  - destruct (floatInRange lit); reflexivity.
  - induction IH as [|x vs Hx _ IHvs]; simpl; [reflexivity|].
    destruct (valueInterface x) as [a ok1].
    match goal with
    | |- context [match ?t with pair _ _ => _ end] => destruct t as [r ok2]
    end.
    simpl in *. congruence.
  - generalize (@nil (string * any)) as acc.
    induction IH as [|[k x] ms Hx _ IHms]; intros acc; simpl; [reflexivity|].
    simpl in Hx.
    destruct (valueInterface x) as [a ok1].
    specialize (IHms (mapSet k a acc)).
    match goal with
    | |- context [match ?t with pair _ _ => _ end] => destruct t as [r ok2]
    end.
    simpl in *. congruence.
Qed.

Lemma field_ok {S A : Type} (get : S -> A) (set : S -> A -> S) (st : store A) s v :
  snd (field get set st s v) = snd (st (get s) v).
Proof. unfold field. destruct (st (get s) v); reflexivity. Qed.

(** Two tables with the same names answer a key together. *)
Lemma find_together {A B : Type} (R : A -> B -> Prop) (g : string -> bool)
  (fa : list (string * A)) (fb : list (string * B)) :
  Forall2 (fun a b => fst a = fst b /\ R (snd a) (snd b)) fa fb ->
  match find (fun f => g (fst f)) fa, find (fun f => g (fst f)) fb with
  | Some a, Some b => R (snd a) (snd b)
  | None, None => True
  | _, _ => False
  end.
Proof.
  induction 1 as [|a b fa fb [Hn HR] _ IH]; simpl; [exact I|].
  rewrite <- Hn. destruct (g (fst a)); [exact HR | exact IH].
Qed.

Lemma findField_together {A B : Type} (R : A -> B -> Prop)
  (fa : list (string * A)) (fb : list (string * B)) (key : string) :
  Forall2 (fun a b => fst a = fst b /\ R (snd a) (snd b)) fa fb ->
  match findField fa key, findField fb key with
  | Some a, Some b => R a b
  | None, None => True
  | _, _ => False
  end.
Proof.
  intros H. unfold findField.
  pose proof (find_together R (fun n => String.eqb n key) fa fb H) as H1.
  pose proof (find_together R
                (fun n => String.eqb (foldName n) (foldName key)) fa fb H) as H2.
  simpl in H1, H2.
  destruct (find (fun f => String.eqb (fst f) key) fa),
           (find (fun f => String.eqb (fst f) key) fb); try contradiction.
  - exact H1.
  - destruct (find (fun f => String.eqb (foldName (fst f)) (foldName key)) fa),
             (find (fun f => String.eqb (foldName (fst f)) (foldName key)) fb);
      try contradiction; [exact H2 | exact I].
Qed.

Lemma object_ok {S : Type} (fields : list (string * store S)) types :
  agree fields types ->
  forall ms s,
    snd (object fields ms s) =
    forallb (fun kv => match findField types (fst kv) with
                       | Some fits => fits (snd kv)
                       | None => true
                       end) ms.
Proof.
  intros Hag. induction ms as [|[k v] ms IH]; intros s; simpl; [reflexivity|].
  pose proof (findField_together
                (fun (f : store S) (t : json -> bool) =>
                   forall s v, snd (f s v) = t v) fields types k Hag) as Hk.
  destruct (findField fields k) as [st|], (findField types k) as [fits|];
    try contradiction.
  - specialize (Hk s v). destruct (st s v) as [s1 ok1].
    specialize (IH s1). destruct (object fields ms s1) as [s2 ok2].
    simpl in *. congruence.
  - apply IH.
Qed.

Lemma storeStruct_ok {S : Type} (fields : list (string * store S)) types :
  agree fields types ->
  forall s v, snd (storeStruct fields s v) = fitsStruct types v.
Proof.
  intros Hag s v. destruct v; simpl; try reflexivity.
  apply object_ok. exact Hag.
Qed.

(** Unmarshal fails exactly on text that is not one JSON value and on
    values that do not fit the Go type. *)
Lemma Unmarshal_error_iff {S : Type} (fields : list (string * store S)) types
  (text : string) (s : S) :
  agree fields types ->
  snd (Unmarshal (storeStruct fields) text s) <> None <->
  (parse text = None \/
   exists v, parse text = Some v /\ fitsStruct types v = false).
Proof.
  intros Hag. unfold Unmarshal. destruct (parse text) as [v|].
  - pose proof (storeStruct_ok fields types Hag s v) as Hv.
    destruct (storeStruct fields s v) as [s' ok]. simpl in *. subst ok.
    destruct (fitsStruct types v) eqn:Hfit; simpl; split.
    + intros H. exfalso. apply H. reflexivity.
    + intros [H | (v' & H & H')]; [discriminate | ].
      inversion H; subst. congruence.
    + intros _. right. exists v. split; [reflexivity | exact Hfit].
    + intros _. discriminate.
  - simpl. split; [intros _; left; reflexivity | intros _; discriminate].
Qed.

Lemma Decode_error_iff {S : Type} (fields : list (string * store S)) types
  (text : string) (s : S) :
  agree fields types ->
  snd (Decode (storeStruct fields) text s) <> None <->
  (readValue text = None \/
   exists v, readValue text = Some v /\ fitsStruct types v = false).
Proof.
  intros Hag. unfold Decode. destruct (readValue text) as [v|].
  - pose proof (storeStruct_ok fields types Hag s v) as Hv.
    destruct (storeStruct fields s v) as [s' ok]. simpl in *. subst ok.
    destruct (fitsStruct types v) eqn:Hfit; simpl; split.
    + intros H. exfalso. apply H. reflexivity.
    + intros [H | (v' & H & H')]; [discriminate | ].
      inversion H; subst. congruence.
    + intros _. right. exists v. split; [reflexivity | exact Hfit].
    + intros _. discriminate.
  - simpl. split; [intros _; left; reflexivity | intros _; discriminate].
Qed.

(** A text that is one JSON value starts with that value. *)
Lemma parse_readValue text v : parse text = Some v -> readValue text = Some v.
Proof.
  unfold parse, readValue.
  destruct (parseTokens [] PValue (lex LIdle text)) as [[v' [|t ts]]|];
    intros H; inversion H; reflexivity.
Qed.

End JSONFacts.

(** * Properties of the service *)

Module Spec.

Import JSON HTTP Main JSONFacts.

Lemma Config_agree : agree Config_fields Config_types.
Proof.
  repeat constructor; simpl; intros; rewrite field_ok;
    first [ apply storeString_ok | apply storeStrings_ok | apply valueInterface_ok ].
Qed.

Lemma analyzeRequest_agree : agree analyzeRequest_fields analyzeRequest_types.
Proof.
  repeat constructor; simpl; intros; rewrite field_ok; apply storeStrings_ok.
Qed.

Lemma moderationResult_agree :
  agree moderationResult_fields moderationResult_types.
Proof.
  repeat constructor; simpl; intros; rewrite field_ok;
    first [ apply storeBool_ok | apply storeStrings_ok ].
Qed.

(** ** Headers *)

Lemma headerGet_set_same k v h : headerGet k (headerSet k v h) = Some v.
Proof.
  induction h as [|[k' v'] h IH]; simpl.
  - rewrite String.eqb_refl. reflexivity.
  - destruct (String.eqb k' k) eqn:E; simpl.
    + rewrite String.eqb_refl. reflexivity.
    + rewrite E. exact IH.
Qed.

Lemma headerGet_set_other k k' v h :
  k <> k' -> headerGet k (headerSet k' v h) = headerGet k h.
Proof.
  intros Hne. induction h as [|[k0 v0] h IH]; simpl.
  - destruct (String.eqb k' k) eqn:E; [|reflexivity].
    apply String.eqb_eq in E. congruence.
  - destruct (String.eqb k0 k') eqn:E; simpl.
    + apply String.eqb_eq in E. subst k0.
      destruct (String.eqb k' k) eqn:E'; [|reflexivity].
      apply String.eqb_eq in E'. congruence.
    + destruct (String.eqb k0 k); [reflexivity | exact IH].
Qed.

Lemma corsHeaders_present w :
  headerGet "Access-Control-Allow-Origin" (header (corsHeaders w)) = Some "*" /\
  headerGet "Access-Control-Allow-Methods" (header (corsHeaders w))
  = Some "POST, OPTIONS" /\
  headerGet "Access-Control-Allow-Headers" (header (corsHeaders w))
  = Some "Content-Type".
Proof.
  unfold corsHeaders, setHeader; simpl. repeat split.
  - rewrite !headerGet_set_other by discriminate. apply headerGet_set_same.
  - rewrite headerGet_set_other by discriminate. apply headerGet_set_same.
  - apply headerGet_set_same.
Qed.

(** ** corsMiddleware *)

Lemma cors_options (next : Handler) w r :
  Method r = MethodOptions ->
  corsMiddleware next w r = ret (WriteHeader StatusOK (corsHeaders w)).
Proof.
  intros H. unfold corsMiddleware. rewrite H. reflexivity.
Qed.

Lemma cors_other (next : Handler) w r :
  Method r <> MethodOptions ->
  corsMiddleware next w r = next (corsHeaders w) r.
Proof.
  intros H. unfold corsMiddleware.
  apply String.eqb_neq in H. rewrite H. reflexivity.
Qed.

(** C6.  An OPTIONS request to a route behind corsMiddleware is answered
    with status 200 and Access-Control-Allow-Origin set to the star, by the
    middleware alone: the answer is the same whatever handler is wrapped,
    and the world (calls of the backend, log) is left as it was.  For any
    other method the wrapped handler runs, on the writer that carries the
    three CORS headers. *)
Theorem options_is_answered_by_cors (env : Env) (cfg : Config) (r : Request)
  (world : World) :
  (Method r = MethodOptions ->
   (forall (next : Handler) w,
      corsMiddleware next w r world
      = (Returned (WriteHeader StatusOK (corsHeaders w)), world)) /\
   (forall h, h = apiAnalyze env cfg \/ h = apiHealth env cfg ->
      exists s,
        serve h r world = (Returned s, world) /\
        status s = StatusOK /\
        headerGet "Access-Control-Allow-Origin" (headers s) = Some "*" /\
        body s = "")) /\
  (Method r <> MethodOptions ->
   forall (next : Handler) w,
     corsMiddleware next w r world = next (corsHeaders w) r world /\
     headerGet "Access-Control-Allow-Origin" (header (corsHeaders w))
     = Some "*" /\
     headerGet "Access-Control-Allow-Methods" (header (corsHeaders w))
     = Some "POST, OPTIONS" /\
     headerGet "Access-Control-Allow-Headers" (header (corsHeaders w))
     = Some "Content-Type").
Proof.
  split.
  - intros Hm. split.
    + intros next w. rewrite (cors_options next w r Hm). reflexivity.
    + intros h [-> | ->]; unfold serve, apiAnalyze, apiHealth, bind;
        rewrite (cors_options _ _ r Hm); simpl;
        eexists; repeat split; reflexivity.
  - intros Hm next w. split.
    + rewrite (cors_other next w r Hm). reflexivity.
    + apply corsHeaders_present.
Qed.

Lemma options_is_answered_by_cors_witness :
  let r := {| Method := "OPTIONS"; Body := js "{'messages':['hi']}" |} in
  Method r = MethodOptions /\
  (exists s,
     serve (apiAnalyze (Demo.env Demo.down) Demo.cfg) r emptyWorld
     = (Returned s, emptyWorld) /\
     status s = StatusOK /\
     headerGet "Access-Control-Allow-Origin" (headers s) = Some "*" /\
     body s = "") /\
  Method (Demo.post "x") <> MethodOptions /\
  corsMiddleware handleRoot newResponseWriter (Demo.post "x") emptyWorld
  = handleRoot (corsHeaders newResponseWriter) (Demo.post "x") emptyWorld.
Proof.
  pose proof (options_is_answered_by_cors (Demo.env Demo.down) Demo.cfg
                {| Method := "OPTIONS"; Body := js "{'messages':['hi']}" |}
                emptyWorld) as [Hopt _].
  pose proof (options_is_answered_by_cors (Demo.env Demo.down) Demo.cfg
                (Demo.post "x") emptyWorld) as [_ Hother].
  simpl. split; [reflexivity|]. split.
  - apply (Hopt eq_refl). left. reflexivity.
  - split; [discriminate|].
    apply (Hother ltac:(discriminate) handleRoot newResponseWriter).
Defined.

(** ** handleAnalyze: the requests it turns down *)

Lemma post_not_options r : Method r = MethodPost -> Method r <> MethodOptions.
Proof. intros H. rewrite H. discriminate. Qed.

Lemma apiAnalyze_post env cfg r :
  Method r = MethodPost ->
  apiAnalyze env cfg newResponseWriter r
  = match Decode (storeStruct analyzeRequest_fields) (Body r)
            zeroAnalyzeRequest with
    | (_, Some _) =>
        ret (Error (corsHeaders newResponseWriter) "Invalid request body"
               StatusBadRequest)
    | (req, None) =>
        if (len (Messages req) =? 0)%nat then
          ret (Error (corsHeaders newResponseWriter)
                 "Messages array cannot be empty" StatusBadRequest)
        else
          results <- analyzeLoop env cfg (elements (Messages req)) [] ;;
          ret (Write (encodeResults results)
                 (setHeader "Content-Type" "application/json"
                    (corsHeaders newResponseWriter)))
    end.
Proof.
  intros Hm. unfold apiAnalyze.
  rewrite (cors_other _ _ r (post_not_options r Hm)).
  unfold handleAnalyze. rewrite Hm. reflexivity.
Qed.



Lemma apiAnalyze_empty env cfg r world req :
  Method r = MethodPost ->
  Decode (storeStruct analyzeRequest_fields) (Body r) zeroAnalyzeRequest
  = (req, None) ->
  elements (Messages req) = [] ->
  serve (apiAnalyze env cfg) r world
  = (Returned {| status := 400; headers := errorHeaders;
                 body := "Messages array cannot be empty" ++ newline |},
     world).
Proof.
  intros Hm Hdec Hempty. unfold serve, bind.
  rewrite (apiAnalyze_post env cfg r Hm), Hdec.
  replace (len (Messages req) =? 0)%nat with true; [reflexivity|].
  destruct (Messages req) as [[|m l]|]; simpl in *;
    [reflexivity | discriminate | reflexivity].
Qed.



(** ** Absent and null messages *)

Lemma findField_analyzeRequest k :
  (names analyzeRequest_tags "messages" k = true /\
   findField analyzeRequest_fields k
   = Some (field Messages (fun _ x => {| Messages := x |}) storeStrings)) \/
  (names analyzeRequest_tags "messages" k = false /\
   findField analyzeRequest_fields k = None).
Proof.
  unfold names, findField, analyzeRequest_fields, analyzeRequest_tags.
  cbn [find map fst snd].
  destruct (String.eqb "messages" k).
  - left. split; reflexivity.
  - destruct (String.eqb (foldName "messages") (foldName k)); [left | right];
      split; reflexivity.
Qed.

Lemma object_null_messages ms :
  (forall k x, In (k, x) ms ->
               names analyzeRequest_tags "messages" k = true -> x = JNull) ->
  object analyzeRequest_fields ms zeroAnalyzeRequest
  = (zeroAnalyzeRequest, true).
Proof.
  induction ms as [|[k x] ms IH]; intros Hnull; simpl; [reflexivity|].
  assert (IH' := IH (fun k' x' Hin => Hnull k' x' (or_intror Hin))).
  destruct (findField_analyzeRequest k) as [[Hn ->] | [Hn ->]].
  - rewrite (Hnull k x (or_introl eq_refl) Hn).
    change (field Messages (fun _ x => {| Messages := x |}) storeStrings
              zeroAnalyzeRequest JNull) with (zeroAnalyzeRequest, true).
    cbv iota beta. rewrite IH'. reflexivity.
  - exact IH'.
Qed.

(** C9.  A POST to /api/analyze whose body is valid JSON for the request
    schema (the JSON null, or an object) in which the messages field is
    absent or null (every member that names the field is null, which holds
    in particular when no member names it) gets the very response of the
    body with an empty messages array: status 400 with the empty-batch
    text, and an untouched world. *)
Theorem absent_messages_is_empty_batch (env : Env) (cfg : Config)
  (r : Request) (world : World) (v : json) :
  Method r = MethodPost ->
  parse (Body r) = Some v ->
  (v = JNull \/
   exists ms, v = JObj ms /\
     forall k x, In (k, x) ms ->
                 names analyzeRequest_tags "messages" k = true -> x = JNull) ->
  serve (apiAnalyze env cfg) r world
  = serve (apiAnalyze env cfg)
      {| Method := "POST"; Body := js "{'messages': []}" |} world /\
  serve (apiAnalyze env cfg) r world
  = (Returned {| status := 400; headers := errorHeaders;
                 body := "Messages array cannot be empty" ++ newline |},
     world).
Proof.
  intros Hm Hparse Hv.
  assert (Hdec : Decode (storeStruct analyzeRequest_fields) (Body r)
                   zeroAnalyzeRequest = (zeroAnalyzeRequest, None)).
  { unfold Decode. rewrite (parse_readValue _ _ Hparse).
    destruct Hv as [-> | (ms & -> & Hnull)]; simpl.
    - reflexivity.
    - rewrite (object_null_messages ms Hnull). reflexivity. }
  rewrite (apiAnalyze_empty env cfg r world zeroAnalyzeRequest Hm Hdec eq_refl).
  rewrite (apiAnalyze_empty env cfg
             {| Method := "POST"; Body := js "{'messages': []}" |} world
             {| Messages := Some [] |} eq_refl eq_refl eq_refl).
  split; reflexivity.
Qed.

Lemma absent_messages_is_empty_batch_witness :
  let r := Demo.post (js "{'batch': ['hi'], 'Messages': null}") in
  serve (apiAnalyze (Demo.env Demo.down) Demo.cfg) r emptyWorld
  = serve (apiAnalyze (Demo.env Demo.down) Demo.cfg)
      {| Method := "POST"; Body := js "{'messages': []}" |} emptyWorld /\
  serve (apiAnalyze (Demo.env Demo.down) Demo.cfg) r emptyWorld
  = (Returned {| status := 400; headers := errorHeaders;
                 body := "Messages array cannot be empty" ++ newline |},
     emptyWorld).
Proof.
  apply (absent_messages_is_empty_batch (Demo.env Demo.down) Demo.cfg
           (Demo.post (js "{'batch': ['hi'], 'Messages': null}")) emptyWorld
           (JObj [("batch", JArr [JStr "hi"]); ("Messages", JNull)])).
  - reflexivity.
  - reflexivity.
  - right. eexists. split; [reflexivity|].
    intros k x [H | [H | []]]; inversion H; subst; [discriminate | reflexivity].
Defined.

(** ** analyzeMessage *)

Lemma analyzeMessage_prompt_error env message cfg w e :
  generatePrompt env message (Policies cfg) (PromptTemplate cfg) = Err e ->
  analyzeMessage env message cfg w
  = (Returned (Err (ErrGeneratingPrompt e)), w).
Proof.
  intros H. unfold analyzeMessage. rewrite H. reflexivity.
Qed.

(** Once the prompt is generated and the URL parses, the request goes out,
    once, and the result is read off the backend's reply. *)
Lemma analyzeMessage_posts env message cfg w prompt :
  generatePrompt env message (Policies cfg) (PromptTemplate cfg) = Ok prompt ->
  urlParseError env (OllamaURL cfg ++ "/api/generate") = None ->
  analyzeMessage env message cfg w
  = (Returned
       match clientDo env (sent w) (generateRequest cfg prompt) with
       | DoError _ => Err ErrAPIRequestFailed
       | DoResponse resp =>
           if negb (StatusCode resp =? StatusOK)%Z then Err ErrAPIRequestFailed
           else
             match Decode (storeStruct ollamaResponse_fields) (respBody resp)
                     zeroOllamaResponse with
             | (_, Some e) => Err (ErrDecodingResponse e)
             | (ollamaResp, None) =>
                 match Unmarshal (storeStruct moderationResult_fields)
                         (Response ollamaResp) zeroModerationResult with
                 | (_, Some e) => Err (ErrParsingModeration e)
                 | (modResult, None) =>
                     Ok {| Content := message;
                           IsSafe := Safe modResult;
                           ViolatedPolicies := ModViolatedPolicies modResult |}
                 end
             end
       end,
     addSent (generateRequest cfg prompt) w).
Proof.
  intros Hp Hu. unfold analyzeMessage, NewRequest. rewrite Hp, Hu.
  unfold bind, Do, addSent.
  change (reqHeaderSet "Content-Type" "application/json" _)
    with (generateRequest cfg prompt).
  cbv beta iota.
  destruct (clientDo env (sent w) (generateRequest cfg prompt)) as [msg|resp];
    [reflexivity|].
  destruct (negb (StatusCode resp =? StatusOK)%Z); [reflexivity|].
  destruct (Decode _ (respBody resp) zeroOllamaResponse) as [o [e|]];
    [reflexivity|].
  destruct (Unmarshal _ (Response o) zeroModerationResult) as [m [e|]];
    reflexivity.
Qed.

Lemma analyzeMessage_panics env message cfg w prompt msg :
  generatePrompt env message (Policies cfg) (PromptTemplate cfg) = Ok prompt ->
  urlParseError env (OllamaURL cfg ++ "/api/generate") = Some msg ->
  analyzeMessage env message cfg w = (Panicked, w).
Proof.
  intros Hp Hu. unfold analyzeMessage, NewRequest. rewrite Hp, Hu. reflexivity.
Qed.

(** A result carries the message it is the result of. *)
Lemma analyzeMessage_content env message cfg w res w' :
  analyzeMessage env message cfg w = (Returned (Ok res), w') ->
  Content res = message.
Proof.
  destruct (generatePrompt env message (Policies cfg) (PromptTemplate cfg))
    as [prompt|e] eqn:Hp.
  - destruct (urlParseError env (OllamaURL cfg ++ "/api/generate"))
      as [msg|] eqn:Hu.
    + rewrite (analyzeMessage_panics _ _ _ _ _ _ Hp Hu). discriminate.
    + rewrite (analyzeMessage_posts _ _ _ _ _ Hp Hu). intros H.
      repeat match type of H with
             | context [match ?x with _ => _ end] => destruct x
             end; inversion H; reflexivity.
  - rewrite (analyzeMessage_prompt_error _ _ _ _ _ Hp). discriminate.
Qed.

(** With the model's answer in hand, the result is the parse of it. *)
Lemma analyzeMessage_answers env cfg message w prompt text :
  answers env cfg message w prompt text ->
  analyzeMessage env message cfg w
  = (Returned
       match Unmarshal (storeStruct moderationResult_fields) text
               zeroModerationResult with
       | (_, Some e) => Err (ErrParsingModeration e)
       | (modResult, None) =>
           Ok {| Content := message;
                 IsSafe := Safe modResult;
                 ViolatedPolicies := ModViolatedPolicies modResult |}
       end,
     addSent (generateRequest cfg prompt) w).
Proof.
  intros (Hp & Hu & resp & Hdo & Hst & Hdec).
  rewrite (analyzeMessage_posts _ _ _ _ _ Hp Hu), Hdo, Hst, Hdec.
  reflexivity.
Qed.

(** ** The loop of handleAnalyze *)

Lemma analyzeLoop_runs env cfg msgs w outs w' :
  runs env cfg msgs w outs w' ->
  forall acc,
    analyzeLoop env cfg msgs acc w = (Returned (acc ++ successes outs)%list, w').
Proof.
  induction 1 as [w | message rest w w1 w2 res outs Hm _ IH
                    | message rest w w1 w2 e outs Hm _ IH]; intros acc.
  - simpl. rewrite app_nil_r. reflexivity.
  - simpl. unfold bind at 1. rewrite Hm. rewrite IH, <- app_assoc. reflexivity.
  - simpl. unfold bind at 1. rewrite Hm.
    unfold bind, logPrintf. apply IH.
Qed.

Lemma runs_aligned env cfg msgs w outs w' :
  runs env cfg msgs w outs w' ->
  Forall2 (fun m out => forall res, out = Ok res -> Content res = m) msgs outs.
Proof.
  induction 1 as [w | message rest w w1 w2 res outs Hm _ IH
                    | message rest w w1 w2 e outs Hm _ IH];
    constructor; try exact IH.
  - intros res' H. inversion H; subst.
    exact (analyzeMessage_content _ _ _ _ _ _ Hm).
  - intros res' H. discriminate.
Qed.

Lemma apiAnalyze_runs env cfg r world msgs outs world' :
  Method r = MethodPost ->
  Decode (storeStruct analyzeRequest_fields) (Body r) zeroAnalyzeRequest
  = ({| Messages := Some msgs |}, None) ->
  msgs <> [] ->
  runs env cfg msgs world outs world' ->
  serve (apiAnalyze env cfg) r world
  = (Returned {| status := 200; headers := analyzeHeaders;
                 body := encodeResults (successes outs) |}, world').
Proof.
  intros Hm Hdec Hne Hruns. unfold serve. unfold bind at 1.
  rewrite (apiAnalyze_post env cfg r Hm), Hdec.
  destruct msgs as [|m msgs]; [contradiction Hne; reflexivity|].
  cbn [len Messages elements List.length Nat.eqb].
  unfold bind. rewrite (analyzeLoop_runs _ _ _ _ _ _ Hruns []).
  reflexivity.
Qed.

(** C2.  For a non-empty batch whose analyses either succeed or fail, the
    response is a 200 whose body is the encoding of the results of the
    analyses that succeeded, in the order of the batch, and of nothing
    else: a message whose analysis failed leaves no trace in the body.
    Each result kept carries the content of the message at its position. *)
Theorem failed_messages_are_omitted (env : Env) (cfg : Config) (r : Request)
  (world world' : World) (msgs : list string)
  (outs : list (result analysisResult)) :
  Method r = MethodPost ->
  Decode (storeStruct analyzeRequest_fields) (Body r) zeroAnalyzeRequest
  = ({| Messages := Some msgs |}, None) ->
  msgs <> [] ->
  runs env cfg msgs world outs world' ->
  serve (apiAnalyze env cfg) r world
  = (Returned {| status := 200; headers := analyzeHeaders;
                 body := marshal (JArr (map encodeResult (successes outs)))
                         ++ newline |}, world') /\
  Forall2 (fun m out => forall res, out = Ok res -> Content res = m) msgs outs.
Proof.
  intros Hm Hdec Hne Hruns. split.
  - exact (apiAnalyze_runs _ _ _ _ _ _ _ Hm Hdec Hne Hruns).
  - exact (runs_aligned _ _ _ _ _ _ Hruns).
Qed.

Lemma failed_messages_are_omitted_witness :
  let r := Demo.post (js "{'messages':['Go to the zoo and steal one!','b','c']}") in
  let outs :=
    [ Ok {| Content := "Go to the zoo and steal one!"; IsSafe := false;
            ViolatedPolicies := Some ["hate/harassment"; "self-harm encouragement"] |};
      Err (ErrParsingModeration SyntaxError);
      Ok {| Content := "c"; IsSafe := false; ViolatedPolicies := None |} ] in
  let world' :=
    {| sent := [ generateRequest Demo.cfg "Input: Go to the zoo and steal one!";
                 generateRequest Demo.cfg "Input: b";
                 generateRequest Demo.cfg "Input: c" ];
       logged := [ LogAnalyzeError "b" (ErrParsingModeration SyntaxError) ] |} in
  runs (Demo.env Demo.moody) Demo.cfg
    ["Go to the zoo and steal one!"; "b"; "c"] emptyWorld outs world' /\
  serve (apiAnalyze (Demo.env Demo.moody) Demo.cfg) r emptyWorld
  = (Returned
       {| status := 200; headers := analyzeHeaders;
          body := js "[{'content':'Go to the zoo and steal one!','is_safe':false,'violated_policies':['hate/harassment','self-harm encouragement']},{'content':'c','is_safe':false,'violated_policies':null}]"
                  ++ newline |}, world').
Proof.
  intros r outs world'.
  assert (Hruns : runs (Demo.env Demo.moody) Demo.cfg
                    ["Go to the zoo and steal one!"; "b"; "c"] emptyWorld
                    outs world').
  { eapply runs_ok; [vm_compute; reflexivity|].
    eapply runs_err; [vm_compute; reflexivity|].
    eapply runs_ok; [vm_compute; reflexivity|].
    apply runs_nil. }
  split; [exact Hruns|].
  exact (proj1 (failed_messages_are_omitted (Demo.env Demo.moody) Demo.cfg r
                  emptyWorld world'
                  ["Go to the zoo and steal one!"; "b"; "c"] outs
                  eq_refl eq_refl ltac:(discriminate) Hruns)).
Defined.

(** ** All analyses succeed *)

Lemma successes_all_ok msgs outs :
  Forall2 (fun m out => forall res, out = Ok res -> Content res = m) msgs outs ->
  Forall succeeded outs ->
  Forall2 (fun m res => Content res = m) msgs (successes outs).
Proof.
  induction 1 as [|m out msgs outs Hc _ IH]; intros Hall; simpl.
  - constructor.
  - inversion Hall as [|? ? [res Hres] Hrest]; subst.
    constructor; [apply Hc; reflexivity | apply IH; exact Hrest].
Qed.

Lemma encoded_content msgs results :
  Forall2 (fun m res => Content res = m) msgs results ->
  Forall2 (fun m elem => member "content" elem = Some (JStr m))
    msgs (map encodeResult results).
Proof.
  induction 1 as [|m res msgs results Hc _ IH]; simpl; constructor.
  - rewrite <- Hc. reflexivity.
  - exact IH.
Qed.

(** C1.  For a non-empty batch all of whose analyses succeed, the response
    has status 200 and its body is a JSON array (followed by a newline) with
    one element per message, in the order of the batch, the content member
    of the element at a position being the message at that position. *)
Theorem all_analysed_in_order (env : Env) (cfg : Config) (r : Request)
  (world world' : World) (msgs : list string)
  (outs : list (result analysisResult)) :
  Method r = MethodPost ->
  Decode (storeStruct analyzeRequest_fields) (Body r) zeroAnalyzeRequest
  = ({| Messages := Some msgs |}, None) ->
  msgs <> [] ->
  runs env cfg msgs world outs world' ->
  Forall succeeded outs ->
  exists elems,
    serve (apiAnalyze env cfg) r world
    = (Returned {| status := 200; headers := analyzeHeaders;
                   body := marshal (JArr elems) ++ newline |}, world') /\
    List.length elems = List.length msgs /\
    Forall2 (fun m elem => member "content" elem = Some (JStr m)) msgs elems.
Proof.
  intros Hm Hdec Hne Hruns Hall.
  exists (map encodeResult (successes outs)).
  pose proof (encoded_content _ _
                (successes_all_ok _ _ (runs_aligned _ _ _ _ _ _ Hruns) Hall))
    as Hc.
  split; [|split].
  - exact (apiAnalyze_runs _ _ _ _ _ _ _ Hm Hdec Hne Hruns).
  - symmetry. exact (Forall2_length Hc).
  - exact Hc.
Qed.

Lemma all_analysed_in_order_witness :
  let backend :=
    Demo.answering (js "{'safe': true, 'violated_policies': []}") in
  let r := Demo.post (js "{'messages':['How can I adopt my own llama?','Hi']}") in
  let res m := {| Content := m; IsSafe := true; ViolatedPolicies := Some [] |} in
  let world' :=
    {| sent := [ generateRequest Demo.cfg "Input: How can I adopt my own llama?";
                 generateRequest Demo.cfg "Input: Hi" ];
       logged := [] |} in
  exists elems,
    serve (apiAnalyze (Demo.env backend) Demo.cfg) r emptyWorld
    = (Returned {| status := 200; headers := analyzeHeaders;
                   body := marshal (JArr elems) ++ newline |}, world') /\
    List.length elems = 2%nat /\
    Forall2 (fun m elem => member "content" elem = Some (JStr m))
      ["How can I adopt my own llama?"; "Hi"] elems.
Proof.
  intros backend r res world'.
  apply (all_analysed_in_order (Demo.env backend) Demo.cfg r emptyWorld world'
           ["How can I adopt my own llama?"; "Hi"]
           [Ok (res "How can I adopt my own llama?"); Ok (res "Hi")]).
  - reflexivity.
  - reflexivity.
  - discriminate.
  - eapply runs_ok; [vm_compute; reflexivity|].
    eapply runs_ok; [vm_compute; reflexivity|].
    apply runs_nil.
  - repeat constructor; eexists; reflexivity.
Defined.

(** When the URL of the backend parses, every analysis returns: a batch
    always has a run. *)
Lemma runs_exist env cfg :
  urlParseError env (OllamaURL cfg ++ "/api/generate") = None ->
  forall msgs w, exists outs w', runs env cfg msgs w outs w'.
Proof.
  intros Hu. induction msgs as [|m msgs IH]; intros w.
  - exists [], w. constructor.
  - destruct (generatePrompt env m (Policies cfg) (PromptTemplate cfg))
      as [prompt|e] eqn:Hp.
    + pose proof (analyzeMessage_posts env m cfg w prompt Hp Hu) as Ha.
      match type of Ha with
      | _ = (Returned ?out, ?w1) => destruct out as [res|e] eqn:Hout
      end.
      * destruct (IH (addSent (generateRequest cfg prompt) w)) as (outs & w' & Hr).
        exists (Ok res :: outs), w'. eapply runs_ok; eassumption.
      * destruct (IH (addLog (LogAnalyzeError m e)
                        (addSent (generateRequest cfg prompt) w)))
          as (outs & w' & Hr).
        exists (Err e :: outs), w'. eapply runs_err; eassumption.
    + pose proof (analyzeMessage_prompt_error env m cfg w e Hp) as Ha.
      destruct (IH (addLog (LogAnalyzeError m (ErrGeneratingPrompt e)) w))
        as (outs & w' & Hr).
      exists (Err (ErrGeneratingPrompt e) :: outs), w'.
      eapply runs_err; eassumption.
Qed.

(** ** One request per message *)

(** C8, as the code has it.  When the prompt cannot be generated, no
    request is made and the message fails with the prompt error.  When the
    prompt is generated and the URL of the backend parses, exactly one
    request is made: a POST to the backend URL followed by /api/generate,
    whose body has the configured model, the generated prompt, stream false
    and the configured response format; and if the backend cannot be
    reached or answers with a status other than 200, the message fails with
    no further request.  In the loop of handleAnalyze a failed message
    leaves one log line and no result. *)
Theorem one_post_per_generated_prompt (env : Env) (cfg : Config)
  (message : string) (w : World) :
  (forall e,
     generatePrompt env message (Policies cfg) (PromptTemplate cfg) = Err e ->
     analyzeMessage env message cfg w
     = (Returned (Err (ErrGeneratingPrompt e)), w)) /\
  (forall prompt,
     generatePrompt env message (Policies cfg) (PromptTemplate cfg) = Ok prompt ->
     urlParseError env (OllamaURL cfg ++ "/api/generate") = None ->
     let req :=
       {| reqMethod := "POST";
          reqURL := OllamaURL cfg ++ "/api/generate";
          reqHeader := [("Content-Type", "application/json")];
          reqBody := JSONBody {| ReqModel := Model cfg; Prompt := prompt;
                                 Stream := false;
                                 Format := ResponseFormat cfg |} |} in
     exists out,
       analyzeMessage env message cfg w
       = (Returned out, {| sent := (sent w ++ [req])%list; logged := logged w |}) /\
       ((forall resp, clientDo env (sent w) req = DoResponse resp ->
                      StatusCode resp <> StatusOK) ->
        out = Err ErrAPIRequestFailed)) /\
  (forall e w1 rest results,
     analyzeMessage env message cfg w = (Returned (Err e), w1) ->
     analyzeLoop env cfg (message :: rest) results w
     = analyzeLoop env cfg rest results
         {| sent := sent w1;
            logged := (logged w1 ++ [LogAnalyzeError message e])%list |}).
Proof.
  split; [|split].
  - intros e. apply analyzeMessage_prompt_error.
  - intros prompt Hp Hu req.
    rewrite (analyzeMessage_posts env message cfg w prompt Hp Hu).
    fold req. change (generateRequest cfg prompt) with req.
    eexists. split; [reflexivity|].
    intros Hbad. destruct (clientDo env (sent w) req) as [msg|resp];
      [reflexivity|].
    specialize (Hbad resp eq_refl).
    destruct (StatusCode resp =? StatusOK)%Z eqn:E; [|reflexivity].
    apply Z.eqb_eq in E. contradiction.
  - intros e w1 rest results Ha. simpl. unfold bind at 1. rewrite Ha.
    reflexivity.
Qed.

Lemma one_post_per_generated_prompt_witness :
  analyzeMessage (Demo.env Demo.down) "hi" Demo.cfgBadTemplate emptyWorld
  = (Returned (Err (ErrGeneratingPrompt ErrParsingTemplate)), emptyWorld) /\
  (exists out,
     analyzeMessage (Demo.env Demo.failing) "hi" Demo.cfg emptyWorld
     = (Returned out,
        {| sent := [ {| reqMethod := "POST";
                        reqURL := "http://localhost:11434/api/generate";
                        reqHeader := [("Content-Type", "application/json")];
                        reqBody :=
                          JSONBody {| ReqModel := "mistral";
                                      Prompt := "Input: hi";
                                      Stream := false;
                                      Format := AMap [("type", AString "object")] |} |} ];
           logged := [] |}) /\
     ((forall resp,
         Demo.failing [] (generateRequest Demo.cfg "Input: hi") = DoResponse resp ->
         StatusCode resp <> StatusOK) ->
      out = Err ErrAPIRequestFailed)) /\
  analyzeLoop (Demo.env Demo.down) Demo.cfg ["hi"] [] emptyWorld
  = analyzeLoop (Demo.env Demo.down) Demo.cfg [] []
      {| sent := [generateRequest Demo.cfg "Input: hi"];
         logged := [LogAnalyzeError "hi" ErrAPIRequestFailed] |}.
Proof.
  split; [|split].
  - apply (one_post_per_generated_prompt (Demo.env Demo.down)
             Demo.cfgBadTemplate "hi" emptyWorld).
    reflexivity.
  - apply (proj1 (proj2 (one_post_per_generated_prompt (Demo.env Demo.failing)
                           Demo.cfg "hi" emptyWorld)) "Input: hi");
      reflexivity.
  - apply (proj2 (proj2 (one_post_per_generated_prompt (Demo.env Demo.down)
                           Demo.cfg "hi" emptyWorld))
             ErrAPIRequestFailed
             {| sent := [generateRequest Demo.cfg "Input: hi"]; logged := [] |}
             [] []).
    reflexivity.
Defined.

(** C8, as the specification states it, fails: with a template that does not parse,
    analyzeMessage processes the message and makes no request at all. *)
Lemma no_prompt_no_post :
  analyzeMessage (Demo.env Demo.down) "hi" Demo.cfgBadTemplate emptyWorld
  = (Returned (Err (ErrGeneratingPrompt ErrParsingTemplate)), emptyWorld) /\
  ~ (exists req,
       sent (snd (analyzeMessage (Demo.env Demo.down) "hi" Demo.cfgBadTemplate
                    emptyWorld))
       = (sent emptyWorld ++ [req])%list).
Proof.
  split; [reflexivity|].
  intros [req H]. vm_compute in H. discriminate.
Qed.

(** ** The response parser *)

Lemma Unmarshal_fits {S : Type} (fields : list (string * store S)) types
  text v (s : S) :
  agree fields types ->
  parse text = Some v ->
  fitsStruct types v = true ->
  Unmarshal (storeStruct fields) text s = (fst (storeStruct fields s v), None).
Proof.
  intros Hag Hp Hfit. unfold Unmarshal. rewrite Hp.
  pose proof (storeStruct_ok fields types Hag s v) as Hok.
  destruct (storeStruct fields s v) as [s' ok]. simpl in *.
  rewrite Hok, Hfit. reflexivity.
Qed.

(** C3, as the specification states it, fails: the text of an empty object is valid
    JSON and has neither required field, yet the parser returns no error
    and the message is kept, with the zero values of both fields. *)
Lemma missing_fields_are_no_error :
  parse "{}" = Some (JObj []) /\
  member "safe" (JObj []) = None /\
  member "violated_policies" (JObj []) = None /\
  Unmarshal (storeStruct moderationResult_fields) "{}" zeroModerationResult
  = (zeroModerationResult, None) /\
  analyzeMessage (Demo.env (Demo.answering "{}")) "hi" Demo.cfg emptyWorld
  = (Returned (Ok {| Content := "hi"; IsSafe := false;
                     ViolatedPolicies := None |}),
     addSent (generateRequest Demo.cfg "Input: hi") emptyWorld).
Proof.
  repeat split; reflexivity.
Qed.

(** C3, as the code has it.  Given the model's answer to a message, the
    parsing of the answer fails, and with it the analysis of the message,
    exactly when the answer is not one JSON value or the value does not fit
    the moderationResult type: it is neither null nor an object, or a
    member that names the safe field is neither a boolean nor null, or a
    member that names the violated_policies field is neither null nor an
    array of strings and nulls.  Absent fields are no error.  In every
    other case the analysis succeeds. *)
Theorem parse_error_iff_no_fit (env : Env) (cfg : Config) (message : string)
  (w : World) (prompt text : string) :
  answers env cfg message w prompt text ->
  ((exists e,
      analyzeMessage env message cfg w
      = (Returned (Err (ErrParsingModeration e)),
         addSent (generateRequest cfg prompt) w))
   <->
   (parse text = None \/
    exists v, parse text = Some v /\
              fitsStruct moderationResult_types v = false)) /\
  ((exists res,
      analyzeMessage env message cfg w
      = (Returned (Ok res), addSent (generateRequest cfg prompt) w))
   <->
   (exists v, parse text = Some v /\
              fitsStruct moderationResult_types v = true)).
Proof.
  intros Hans. rewrite (analyzeMessage_answers _ _ _ _ _ _ Hans).
  pose proof (Unmarshal_error_iff moderationResult_fields moderationResult_types
                text zeroModerationResult moderationResult_agree) as Hiff.
  destruct (Unmarshal (storeStruct moderationResult_fields) text
              zeroModerationResult) as [m [e|]]; simpl in Hiff.
  - assert (Hbad : parse text = None \/
                   exists v, parse text = Some v /\
                             fitsStruct moderationResult_types v = false)
      by (apply Hiff; discriminate).
    split; split.
    + intros _. exact Hbad.
    + intros _. exists e. reflexivity.
    + intros [res H]. discriminate.
    + intros (v & Hp & Hfit). exfalso.
      destruct Hbad as [Hn | (v' & Hp' & Hfit')]; congruence.
  - assert (Hgood : ~ (parse text = None \/
                       exists v, parse text = Some v /\
                                 fitsStruct moderationResult_types v = false)).
    { intros Hbad. apply Hiff in Hbad. apply Hbad. reflexivity. }
    split; split.
    + intros [e H]. discriminate.
    + intros Hbad. contradiction.
    + intros _. destruct (parse text) as [v|] eqn:Hp.
      * exists v. split; [reflexivity|].
        destruct (fitsStruct moderationResult_types v) eqn:Hfit;
          [reflexivity|].
        exfalso. apply Hgood. right. exists v. split; [reflexivity | exact Hfit].
      * exfalso. apply Hgood. left. reflexivity.
    + intros _. eexists. reflexivity.
Qed.

Lemma parse_error_iff_no_fit_witness :
  let text := js "{'safe': 'yes'}" in
  answers (Demo.env (Demo.answering text)) Demo.cfg "hi" emptyWorld
    "Input: hi" text /\
  exists e,
    analyzeMessage (Demo.env (Demo.answering text)) "hi" Demo.cfg emptyWorld
    = (Returned (Err (ErrParsingModeration e)),
       addSent (generateRequest Demo.cfg "Input: hi") emptyWorld).
Proof.
  intros text.
  assert (Hans : answers (Demo.env (Demo.answering text)) Demo.cfg "hi"
                   emptyWorld "Input: hi" text).
  { split; [reflexivity|]. split; [reflexivity|].
    eexists. split; [reflexivity|]. split; reflexivity. }
  split; [exact Hans|].
  destruct (proj2 (proj1 (parse_error_iff_no_fit _ _ _ _ _ _ Hans))) as [e He].
  - right. exists (JObj [("safe", JStr "yes")]). split; reflexivity.
  - exists e. exact He.
Defined.

(** ** Absent and null violated_policies *)


(** What every member preserves, the object preserves. *)
Lemma object_invariant {S : Type} (P : S -> Prop)
  (fields : list (string * store S)) ms :
  (forall k x st, In (k, x) ms -> findField fields k = Some st ->
                  forall s, P s -> P (fst (st s x))) ->
  forall s, P s -> P (fst (object fields ms s)).
Proof.
  induction ms as [|[k x] ms IH]; intros Hstep s Hs; simpl; [exact Hs|].
  assert (IH' := IH (fun k' x' st Hin => Hstep k' x' st (or_intror Hin))).
  destruct (findField fields k) as [st|] eqn:Hk.
  - pose proof (Hstep k x st (or_introl eq_refl) Hk s Hs) as H1.
    destruct (st s x) as [s1 ok1]. simpl in H1.
    specialize (IH' s1 H1).
    destruct (object fields ms s1) as [s2 ok2]. exact IH'.
  - apply IH'. exact Hs.
Qed.








(** ** handleOllamaHealth *)

Lemma served_Error w msg code :
  unsent w ->
  status (served (Error w msg code)) = code /\
  body (served (Error w msg code)) = msg ++ newline.
Proof.
  intros [Hh Hb]. destruct w as [h wh wr]. simpl in Hh, Hb. subst.
  split; reflexivity.
Qed.

Lemma served_Write_twice w a b :
  unsent w ->
  status (served (Write b (Write a w))) = StatusOK /\
  body (served (Write b (Write a w))) = a ++ b.
Proof.
  intros [Hh Hb]. destruct w as [h wh wr]. simpl in Hh, Hb. subst.
  split; reflexivity.
Qed.

(** C5.  On /api/health, for every request that reaches
    handleOllamaHealth (whatever its method; the writer has sent nothing
    yet): if the request to the backend's /api/version cannot be made or
    the connection fails, the status is 503; if the backend answers with a
    status other than 200, the status is 502 and the body carries the
    backend's status code and body; otherwise the status is 200 and the
    body is the backend's body after the prefix of the handler.  The
    backend is called at most once.  Every request to the route other than
    OPTIONS reaches the handler, with such a writer. *)
Theorem health_mirrors_backend (env : Env) (ollamaURL : string)
  (w : ResponseWriter) (r : Request) (world : World) :
  unsent w ->
  let req := versionRequest ollamaURL in
  (forall msg,
     urlParseError env (ollamaURL ++ "/api/version") = Some msg ->
     exists w',
       handleOllamaHealth env ollamaURL w r world = (Returned w', world) /\
       status (served w') = 503%Z /\
       body (served w') = ("creating version request: " ++ msg) ++ newline) /\
  (urlParseError env (ollamaURL ++ "/api/version") = None ->
   (forall msg,
      clientDo env (sent world) req = DoError msg ->
      exists w',
        handleOllamaHealth env ollamaURL w r world
        = (Returned w', addSent req world) /\
        status (served w') = 503%Z /\
        body (served w') = ("connecting to Ollama: " ++ msg) ++ newline) /\
   (forall resp,
      clientDo env (sent world) req = DoResponse resp ->
      StatusCode resp <> 200%Z ->
      exists w',
        handleOllamaHealth env ollamaURL w r world
        = (Returned w', addSent req world) /\
        status (served w') = 502%Z /\
        body (served w')
        = ("unexpected version status code " ++ itoa (StatusCode resp)
           ++ ": " ++ respBody resp) ++ newline) /\
   (forall resp,
      clientDo env (sent world) req = DoResponse resp ->
      StatusCode resp = 200%Z ->
      exists w' world',
        handleOllamaHealth env ollamaURL w r world = (Returned w', world') /\
        sent world' = (sent world ++ [req])%list /\
        status (served w') = 200%Z /\
        body (served w') = "ollama: " ++ respBody resp)) /\
  (forall cfg,
     OllamaURL cfg = ollamaURL ->
     Method r <> MethodOptions ->
     unsent (corsHeaders newResponseWriter) /\
     serve (apiHealth env cfg) r world
     = (w' <- handleOllamaHealth env ollamaURL (corsHeaders newResponseWriter) r ;;
        ret (served w')) world).
Proof.
  intros Hw req. split; [|split].
  - intros msg Hu. unfold handleOllamaHealth, NewRequest. rewrite Hu.
    eexists. split; [reflexivity|]. apply served_Error. exact Hw.
  - intros Hu.
    assert (Hdo :
               handleOllamaHealth env ollamaURL w r world
               = match clientDo env (sent world) req with
                 | DoError msg =>
                     ret (Error w ("connecting to Ollama: " ++ msg)
                            StatusServiceUnavailable) (addSent req world)
                 | DoResponse resp =>
                     if negb (StatusCode resp =? StatusOK)%Z then
                       ret (Error w
                              ("unexpected version status code "
                               ++ itoa (StatusCode resp) ++ ": " ++ respBody resp)
                              StatusBadGateway) (addSent req world)
                     else if respBodyErr resp then
                       (logPrintf LogCopyError ;;;
                        ret (Write (respBody resp) (Write "ollama: " w)))
                         (addSent req world)
                     else ret (Write (respBody resp) (Write "ollama: " w))
                            (addSent req world)
                 end).
    { unfold handleOllamaHealth, NewRequest. rewrite Hu.
      unfold bind at 1. unfold Do. fold req.
      change {| reqMethod := MethodGet; reqURL := ollamaURL ++ "/api/version";
                reqHeader := []; reqBody := NoBody |} with req.
      destruct (clientDo env (sent world) req) as [msg|resp]; [reflexivity|].
      destruct (negb (StatusCode resp =? StatusOK)%Z); [reflexivity|].
      destruct (respBodyErr resp); reflexivity. }
    split; [|split].
    + intros msg Hd. rewrite Hdo, Hd. eexists. split; [reflexivity|].
      apply served_Error. exact Hw.
    + intros resp Hd Hs. rewrite Hdo, Hd.
      replace (StatusCode resp =? StatusOK)%Z with false
        by (symmetry; apply Z.eqb_neq; exact Hs).
      eexists. split; [reflexivity|]. apply served_Error. exact Hw.
    + intros resp Hd Hs. rewrite Hdo, Hd.
      replace (StatusCode resp =? StatusOK)%Z with true
        by (symmetry; apply Z.eqb_eq; exact Hs).
      destruct (respBodyErr resp); eexists; eexists;
        (split; [reflexivity|]); (split; [reflexivity|]);
        apply served_Write_twice; exact Hw.
  - intros cfg Hcfg Hm. split; [split; reflexivity|].
    unfold serve, apiHealth. unfold bind.
    rewrite (cors_other _ _ r Hm), Hcfg. reflexivity.
Qed.

Lemma health_mirrors_backend_witness :
  let w := corsHeaders newResponseWriter in
  let r := {| Method := "GET"; Body := "" |} in
  (exists w',
     handleOllamaHealth (Demo.env Demo.down) "http://localhost:11434" w r
       emptyWorld
     = (Returned w', addSent (versionRequest "http://localhost:11434") emptyWorld) /\
     status (served w') = 503%Z /\
     body (served w') = ("connecting to Ollama: " ++ "connection refused") ++ newline) /\
  (exists w',
     handleOllamaHealth (Demo.env Demo.failing) "http://localhost:11434" w r
       emptyWorld
     = (Returned w', addSent (versionRequest "http://localhost:11434") emptyWorld) /\
     status (served w') = 502%Z /\
     body (served w') = "unexpected version status code 500: boom" ++ newline) /\
  (exists w' world',
     handleOllamaHealth (Demo.env (fun _ _ => Demo.ok200 "0.5.1"))
       "http://localhost:11434" w r emptyWorld
     = (Returned w', world') /\
     sent world' = [versionRequest "http://localhost:11434"] /\
     status (served w') = 200%Z /\
     body (served w') = "ollama: 0.5.1") /\
  (exists w',
     handleOllamaHealth (Demo.env Demo.down) "localhost" w r emptyWorld
     = (Returned w', emptyWorld) /\
     status (served w') = 503%Z /\
     body (served w') = ("creating version request: " ++ "invalid URL") ++ newline).
Proof.
  intros w r.
  assert (Hw : unsent w) by (split; reflexivity).
  split; [|split; [|split]].
  - destruct (health_mirrors_backend (Demo.env Demo.down)
                "http://localhost:11434" w r emptyWorld Hw)
      as (_ & Hback & _).
    destruct (Hback eq_refl) as (Hdown & _ & _).
    apply Hdown. reflexivity.
  - destruct (health_mirrors_backend (Demo.env Demo.failing)
                "http://localhost:11434" w r emptyWorld Hw)
      as (_ & Hback & _).
    destruct (Hback eq_refl) as (_ & Hbad & _).
    apply (Hbad {| StatusCode := 500; respBody := "boom";
                   respBodyErr := false |});
      [reflexivity | discriminate].
  - destruct (health_mirrors_backend
                (Demo.env (fun _ _ => Demo.ok200 "0.5.1"))
                "http://localhost:11434" w r emptyWorld Hw)
      as (_ & Hback & _).
    destruct (Hback eq_refl) as (_ & _ & Hgood).
    apply (Hgood {| StatusCode := 200; respBody := "0.5.1";
                    respBodyErr := false |}); reflexivity.
  - destruct (health_mirrors_backend (Demo.env Demo.down) "localhost" w r
                emptyWorld Hw) as (Hurl & _ & _).
    apply Hurl. reflexivity.
Defined.

(** ** loadConfig *)

(** A field no member names keeps its value. *)
Lemma object_frame {S A : Type} (get : S -> A)
  (fields : list (string * store S)) (tags : list string) (tag : string) :
  Forall2 (fun f t => fst f = t /\
                      (t = tag \/ forall s v, get (fst (snd f s v)) = get s))
    fields tags ->
  forall ms,
    (forall k x, In (k, x) ms -> names tags tag k = false) ->
    forall s, get (fst (object fields ms s)) = get s.
Proof.
  intros Hft.
  assert (Htab : Forall2
                   (fun (a : string * store S) (b : string * string) =>
                      fst a = fst b /\
                      (snd b = tag \/
                       forall s v, get (fst (snd a s v)) = get s))
                   fields (map (fun t => (t, t)) tags)).
  { induction Hft as [|f t fields tags [Hn Hr] _ IH]; simpl; constructor.
    - split; [exact Hn | exact Hr].
    - exact IH. }
  intros ms Hno s.
  apply (object_invariant (fun s' => get s' = get s)); [|reflexivity].
  intros k x st Hin Hk s' Hs'.
  pose proof (findField_together
                (fun (f : store S) (t : string) =>
                   t = tag \/ forall s v, get (fst (f s v)) = get s)
                fields (map (fun t => (t, t)) tags) k Htab) as Hrel.
  rewrite Hk in Hrel. specialize (Hno k x Hin). unfold names in Hno.
  destruct (findField (map (fun t => (t, t)) tags) k) as [t|];
    [|contradiction].
  destruct Hrel as [-> | Hframe].
  - rewrite String.eqb_refl in Hno. discriminate.
  - rewrite Hframe. exact Hs'.
Qed.

Lemma Config_policies_frame :
  Forall2 (fun f t => fst f = t /\
                      (t = "policies" \/
                       forall s v, Policies (fst (snd f s v)) = Policies s))
    Config_fields Config_tags.
Proof.
  unfold Config_fields, Config_tags.
  repeat (apply Forall2_cons; [split; [reflexivity|] | ]);
    try apply Forall2_nil; cbn [snd];
    first [ left; reflexivity
          | right; intros s v; unfold field;
            match goal with
            | |- context [match ?t with pair _ _ => _ end] => destruct t
            end; reflexivity ].
Qed.

Lemma Config_format_frame :
  Forall2 (fun f t => fst f = t /\
                      (t = "response_format" \/
                       forall s v,
                         ResponseFormat (fst (snd f s v)) = ResponseFormat s))
    Config_fields Config_tags.
Proof.
  unfold Config_fields, Config_tags.
  repeat (apply Forall2_cons; [split; [reflexivity|] | ]);
    try apply Forall2_nil; cbn [snd];
    first [ left; reflexivity
          | right; intros s v; unfold field;
            match goal with
            | |- context [match ?t with pair _ _ => _ end] => destruct t
            end; reflexivity ].
Qed.

Lemma loadConfig_unfold env path :
  loadConfig env path
  = match readFile env path with
    | None => Err ErrReadingConfig
    | Some data =>
        match Unmarshal (storeStruct Config_fields) data zeroConfig with
        | (_, Some e) => Err (ErrParsingConfig e)
        | (cfg, None) =>
            if String.eqb (OllamaURL cfg) "" || String.eqb (Model cfg) ""
               || String.eqb (PromptTemplate cfg) ""
            then Err ErrMissingFields
            else Ok cfg
        end
    end.
Proof. reflexivity. Qed.

Lemma required_empty cfg :
  String.eqb (OllamaURL cfg) "" || String.eqb (Model cfg) ""
  || String.eqb (PromptTemplate cfg) "" = true
  <-> (OllamaURL cfg = "" \/ Model cfg = "" \/ PromptTemplate cfg = "").
Proof.
  rewrite !orb_true_iff, !String.eqb_eq. tauto.
Qed.

(** C7.  loadConfig returns an error exactly when the file cannot be
    read, or its text is not valid JSON for the Config type (it is not one
    JSON value, or the value does not fit the type), or one of ollama_url,
    model and prompt_template is empty after decoding.  On success the
    configuration returned is the decoded one.  A configuration without
    policies and without response_format is accepted, these two fields
    being nil.  In main, an error of loadConfig is fatal. *)
Theorem loadConfig_error_iff (env : Env) (path : string) :
  ((exists e, loadConfig env path = Err e) <->
   (readFile env path = None \/
    (exists data, readFile env path = Some data /\
       (parse data = None \/
        exists v, parse data = Some v /\ fitsStruct Config_types v = false)) \/
    (exists data cfg,
       readFile env path = Some data /\
       Unmarshal (storeStruct Config_fields) data zeroConfig = (cfg, None) /\
       (OllamaURL cfg = "" \/ Model cfg = "" \/ PromptTemplate cfg = "")))) /\
  (forall cfg,
     loadConfig env path = Ok cfg ->
     exists data,
       readFile env path = Some data /\
       Unmarshal (storeStruct Config_fields) data zeroConfig = (cfg, None)) /\
  (forall data ms,
     readFile env path = Some data ->
     parse data = Some (JObj ms) ->
     fitsStruct Config_types (JObj ms) = true ->
     (forall k x, In (k, x) ms ->
        names Config_tags "policies" k = false /\
        names Config_tags "response_format" k = false) ->
     let cfg := fst (object Config_fields ms zeroConfig) in
     Policies cfg = None /\ ResponseFormat cfg = ANil /\
     (OllamaURL cfg <> "" -> Model cfg <> "" -> PromptTemplate cfg <> "" ->
      loadConfig env path = Ok cfg)) /\
  (forall e, main env = Fatal e <-> loadConfig env "config.json" = Err e).
Proof.
  split; [|split; [|split]].
  - rewrite loadConfig_unfold.
    destruct (readFile env path) as [data|].
    + pose proof (Unmarshal_error_iff Config_fields Config_types data
                    zeroConfig Config_agree) as Hiff.
      destruct (Unmarshal (storeStruct Config_fields) data zeroConfig)
        as [cfg [e|]] eqn:Hun; simpl in Hiff.
      * split.
        -- intros _. right. left. exists data. split; [reflexivity|].
           apply Hiff. discriminate.
        -- intros _. eexists. reflexivity.
      * pose proof (required_empty cfg) as Hreq.
        destruct (String.eqb (OllamaURL cfg) "" || String.eqb (Model cfg) ""
                  || String.eqb (PromptTemplate cfg) "").
        -- split.
           ++ intros _. right. right. exists data, cfg.
              split; [reflexivity|]. split; [exact Hun|].
              apply Hreq. reflexivity.
           ++ intros _. eexists. reflexivity.
        -- split.
           ++ intros [e H]. discriminate.
           ++ intros [H | [(d & Hd & Hbad) | (d & c & Hd & Hc & Hempty)]].
              ** discriminate.
              ** inversion Hd; subst d.
                 apply Hiff in Hbad. exfalso. apply Hbad. reflexivity.
              ** inversion Hd; subst d. rewrite Hun in Hc.
                 inversion Hc; subst c. apply Hreq in Hempty. discriminate.
    + split.
      * intros _. left. reflexivity.
      * intros _. eexists. reflexivity.
  - intros cfg. rewrite loadConfig_unfold.
    destruct (readFile env path) as [data|]; [|discriminate].
    destruct (Unmarshal (storeStruct Config_fields) data zeroConfig)
      as [cfg' [e|]] eqn:Hun; [discriminate|].
    destruct (String.eqb (OllamaURL cfg') "" || String.eqb (Model cfg') ""
              || String.eqb (PromptTemplate cfg') ""); [discriminate|].
    intros H. inversion H; subst. exists data. split; [reflexivity | exact Hun].
  - intros data ms Hread Hparse Hfit Hno cfg.
    split; [|split].
    + apply (object_frame Policies Config_fields Config_tags "policies"
               Config_policies_frame ms).
      intros k x Hin. apply (Hno k x Hin).
    + apply (object_frame ResponseFormat Config_fields Config_tags
               "response_format" Config_format_frame ms).
      intros k x Hin. apply (Hno k x Hin).
    + intros H1 H2 H3. rewrite loadConfig_unfold, Hread.
      rewrite (Unmarshal_fits Config_fields Config_types data (JObj ms)
                 zeroConfig Config_agree Hparse Hfit).
      cbn [storeStruct]. fold cfg.
      pose proof (required_empty cfg) as Hreq.
      destruct (String.eqb (OllamaURL cfg) "" || String.eqb (Model cfg) ""
                || String.eqb (PromptTemplate cfg) ""); [|reflexivity].
      exfalso. destruct (proj1 Hreq eq_refl) as [H | [H | H]]; contradiction.
  - intros e. unfold main. destruct (loadConfig env "config.json") as [c|e'];
      split; intros H; inversion H; reflexivity.
Qed.

Lemma loadConfig_error_iff_witness :
  (exists e, loadConfig (Demo.env Demo.down) "missing.json" = Err e) /\
  (exists e, loadConfig (Demo.envWith "{" Demo.down) "config.json" = Err e) /\
  (exists e,
     loadConfig (Demo.envWith (js "{'ollama_url':'http://h','model':''}")
                   Demo.down) "config.json" = Err e) /\
  loadConfig (Demo.envWith Demo.minimalConfigText Demo.down) "config.json"
  = Ok {| OllamaURL := "http://localhost:11434"; Model := "mistral";
          PromptTemplate := "Input: {{.Message}}";
          Policies := None; ResponseFormat := ANil |}.
Proof.
  split; [|split; [|split]].
  - apply (proj1 (loadConfig_error_iff (Demo.env Demo.down) "missing.json")).
    left. reflexivity.
  - apply (proj1 (loadConfig_error_iff (Demo.envWith "{" Demo.down)
                    "config.json")).
    right. left. exists "{". split; [reflexivity|]. left. reflexivity.
  - apply (proj1 (loadConfig_error_iff
                    (Demo.envWith (js "{'ollama_url':'http://h','model':''}")
                       Demo.down) "config.json")).
    right. right. eexists. eexists.
    split; [reflexivity|]. split; [reflexivity|]. right. left. reflexivity.
  - apply (proj1 (proj2 (proj2 (loadConfig_error_iff
                                  (Demo.envWith Demo.minimalConfigText Demo.down)
                                  "config.json")))
             Demo.minimalConfigText
             [ ("ollama_url", JStr "http://localhost:11434");
               ("model", JStr "mistral");
               ("prompt_template", JStr "Input: {{.Message}}") ]).
    + reflexivity.
    + reflexivity.
    + reflexivity.
    + intros k x [H | [H | [H | []]]]; inversion H; subst; split; reflexivity.
    + discriminate.
    + discriminate.
    + discriminate.
Defined.

End Spec.

(** * Further properties of the service *)

Module Behaviour.

Import JSON HTTP Main JSONFacts Spec Batch.

(** ** What a batch sends and logs *)

Lemma analyzeMessage_trace env message cfg w out w1 :
  urlParseError env (OllamaURL cfg ++ "/api/generate") = None ->
  analyzeMessage env message cfg w = (out, w1) ->
  sent w1 = (sent w ++ requestsFor env cfg [message])%list /\
  logged w1 = logged w.
Proof.
  intros Hu. unfold requestsFor. cbn [flat_map].
  destruct (generatePrompt env message (Policies cfg) (PromptTemplate cfg))
    as [prompt|e] eqn:Hp.
  - rewrite (analyzeMessage_posts env message cfg w prompt Hp Hu).
    intros H. inversion H; subst. rewrite app_nil_r. split; reflexivity.
  - rewrite (analyzeMessage_prompt_error env message cfg w e Hp).
    intros H. inversion H; subst. cbn. rewrite app_nil_r. split; reflexivity.
Qed.

Lemma analyzeMessage_logged env message cfg w out w1 :
  analyzeMessage env message cfg w = (out, w1) -> logged w1 = logged w.
Proof.
  destruct (generatePrompt env message (Policies cfg) (PromptTemplate cfg))
    as [prompt|e] eqn:Hp.
  - destruct (urlParseError env (OllamaURL cfg ++ "/api/generate"))
      as [msg|] eqn:Hu.
    + rewrite (analyzeMessage_panics env message cfg w prompt msg Hp Hu).
      intros H. inversion H; reflexivity.
    + rewrite (analyzeMessage_posts env message cfg w prompt Hp Hu).
      intros H. inversion H; reflexivity.
  - rewrite (analyzeMessage_prompt_error env message cfg w e Hp).
    intros H. inversion H; reflexivity.
Qed.

Lemma requestsFor_cons env cfg m msgs :
  requestsFor env cfg (m :: msgs)
  = (requestsFor env cfg [m] ++ requestsFor env cfg msgs)%list.
Proof. unfold requestsFor. cbn [flat_map]. rewrite app_nil_r. reflexivity. Qed.

Lemma requestsFor_length env cfg msgs :
  (List.length (requestsFor env cfg msgs) <= List.length msgs)%nat.
Proof.
  induction msgs as [|m msgs IH]; [apply le_n|].
  rewrite (requestsFor_cons env cfg m msgs), length_app.
  unfold requestsFor at 1.
  cbn [flat_map List.length].
  destruct (generatePrompt env m (Policies cfg) (PromptTemplate cfg));
    cbn [List.length app]; [apply le_n_S; exact IH | apply le_S; exact IH].
Qed.

Lemma runs_sent env cfg msgs w outs w' :
  urlParseError env (OllamaURL cfg ++ "/api/generate") = None ->
  runs env cfg msgs w outs w' ->
  sent w' = (sent w ++ requestsFor env cfg msgs)%list.
Proof.
  intros Hu. induction 1 as [w | m rest w w1 w2 res outs Hm _ IH
                               | m rest w w1 w2 e outs Hm _ IH].
  - cbn. rewrite app_nil_r. reflexivity.
  - destruct (analyzeMessage_trace env m cfg w _ w1 Hu Hm) as [Hs _].
    rewrite (requestsFor_cons env cfg m rest), IH, Hs, app_assoc.
    reflexivity.
  - destruct (analyzeMessage_trace env m cfg w _ w1 Hu Hm) as [Hs _].
    rewrite (requestsFor_cons env cfg m rest), IH. cbn [addLog sent].
    rewrite Hs, app_assoc. reflexivity.
Qed.

Lemma runs_logged env cfg msgs w outs w' :
  runs env cfg msgs w outs w' ->
  logged w' = (logged w ++ failureLog msgs outs)%list.
Proof.
  induction 1 as [w | m rest w w1 w2 res outs Hm _ IH
                    | m rest w w1 w2 e outs Hm _ IH].
  - cbn. rewrite app_nil_r. reflexivity.
  - rewrite IH, (analyzeMessage_logged env m cfg w _ w1 Hm). reflexivity.
  - rewrite IH. cbn [addLog logged failureLog].
    rewrite (analyzeMessage_logged env m cfg w _ w1 Hm), <- app_assoc.
    reflexivity.
Qed.


(** X1.  With a backend URL that parses, a non-empty batch is answered
    with status 200 whatever the backend does, and the requests made while
    serving it are exactly one per message whose prompt is generated, in
    the order of the batch: never two for a message, never one out of
    turn. *)
Theorem batch_sends_one_request_per_prompt (env : Env) (cfg : Config)
  (r : Request) (world : World) (msgs : list string) :
  urlParseError env (OllamaURL cfg ++ "/api/generate") = None ->
  Method r = MethodPost ->
  Decode (storeStruct analyzeRequest_fields) (Body r) zeroAnalyzeRequest
  = ({| Messages := Some msgs |}, None) ->
  msgs <> [] ->
  exists s world',
    serve (apiAnalyze env cfg) r world = (Returned s, world') /\
    status s = StatusOK /\
    sent world' = (sent world ++ requestsFor env cfg msgs)%list /\
    (List.length (requestsFor env cfg msgs) <= List.length msgs)%nat.
Proof.
  intros Hu Hm Hdec Hne.
  destruct (runs_exist env cfg Hu msgs world) as (outs & world' & Hruns).
  eexists. exists world'. split; [|split; [|split]].
  - exact (apiAnalyze_runs env cfg r world msgs outs world' Hm Hdec Hne Hruns).
  - reflexivity.
  - exact (runs_sent env cfg msgs world outs world' Hu Hruns).
  - apply requestsFor_length.
Qed.

Lemma batch_sends_one_request_per_prompt_witness :
  exists s world',
    serve (apiAnalyze (Demo.env Demo.moody) Demo.cfg)
      (Demo.post (js "{'messages':['a','b']}")) emptyWorld
    = (Returned s, world') /\
    status s = StatusOK /\
    sent world' = [ generateRequest Demo.cfg "Input: a";
                    generateRequest Demo.cfg "Input: b" ] /\
    (2 <= 2)%nat.
Proof.
  apply (batch_sends_one_request_per_prompt (Demo.env Demo.moody) Demo.cfg
           (Demo.post (js "{'messages':['a','b']}")) emptyWorld ["a"; "b"]).
  - reflexivity.
  - reflexivity.
  - reflexivity.
  - discriminate.
Defined.



(** ** A backend URL that does not parse *)

Lemma analyzeLoop_sent_without_url env cfg msg :
  urlParseError env (OllamaURL cfg ++ "/api/generate") = Some msg ->
  forall msgs results w,
    sent (snd (analyzeLoop env cfg msgs results w)) = sent w.
Proof.
  intros Hu. induction msgs as [|m msgs IH]; intros results w; [reflexivity|].
  cbn [analyzeLoop]. unfold bind at 1.
  destruct (generatePrompt env m (Policies cfg) (PromptTemplate cfg))
    as [prompt|e] eqn:Hp.
  - rewrite (analyzeMessage_panics env m cfg w prompt msg Hp Hu). reflexivity.
  - rewrite (analyzeMessage_prompt_error env m cfg w e Hp).
    unfold bind, logPrintf. rewrite IH. reflexivity.
Qed.

Lemma analyzeLoop_panics env cfg msg :
  urlParseError env (OllamaURL cfg ++ "/api/generate") = Some msg ->
  forall msgs results w,
    (exists m prompt,
       In m msgs /\
       generatePrompt env m (Policies cfg) (PromptTemplate cfg) = Ok prompt) ->
    fst (analyzeLoop env cfg msgs results w) = Panicked.
Proof.
  intros Hu. induction msgs as [|m msgs IH]; intros results w (m0 & p & Hin & Hp0).
  - contradiction.
  - cbn [analyzeLoop]. unfold bind at 1.
    destruct (generatePrompt env m (Policies cfg) (PromptTemplate cfg))
      as [prompt|e] eqn:Hp.
    + rewrite (analyzeMessage_panics env m cfg w prompt msg Hp Hu). reflexivity.
    + rewrite (analyzeMessage_prompt_error env m cfg w e Hp).
      unfold bind, logPrintf. apply IH.
      destruct Hin as [<- | Hin]; [congruence|].
      exists m0, p. split; assumption.
Qed.

(** X3.  analyzeMessage drops the error of NewRequestWithContext.  So
    when the backend URL of the configuration does not parse, a batch with
    a message whose prompt is generated is not answered at all: the handler
    panics at the first such message, and no request reaches the
    backend. *)
Theorem unparsable_url_aborts_the_batch (env : Env) (cfg : Config)
  (r : Request) (world : World) (msgs : list string) (msg : string) :
  urlParseError env (OllamaURL cfg ++ "/api/generate") = Some msg ->
  Method r = MethodPost ->
  Decode (storeStruct analyzeRequest_fields) (Body r) zeroAnalyzeRequest
  = ({| Messages := Some msgs |}, None) ->
  (exists m prompt,
     In m msgs /\
     generatePrompt env m (Policies cfg) (PromptTemplate cfg) = Ok prompt) ->
  exists world',
    serve (apiAnalyze env cfg) r world = (Panicked, world') /\
    sent world' = sent world.
Proof.
  intros Hu Hm Hdec Hex.
  assert (Hne : (len (Some msgs) =? 0)%nat = false).
  { destruct msgs; [destruct Hex as (m & p & [] & _) | reflexivity]. }
  pose proof (analyzeLoop_panics env cfg msg Hu msgs [] world Hex) as Hp.
  pose proof (analyzeLoop_sent_without_url env cfg msg Hu msgs [] world) as Hs.
  unfold serve. unfold bind at 1.
  rewrite (apiAnalyze_post env cfg r Hm), Hdec.
  cbn [Messages elements]. rewrite Hne. unfold bind.
  destruct (analyzeLoop env cfg msgs [] world) as [[results|] world'];
    cbn [fst snd] in Hp, Hs; [discriminate|].
  exists world'. split; [reflexivity | exact Hs].
Qed.

Lemma unparsable_url_aborts_the_batch_witness :
  exists world',
    serve (apiAnalyze (Demo.env Demo.moody) cfgBadURL)
      (Demo.post (js "{'messages':['a','b']}")) emptyWorld
    = (Panicked, world') /\
    sent world' = sent emptyWorld.
Proof.
  apply (unparsable_url_aborts_the_batch (Demo.env Demo.moody) cfgBadURL
           (Demo.post (js "{'messages':['a','b']}")) emptyWorld ["a"; "b"]
           "invalid URL").
  - reflexivity.
  - reflexivity.
  - reflexivity.
  - exists "a", "Input: a". split; [left; reflexivity | reflexivity].
Defined.

(** ** A backend that is not available *)

Lemma analyzeMessage_unavailable env message cfg w :
  urlParseError env (OllamaURL cfg ++ "/api/generate") = None ->
  unavailable env ->
  exists e w1, analyzeMessage env message cfg w = (Returned (Err e), w1).
Proof.
  intros Hu Hdown.
  destruct (generatePrompt env message (Policies cfg) (PromptTemplate cfg))
    as [prompt|e] eqn:Hp.
  - rewrite (analyzeMessage_posts env message cfg w prompt Hp Hu).
    destruct (clientDo env (sent w) (generateRequest cfg prompt))
      as [m|resp] eqn:Hdo.
    + eexists. eexists. reflexivity.
    + replace (StatusCode resp =? StatusOK)%Z with false.
      * eexists. eexists. reflexivity.
      * symmetry. apply Z.eqb_neq. exact (Hdown _ _ _ Hdo).
  - rewrite (analyzeMessage_prompt_error env message cfg w e Hp).
    eexists. eexists. reflexivity.
Qed.

Lemma runs_unavailable env cfg :
  urlParseError env (OllamaURL cfg ++ "/api/generate") = None ->
  unavailable env ->
  forall msgs w,
    exists outs w',
      runs env cfg msgs w outs w' /\ successes outs = [] /\
      List.length (failureLog msgs outs) = List.length msgs.
Proof.
  intros Hu Hdown. induction msgs as [|m msgs IH]; intros w.
  - exists [], w. repeat split. constructor.
  - destruct (analyzeMessage_unavailable env m cfg w Hu Hdown) as (e & w1 & Ha).
    destruct (IH (addLog (LogAnalyzeError m e) w1)) as (outs & w' & Hr & Hs & Hl).
    exists (Err e :: outs), w'. split; [|split].
    + eapply runs_err; eassumption.
    + exact Hs.
    + cbn. rewrite Hl. reflexivity.
Qed.

(** X4.  When the backend is not available (every call fails or is
    answered with a status other than 200) and its URL parses, a non-empty
    batch is still answered with status 200: the body is the empty JSON
    array, not null and not an error, and the log has grown by one line per
    message. *)
Theorem unavailable_backend_gives_empty_array (env : Env) (cfg : Config)
  (r : Request) (world : World) (msgs : list string) :
  urlParseError env (OllamaURL cfg ++ "/api/generate") = None ->
  unavailable env ->
  Method r = MethodPost ->
  Decode (storeStruct analyzeRequest_fields) (Body r) zeroAnalyzeRequest
  = ({| Messages := Some msgs |}, None) ->
  msgs <> [] ->
  exists world',
    serve (apiAnalyze env cfg) r world
    = (Returned {| status := 200; headers := analyzeHeaders;
                   body := "[]" ++ newline |}, world') /\
    List.length (logged world')
    = (List.length (logged world) + List.length msgs)%nat.
Proof.
  intros Hu Hdown Hm Hdec Hne.
  destruct (runs_unavailable env cfg Hu Hdown msgs world)
    as (outs & world' & Hruns & Hs & Hl).
  exists world'. split.
  - rewrite (apiAnalyze_runs env cfg r world msgs outs world' Hm Hdec Hne Hruns).
    rewrite Hs. reflexivity.
  - rewrite (runs_logged env cfg msgs world outs world' Hruns), length_app, Hl.
    reflexivity.
Qed.

Lemma unavailable_backend_gives_empty_array_witness :
  exists world',
    serve (apiAnalyze (Demo.env Demo.failing) Demo.cfg)
      (Demo.post (js "{'messages':['a','b']}")) emptyWorld
    = (Returned {| status := 200; headers := analyzeHeaders;
                   body := "[]" ++ newline |}, world') /\
    List.length (logged world') = 2%nat.
Proof.
  apply (unavailable_backend_gives_empty_array (Demo.env Demo.failing) Demo.cfg
           (Demo.post (js "{'messages':['a','b']}")) emptyWorld ["a"; "b"]).
  - reflexivity.
  - intros before req resp H. inversion H. discriminate.
  - reflexivity.
  - reflexivity.
  - discriminate.
Defined.

(** ** What of the request is read *)



(** ** corsMiddleware, twice *)

Lemma headerSet_present k v h :
  headerGet k h = Some v -> headerSet k v h = h.
Proof.
  induction h as [|[k' v'] h IH]; simpl; [discriminate|].
  destruct (String.eqb k' k) eqn:E.
  - intros H. inversion H; subst. apply String.eqb_eq in E. subst. reflexivity.
  - intros H. rewrite (IH H). reflexivity.
Qed.

Lemma corsHeaders_twice w : corsHeaders (corsHeaders w) = corsHeaders w.
Proof.
  destruct (corsHeaders_present w) as (Ho & Hm & Hh).
  set (w1 := corsHeaders w) in *.
  unfold corsHeaders at 1. unfold setHeader at 3. cbn [header wroteHeader written].
  rewrite (headerSet_present _ _ _ Ho).
  unfold setHeader at 2. cbn [header wroteHeader written].
  rewrite (headerSet_present _ _ _ Hm).
  unfold setHeader. cbn [header wroteHeader written].
  rewrite (headerSet_present _ _ _ Hh).
  destruct w1; reflexivity.
Qed.

(** X6.  corsMiddleware sets its headers, it does not add to them:
    wrapping a handler twice answers every request, on every response
    writer, as wrapping it once does. *)
Theorem cors_twice_is_cors_once (next : Handler) (w : ResponseWriter)
  (r : Request) (world : World) :
  corsMiddleware (corsMiddleware next) w r world
  = corsMiddleware next w r world.
Proof.
  unfold corsMiddleware at 1. fold (corsHeaders w).
  destruct (String.eqb (Method r) MethodOptions) eqn:E.
  - unfold corsMiddleware. fold (corsHeaders w). rewrite E. reflexivity.
  - unfold corsMiddleware. fold (corsHeaders w). fold (corsHeaders (corsHeaders w)).
    rewrite E, corsHeaders_twice. reflexivity.
Qed.

(** ** Members of the configuration that name no field *)

Lemma object_skip {S : Type} (fields : list (string * store S)) k x ms2 :
  findField fields k = None ->
  forall ms1 (s : S),
    object fields (ms1 ++ (k, x) :: ms2)%list s
    = object fields (ms1 ++ ms2)%list s.
Proof.
  intros Hk. induction ms1 as [|[k1 x1] ms1 IH]; intros s; cbn [app object].
  - rewrite Hk. reflexivity.
  - destruct (findField fields k1) as [st|].
    + destruct (st s x1) as [s1 ok1]. rewrite IH. reflexivity.
    + apply IH.
Qed.

(** X7.  loadConfig ignores what it does not know: a member of the
    configuration object whose key names none of the five fields, whatever
    its value, does not change what loadConfig returns. *)
Theorem unknown_config_members_are_ignored (env : Env)
  (path1 path2 data1 data2 : string) (ms1 ms2 : list (string * json))
  (k : string) (x : json) :
  readFile env path1 = Some data1 ->
  readFile env path2 = Some data2 ->
  parse data1 = Some (JObj (ms1 ++ ms2)%list) ->
  parse data2 = Some (JObj (ms1 ++ (k, x) :: ms2)%list) ->
  findField Config_fields k = None ->
  loadConfig env path2 = loadConfig env path1.
Proof.
  intros Hr1 Hr2 Hp1 Hp2 Hk.
  rewrite !loadConfig_unfold, Hr1, Hr2. unfold Unmarshal.
  rewrite Hp1, Hp2. cbn [storeStruct].
  rewrite (object_skip Config_fields k x ms2 Hk ms1 zeroConfig). reflexivity.
Qed.

Lemma unknown_config_members_are_ignored_witness :
  let plain := js "{'ollama_url':'http://h','model':'m','prompt_template':'t'}" in
  let noisy := js "{'ollama_url':'http://h','comment':[1e999,{}],'model':'m','prompt_template':'t'}" in
  let env := envFiles [("a.json", plain); ("b.json", noisy)] Demo.down in
  loadConfig env "b.json" = loadConfig env "a.json".
Proof.
  intros plain noisy env.
  apply (unknown_config_members_are_ignored env "a.json" "b.json" plain noisy
           [("ollama_url", JStr "http://h")]
           [("model", JStr "m"); ("prompt_template", JStr "t")]
           "comment" (JArr [JNum "1e999"; JObj []]));
    reflexivity.
Defined.

End Behaviour.

(** * Properties of the earlier revision *)

Module LegacyBehaviour.

Import JSON HTTP JSONFacts.
Import Main(Env, urlParseError, clientDo, DoError, DoResponse, StatusCode,
            respBody, respBodyErr, Returned, Panicked, analysisResult,
            Content, IsSafe, ViolatedPolicies, Messages,
            analyzeRequest_fields, zeroAnalyzeRequest, analyzeRequest_types,
            errorHeaders, analyzeHeaders, newline, corsHeaders, unsent).

Lemma legacy_analyzeMessage_posts env message w :
  urlParseError env "http://localhost:11434/api/generate" = None ->
  exists out,
    Legacy.analyzeMessage env message w
    = (Returned out, Legacy.addSent (Legacy.generateRequest message) w) /\
    ((forall resp,
        clientDo env (Legacy.sent w) (Legacy.generateRequest message)
        = DoResponse resp -> StatusCode resp <> StatusOK) ->
     out = inr Legacy.APIRequestFailed) /\
    (forall resp,
       clientDo env (Legacy.sent w) (Legacy.generateRequest message)
       = DoResponse resp ->
       StatusCode resp = StatusOK ->
       readValue (respBody resp) = None ->
       out = inr Legacy.InvalidJSONResponse) /\
    (forall res, out = inl res -> Content res = message).
Proof.
  intros Hu. unfold Legacy.analyzeMessage, Main.NewRequest. rewrite Hu.
  unfold Legacy.bind, Legacy.Do.
  change (Main.reqHeaderSet "Content-Type" "application/json" _)
    with (Legacy.generateRequest message).
  cbv beta iota. fold (Legacy.addSent (Legacy.generateRequest message) w).
  destruct (clientDo env (Legacy.sent w) (Legacy.generateRequest message))
    as [msg|resp].
  - eexists. split; [reflexivity|]. split; [reflexivity|].
    split; [intros resp H; discriminate | intros res H; discriminate].
  - destruct (StatusCode resp =? StatusOK)%Z eqn:E; cbn [negb].
    + unfold Decode.
      destruct (readValue (respBody resp)) as [v|] eqn:Hv.
      * destruct (storeStruct Main.ollamaResponse_fields
                    Main.zeroOllamaResponse v) as [o ok].
        destruct (Unmarshal (storeStruct Main.moderationResult_fields)
                    (Main.Response o) Main.zeroModerationResult) as [m [e|]];
          (eexists; split; [reflexivity|]; split; [|split]).
        -- intros Hbad. apply Z.eqb_eq in E. exfalso.
           exact (Hbad resp eq_refl E).
        -- intros resp' H _ Hnone. inversion H; subst. congruence.
        -- intros res H. discriminate.
        -- intros Hbad. apply Z.eqb_eq in E. exfalso.
           exact (Hbad resp eq_refl E).
        -- intros resp' H _ Hnone. inversion H; subst. congruence.
        -- intros res H. inversion H. reflexivity.
      * eexists. split; [reflexivity|]. split; [|split].
        -- intros Hbad. apply Z.eqb_eq in E. exfalso.
           exact (Hbad resp eq_refl E).
        -- intros. reflexivity.
        -- intros res H. discriminate.
    + eexists. split; [reflexivity|]. split; [reflexivity|]. split.
      * intros resp' H Hs. inversion H; subst.
        apply Z.eqb_neq in E. contradiction.
      * intros res H. discriminate.
Qed.

Lemma analyzeLoop_sends env :
  urlParseError env "http://localhost:11434/api/generate" = None ->
  forall msgs results w,
    exists results' w',
      Legacy.analyzeLoop env msgs results w = (Returned results', w') /\
      Legacy.sent w'
      = (Legacy.sent w ++ map Legacy.generateRequest msgs)%list.
Proof.
  intros Hu. induction msgs as [|m msgs IH]; intros results w.
  - exists results, w. split; [reflexivity|]. cbn. rewrite app_nil_r.
    reflexivity.
  - destruct (legacy_analyzeMessage_posts env m w Hu) as (out & Ha & _).
    cbn [Legacy.analyzeLoop]. unfold Legacy.bind at 1. rewrite Ha.
    destruct out as [res|e].
    + destruct (IH (results ++ [res])%list
                  (Legacy.addSent (Legacy.generateRequest m) w))
        as (results' & w' & Hl & Hs).
      exists results', w'. split; [exact Hl|].
      rewrite Hs. cbn [Legacy.addSent Legacy.sent map].
      rewrite <- app_assoc. reflexivity.
    + unfold Legacy.bind, Legacy.logPrintf.
      match goal with
      | |- context [Legacy.analyzeLoop env msgs results ?w0] =>
          destruct (IH results w0) as (results' & w' & Hl & Hs)
      end.
      exists results', w'. split; [exact Hl|].
      rewrite Hs. cbn [Legacy.addSent Legacy.sent map].
      rewrite <- app_assoc. reflexivity.
Qed.

Lemma legacy_cors_other (next : Legacy.Handler) w r :
  Method r <> MethodOptions ->
  Legacy.corsMiddleware next w r = next (corsHeaders w) r.
Proof.
  intros H. unfold Legacy.corsMiddleware.
  apply String.eqb_neq in H. rewrite H. reflexivity.
Qed.

Lemma legacy_apiAnalyze_post env r :
  Method r = MethodPost ->
  Legacy.apiAnalyze env newResponseWriter r
  = Legacy.handleAnalyze env (corsHeaders newResponseWriter) r.
Proof.
  intros Hm. unfold Legacy.apiAnalyze. apply legacy_cors_other.
  rewrite Hm. discriminate.
Qed.

(** X8.  In the earlier revision nothing can fail before the request:
    with the URL written into the code parsing, a non-empty batch is
    answered with status 200 and costs exactly one POST per message, in the
    order of the batch, each to the generate endpoint of localhost:11434
    with the model llama3.2:1b (not the constant modelName), stream false
    and the message put between the two parts of the prompt as it is. *)
Theorem legacy_sends_one_request_per_message (env : Env) (r : Request)
  (world : Legacy.World) (msgs : list string) :
  urlParseError env "http://localhost:11434/api/generate" = None ->
  Method r = MethodPost ->
  Decode (storeStruct analyzeRequest_fields) (Body r) zeroAnalyzeRequest
  = ({| Messages := Some msgs |}, None) ->
  msgs <> [] ->
  exists s world',
    Legacy.serve (Legacy.apiAnalyze env) r world = (Returned s, world') /\
    status s = StatusOK /\
    Legacy.sent world'
    = (Legacy.sent world
       ++ map (fun m =>
                 {| Main.reqMethod := "POST";
                    Main.reqURL := "http://localhost:11434/api/generate";
                    Main.reqHeader := [("Content-Type", "application/json")];
                    Main.reqBody :=
                      Main.JSONBody
                        {| Main.ReqModel := "llama3.2:1b";
                           Main.Prompt :=
                             Legacy.promptHead ++ m ++ Legacy.promptTail;
                           Main.Stream := false;
                           Main.Format := Legacy.responseFormat |} |})
            msgs)%list.
Proof.
  intros Hu Hm Hdec Hne.
  destruct (analyzeLoop_sends env Hu msgs [] world) as (results & world' & Hl & Hs).
  unfold Legacy.serve. unfold Legacy.bind at 1.
  rewrite (legacy_apiAnalyze_post env r Hm). unfold Legacy.handleAnalyze.
  rewrite Hm, Hdec. destruct msgs as [|m msgs]; [contradiction Hne; reflexivity|].
  cbn [Main.len Messages Main.elements List.length Nat.eqb String.eqb negb].
  change (negb (String.eqb MethodPost MethodPost)) with false. cbv iota.
  unfold Legacy.bind. rewrite Hl.
  eexists. exists world'. split; [reflexivity|]. split; [reflexivity|].
  exact Hs.
Qed.

Lemma legacy_sends_one_request_per_message_witness :
  exists s world',
    Legacy.serve (Legacy.apiAnalyze (Main.Demo.env Main.Demo.down))
      (Main.Demo.post (js "{'messages':['a','b']}")) Legacy.emptyWorld
    = (Returned s, world') /\
    status s = StatusOK /\
    Legacy.sent world'
    = [ Legacy.generateRequest "a"; Legacy.generateRequest "b" ].
Proof.
  apply (legacy_sends_one_request_per_message (Main.Demo.env Main.Demo.down)
           (Main.Demo.post (js "{'messages':['a','b']}")) Legacy.emptyWorld
           ["a"; "b"]).
  - reflexivity.
  - reflexivity.
  - reflexivity.
  - discriminate.
Defined.

(** X9.  The earlier revision drops the error of decoding the backend's
    reply.  That lets no reply through that is not JSON: when the reply has
    status 200 and its body does not start with a JSON value, the response
    text stays empty, parsing it fails, and the message fails with the
    invalid-JSON error after its one request. *)
Theorem legacy_reply_that_is_not_json_fails (env : Env) (message : string)
  (w : Legacy.World) (resp : Main.ClientResponse) :
  urlParseError env "http://localhost:11434/api/generate" = None ->
  clientDo env (Legacy.sent w) (Legacy.generateRequest message)
  = DoResponse resp ->
  StatusCode resp = StatusOK ->
  readValue (respBody resp) = None ->
  Legacy.analyzeMessage env message w
  = (Returned (inr Legacy.InvalidJSONResponse),
     Legacy.addSent (Legacy.generateRequest message) w).
Proof.
  intros Hu Hdo Hs Hv.
  destruct (legacy_analyzeMessage_posts env message w Hu) as (out & Ha & _ & Hbad & _).
  rewrite Ha, (Hbad resp Hdo Hs Hv). reflexivity.
Qed.

Lemma legacy_reply_that_is_not_json_fails_witness :
  Legacy.analyzeMessage
    (Main.Demo.env (fun _ _ => Main.Demo.ok200 "<html>busy</html>")) "hi"
    Legacy.emptyWorld
  = (Returned (inr Legacy.InvalidJSONResponse),
     Legacy.addSent (Legacy.generateRequest "hi") Legacy.emptyWorld).
Proof.
  apply (legacy_reply_that_is_not_json_fails
           (Main.Demo.env (fun _ _ => Main.Demo.ok200 "<html>busy</html>"))
           "hi" Legacy.emptyWorld
           {| Main.StatusCode := 200; Main.respBody := "<html>busy</html>";
              Main.respBodyErr := false |});
    reflexivity.
Defined.

(** X10.  The earlier revision turns requests down as the later one does:
    405 for a method other than POST and OPTIONS, 400 for a POST whose body
    is not valid JSON for the request schema, 400 for a POST with no
    messages; an OPTIONS request is answered with status 200 by the
    middleware; and in all four cases the world is left as it was. *)
Theorem legacy_turns_down (env : Env) (r : Request) (world : Legacy.World) :
  (Method r <> MethodPost -> Method r <> MethodOptions ->
   Legacy.serve (Legacy.apiAnalyze env) r world
   = (Returned {| status := 405; headers := errorHeaders;
                  body := "Method not allowed" ++ newline |}, world)) /\
  (Method r = MethodPost ->
   (readValue (Body r) = None \/
    exists v, readValue (Body r) = Some v /\
              fitsStruct analyzeRequest_types v = false) ->
   Legacy.serve (Legacy.apiAnalyze env) r world
   = (Returned {| status := 400; headers := errorHeaders;
                  body := "Invalid request body" ++ newline |}, world)) /\
  (Method r = MethodPost ->
   forall req,
     Decode (storeStruct analyzeRequest_fields) (Body r) zeroAnalyzeRequest
     = (req, None) ->
     Main.elements (Messages req) = [] ->
     Legacy.serve (Legacy.apiAnalyze env) r world
     = (Returned {| status := 400; headers := errorHeaders;
                    body := "Messages array cannot be empty" ++ newline |},
        world)) /\
  (Method r = MethodOptions ->
   Legacy.serve (Legacy.apiAnalyze env) r world
   = (Returned {| status := 200;
                  headers := [ ("Access-Control-Allow-Origin", "*");
                               ("Access-Control-Allow-Methods", "POST, OPTIONS");
                               ("Access-Control-Allow-Headers", "Content-Type") ];
                  body := "" |}, world)).
Proof.
  split; [|split; [|split]].
  - intros Hpost Hopt. unfold Legacy.serve, Legacy.bind, Legacy.apiAnalyze.
    rewrite (legacy_cors_other _ _ r Hopt). unfold Legacy.handleAnalyze.
    apply String.eqb_neq in Hpost. rewrite Hpost. reflexivity.
  - intros Hm Hbad.
    apply (Decode_error_iff analyzeRequest_fields analyzeRequest_types
             (Body r) zeroAnalyzeRequest Spec.analyzeRequest_agree) in Hbad.
    unfold Legacy.serve, Legacy.bind. rewrite (legacy_apiAnalyze_post env r Hm).
    unfold Legacy.handleAnalyze. rewrite Hm.
    destruct (Decode _ (Body r) zeroAnalyzeRequest) as [req [e|]];
      [reflexivity|].
    exfalso. apply Hbad. reflexivity.
  - intros Hm req Hdec Hempty.
    unfold Legacy.serve, Legacy.bind. rewrite (legacy_apiAnalyze_post env r Hm).
    unfold Legacy.handleAnalyze. rewrite Hm, Hdec.
    replace (Main.len (Messages req) =? 0)%nat with true; [reflexivity|].
    destruct (Messages req) as [[|m l]|]; simpl in *;
      [reflexivity | discriminate | reflexivity].
  - intros Hm. unfold Legacy.serve, Legacy.bind, Legacy.apiAnalyze,
      Legacy.corsMiddleware. rewrite Hm. reflexivity.
Qed.

Lemma legacy_turns_down_witness :
  Legacy.serve (Legacy.apiAnalyze (Main.Demo.env Main.Demo.down))
    {| Method := "DELETE"; Body := "" |} Legacy.emptyWorld
  = (Returned {| status := 405; headers := errorHeaders;
                 body := "Method not allowed" ++ newline |},
     Legacy.emptyWorld) /\
  Legacy.serve (Legacy.apiAnalyze (Main.Demo.env Main.Demo.down))
    (Main.Demo.post "messages=hello") Legacy.emptyWorld
  = (Returned {| status := 400; headers := errorHeaders;
                 body := "Invalid request body" ++ newline |},
     Legacy.emptyWorld) /\
  Legacy.serve (Legacy.apiAnalyze (Main.Demo.env Main.Demo.down))
    (Main.Demo.post "null") Legacy.emptyWorld
  = (Returned {| status := 400; headers := errorHeaders;
                 body := "Messages array cannot be empty" ++ newline |},
     Legacy.emptyWorld).
Proof.
  split; [|split].
  - apply (legacy_turns_down (Main.Demo.env Main.Demo.down)
             {| Method := "DELETE"; Body := "" |} Legacy.emptyWorld);
      discriminate.
  - apply (legacy_turns_down (Main.Demo.env Main.Demo.down)
             (Main.Demo.post "messages=hello") Legacy.emptyWorld);
      [reflexivity | left; reflexivity].
  - apply (proj1 (proj2 (proj2 (legacy_turns_down
                                  (Main.Demo.env Main.Demo.down)
                                  (Main.Demo.post "null") Legacy.emptyWorld)))
             eq_refl zeroAnalyzeRequest); reflexivity.
Defined.

(** X11.  The health handler of the earlier revision asks
    localhost:11434 for its version, once, and mirrors the answer: 503 when
    the connection fails, 502 with the backend's status code and body in
    the text when the backend answers with a status other than 200, and
    otherwise 200 with the backend's body after the prefix of the handler.
    It reads nothing of the request. *)
Theorem legacy_health_mirrors_backend (env : Env) (w : ResponseWriter)
  (r : Request) (world : Legacy.World) :
  unsent w ->
  urlParseError env "http://localhost:11434/api/version" = None ->
  let req := Main.versionRequest "http://localhost:11434" in
  (forall msg,
     clientDo env (Legacy.sent world) req = DoError msg ->
     exists w',
       Legacy.handleOllamaHealth env w r world
       = (Returned w', Legacy.addSent req world) /\
       status (served w') = 503%Z /\
       body (served w') = ("connecting to Ollama: " ++ msg) ++ newline) /\
  (forall resp,
     clientDo env (Legacy.sent world) req = DoResponse resp ->
     StatusCode resp <> 200%Z ->
     exists w',
       Legacy.handleOllamaHealth env w r world
       = (Returned w', Legacy.addSent req world) /\
       status (served w') = 502%Z /\
       body (served w')
       = ("unexpected version status code " ++ Main.itoa (StatusCode resp)
          ++ ": " ++ respBody resp) ++ newline) /\
  (forall resp,
     clientDo env (Legacy.sent world) req = DoResponse resp ->
     StatusCode resp = 200%Z ->
     exists w' world',
       Legacy.handleOllamaHealth env w r world = (Returned w', world') /\
       Legacy.sent world' = (Legacy.sent world ++ [req])%list /\
       status (served w') = 200%Z /\
       body (served w') = "ollama: " ++ respBody resp).
Proof.
  intros Hw Hu req.
  assert (Hdo :
            Legacy.handleOllamaHealth env w r world
            = match clientDo env (Legacy.sent world) req with
              | DoError msg =>
                  Legacy.ret (Error w ("connecting to Ollama: " ++ msg)
                                StatusServiceUnavailable)
                    (Legacy.addSent req world)
              | DoResponse resp =>
                  if negb (StatusCode resp =? StatusOK)%Z then
                    Legacy.ret
                      (Error w
                         ("unexpected version status code "
                          ++ Main.itoa (StatusCode resp) ++ ": " ++ respBody resp)
                         StatusBadGateway) (Legacy.addSent req world)
                  else if respBodyErr resp then
                    Legacy.bind (Legacy.logPrintf Legacy.LogCopyError)
                      (fun _ =>
                         Legacy.ret (Write (respBody resp) (Write "ollama: " w)))
                      (Legacy.addSent req world)
                  else Legacy.ret (Write (respBody resp) (Write "ollama: " w))
                         (Legacy.addSent req world)
              end).
  { unfold Legacy.handleOllamaHealth, Main.NewRequest.
    change (Legacy.ollamaURL ++ "/api/version")
      with "http://localhost:11434/api/version".
    rewrite Hu. unfold Legacy.bind at 1. unfold Legacy.Do.
    change {| Main.reqMethod := MethodGet;
              Main.reqURL := "http://localhost:11434/api/version";
              Main.reqHeader := []; Main.reqBody := Main.NoBody |} with req.
    fold (Legacy.addSent req world).
    destruct (clientDo env (Legacy.sent world) req) as [msg|resp];
      [reflexivity|].
    destruct (negb (StatusCode resp =? StatusOK)%Z); [reflexivity|].
    destruct (respBodyErr resp); reflexivity. }
  split; [|split].
  - intros msg Hd. rewrite Hdo, Hd. eexists. split; [reflexivity|].
    apply Spec.served_Error. exact Hw.
  - intros resp Hd Hs. rewrite Hdo, Hd.
    replace (StatusCode resp =? StatusOK)%Z with false
      by (symmetry; apply Z.eqb_neq; exact Hs).
    eexists. split; [reflexivity|]. apply Spec.served_Error. exact Hw.
  - intros resp Hd Hs. rewrite Hdo, Hd.
    replace (StatusCode resp =? StatusOK)%Z with true
      by (symmetry; apply Z.eqb_eq; exact Hs).
    destruct (respBodyErr resp); eexists; eexists;
      (split; [reflexivity|]); (split; [reflexivity|]);
      apply Spec.served_Write_twice; exact Hw.
Qed.

Lemma legacy_health_mirrors_backend_witness :
  let w := corsHeaders newResponseWriter in
  let r := {| Method := "GET"; Body := "" |} in
  (exists w',
     Legacy.handleOllamaHealth (Main.Demo.env Main.Demo.failing) w r
       Legacy.emptyWorld
     = (Returned w',
        Legacy.addSent (Main.versionRequest "http://localhost:11434")
          Legacy.emptyWorld) /\
     status (served w') = 502%Z /\
     body (served w') = "unexpected version status code 500: boom" ++ newline) /\
  (exists w' world',
     Legacy.handleOllamaHealth
       (Main.Demo.env (fun _ _ => Main.Demo.ok200 "0.5.1")) w r
       Legacy.emptyWorld
     = (Returned w', world') /\
     Legacy.sent world' = [Main.versionRequest "http://localhost:11434"] /\
     status (served w') = 200%Z /\
     body (served w') = "ollama: 0.5.1").
Proof.
  intros w r.
  assert (Hw : unsent w) by (split; reflexivity).
  split.
  - destruct (legacy_health_mirrors_backend (Main.Demo.env Main.Demo.failing)
                w r Legacy.emptyWorld Hw eq_refl) as (_ & Hbad & _).
    apply (Hbad {| Main.StatusCode := 500; Main.respBody := "boom";
                   Main.respBodyErr := false |});
      [reflexivity | discriminate].
  - destruct (legacy_health_mirrors_backend
                (Main.Demo.env (fun _ _ => Main.Demo.ok200 "0.5.1"))
                w r Legacy.emptyWorld Hw eq_refl) as (_ & _ & Hgood).
    apply (Hgood {| Main.StatusCode := 200; Main.respBody := "0.5.1";
                    Main.respBodyErr := false |}); reflexivity.
Defined.

End LegacyBehaviour.

(** * The encoder and the decoder agree *)

Module WireFacts.

Import JSON JSONFacts Wire.

(** ** Strings *)

Lemma append_assoc (a b c : string) : (a ++ b) ++ c = a ++ (b ++ c).
Proof. induction a as [|x a IH]; simpl; [reflexivity | rewrite IH; reflexivity]. Qed.

Lemma append_nil_r (a : string) : a ++ "" = a.
Proof. induction a as [|x a IH]; simpl; [reflexivity | rewrite IH; reflexivity]. Qed.

Lemma string_of_chars_list s : string_of_chars (list_ascii_of_string s) = s.
Proof. induction s as [|c s IH]; simpl; [reflexivity | rewrite IH; reflexivity]. Qed.

Lemma chr_byteN c : chr (byteN c) = c.
Proof. apply ascii_N_embedding. Qed.

(** A unit that stands for an ASCII byte is unquoted to that byte. *)
Lemma unquote_simple u us :
  simple u = true ->
  unquote (u :: us)
  = String (match u with UByte c => c | UEsc r => chr r end) (unquote us).
Proof.
  destruct u as [c|r]; simpl; intros H.
  - change (N_of_ascii c) with (byteN c). rewrite H. reflexivity.
  - apply N.ltb_lt in H.
    assert (Hs : isSurrogate r = false).
    { unfold isSurrogate. apply andb_false_iff. left. apply N.leb_gt. lia. }
    rewrite Hs. unfold encodeRune.
    replace (r <? 128)%N with true by (symmetry; apply N.ltb_lt; exact H).
    reflexivity.
Qed.

Lemma unquote_simple_app us vs :
  forallb simple us = true ->
  unquote (us ++ vs)%list = unquote us ++ unquote vs.
Proof.
  induction us as [|u us IH]; intros H; [reflexivity|].
  cbn [forallb] in H. apply andb_true_iff in H. destruct H as [Hu Hus].
  cbn [app]. rewrite !(unquote_simple u _ Hu), (IH Hus). reflexivity.
Qed.

(** What the encoder writes for an ASCII byte, the lexer reads as a unit
    that stands for this byte. *)
Lemma lex_quoteByte c :
  (byteN c <? 128)%N = true ->
  exists u,
    simple u = true /\
    match u with UByte c' => c' | UEsc r => chr r end = c /\
    forall acc rest,
      lex (LString acc) (quoteByte c ++ rest) = lex (LString (u :: acc)) rest.
Proof.
  destruct c as [[] [] [] [] [] [] [] []]; intros H;
    try (vm_compute in H; discriminate H);
    match goal with
    | |- context [quoteByte ?c] =>
        first [ exists (UByte c); split; [reflexivity|]; split; [reflexivity|];
                intros acc rest; reflexivity
              | exists (UEsc (byteN c)); split; [reflexivity|];
                split; [reflexivity|]; intros acc rest; reflexivity ]
    end.
Qed.

Lemma quoteUnits_ascii c l :
  (byteN c <? 128)%N = true ->
  quoteUnits (UByte c :: l) = quoteByte c ++ quoteUnits l.
Proof.
  intros H. cbn [quoteUnits]. change 0x80%N with 128%N. rewrite H. reflexivity.
Qed.

Lemma lex_string_content l :
  forall acc rest,
    forallb (fun c => (byteN c <? 128)%N) l = true ->
    forallb simple acc = true ->
    lex (LString acc) (quoteUnits (map UByte l) ++ String dquote rest)
    = TStr (unquote (rev acc) ++ string_of_chars l) :: lex LIdle rest.
Proof.
  induction l as [|c l IH]; intros acc rest Hl Hacc.
  - cbn. rewrite append_nil_r. reflexivity.
  - cbn [forallb] in Hl. apply andb_true_iff in Hl. destruct Hl as [Hc Hl].
    cbn [map]. rewrite (quoteUnits_ascii c _ Hc), append_assoc.
    destruct (lex_quoteByte c Hc) as (u & Hu & Huc & Hlex).
    rewrite Hlex, IH; [|exact Hl|cbn [forallb]; rewrite Hu, Hacc; reflexivity].
    cbn [rev]. rewrite unquote_simple_app.
    + rewrite (unquote_simple u [] Hu), Huc. cbn [unquote].
      rewrite append_assoc. reflexivity.
    + rewrite forallb_forall in *. intros x Hx. apply Hacc.
      apply in_rev. exact Hx.
Qed.

Lemma isASCII_chars s :
  isASCII s = forallb (fun c => (byteN c <? 128)%N) (list_ascii_of_string s).
Proof. induction s as [|c s IH]; simpl; [reflexivity | rewrite IH; reflexivity]. Qed.

(** The literal the encoder writes for an ASCII string is read back as
    that string. *)
Lemma lex_quote s rest :
  isASCII s = true ->
  lex LIdle (quote s ++ rest) = TStr s :: lex LIdle rest.
Proof.
  intros Hs. unfold quote. cbn [append]. rewrite append_assoc. cbn [append].
  change (lex LIdle (String dquote ?r)) with (lex (LString []) r).
  rewrite isASCII_chars in Hs.
  rewrite (lex_string_content _ [] rest Hs eq_refl).
  cbn [rev unquote append]. rewrite string_of_chars_list. reflexivity.
Qed.

(** ** Values *)

Lemma marshal_arr vs : marshal (JArr vs) = "[" ++ elemsText vs ++ "]".
Proof. reflexivity. Qed.

Lemma marshal_obj ms : marshal (JObj ms) = "{" ++ membersText ms ++ "}".
Proof. reflexivity. Qed.

Lemma tokensOf_arr vs :
  tokensOf (JArr vs) = (TLBrack :: elemsTokens vs ++ [TRBrack])%list.
Proof. reflexivity. Qed.

Lemma tokensOf_obj ms :
  tokensOf (JObj ms) = (TLBrace :: membersTokens ms ++ [TRBrace])%list.
Proof. reflexivity. Qed.

Lemma plain_arr vs : plain (JArr vs) = elemsPlain vs.
Proof. reflexivity. Qed.

Lemma plain_obj ms : plain (JObj ms) = membersPlain ms.
Proof. reflexivity. Qed.

Lemma depth_arr vs : depth (JArr vs) = (1 + elemsDepth vs)%N.
Proof. reflexivity. Qed.

Lemma depth_obj ms : depth (JObj ms) = (1 + membersDepth ms)%N.
Proof. reflexivity. Qed.

Lemma lex_elemsText vs :
  Forall lexes vs ->
  elemsPlain vs = true ->
  forall rest,
    lex LIdle (elemsText vs ++ rest) = (elemsTokens vs ++ lex LIdle rest)%list.
Proof.
  induction 1 as [|x vs Hx Hvs IH]; intros Hp rest; [reflexivity|].
  cbn [elemsPlain] in Hp. apply andb_true_iff in Hp. destruct Hp as [Hpx Hpvs].
  destruct vs as [|y vs].
  - cbn [elemsText elemsTokens]. apply Hx. exact Hpx.
  - change (elemsText (x :: y :: vs))
      with (marshal x ++ "," ++ elemsText (y :: vs)).
    change (elemsTokens (x :: y :: vs))
      with (tokensOf x ++ TComma :: elemsTokens (y :: vs))%list.
    rewrite append_assoc, (Hx Hpx), <- app_assoc. f_equal.
    cbn [append]. change (lex LIdle (String "," ?r)) with (TComma :: lex LIdle r).
    cbn [app]. f_equal. apply IH. exact Hpvs.
Qed.

Lemma lex_membersText ms :
  Forall (fun kv => lexes (snd kv)) ms ->
  membersPlain ms = true ->
  forall rest,
    lex LIdle (membersText ms ++ rest)
    = (membersTokens ms ++ lex LIdle rest)%list.
Proof.
  induction 1 as [|[k x] ms Hx Hms IH]; intros Hp rest; [reflexivity|].
  cbn [membersPlain] in Hp. apply andb_true_iff in Hp. destruct Hp as [Hp Hpms].
  apply andb_true_iff in Hp. destruct Hp as [Hk Hpx]. cbn [snd] in Hx.
  assert (Hhead : forall tail,
             lex LIdle (quote k ++ ":" ++ marshal x ++ tail)
             = (TStr k :: TColon :: tokensOf x ++ lex LIdle tail)%list).
  { intros tail. rewrite (lex_quote k _ Hk). f_equal. cbn [append].
    change (lex LIdle (String ":" ?r)) with (TColon :: lex LIdle r).
    f_equal. apply Hx. exact Hpx. }
  destruct ms as [|[k' y] ms].
  - change (membersText [(k, x)]) with (quote k ++ ":" ++ marshal x).
    change (membersTokens [(k, x)]) with (TStr k :: TColon :: tokensOf x).
    rewrite !append_assoc. apply Hhead.
  - change (membersText ((k, x) :: (k', y) :: ms))
      with (quote k ++ ":" ++ marshal x ++ "," ++ membersText ((k', y) :: ms)).
    change (membersTokens ((k, x) :: (k', y) :: ms))
      with (TStr k :: TColon :: tokensOf x
            ++ TComma :: membersTokens ((k', y) :: ms))%list.
    rewrite !append_assoc, Hhead. cbn [app]. f_equal. f_equal.
    rewrite <- app_assoc. f_equal.
    cbn [append]. change (lex LIdle (String "," ?r)) with (TComma :: lex LIdle r).
    cbn [app]. f_equal. apply IH. exact Hpms.
Qed.

Lemma lex_marshal v : lexes v.
Proof.
  induction v as [ | b | lit | s | vs IH | ms IH ] using json_nested_ind;
    intros Hp rest.
  - reflexivity.
  - destruct b; reflexivity.
  - discriminate.
  - apply lex_quote. exact Hp.
  - rewrite marshal_arr, tokensOf_arr, plain_arr in *.
    rewrite !append_assoc. cbn [append].
    change (lex LIdle (String "[" ?r)) with (TLBrack :: lex LIdle r).
    cbn [app]. f_equal. rewrite (lex_elemsText vs IH Hp), <- app_assoc.
    reflexivity.
  - rewrite marshal_obj, tokensOf_obj, plain_obj in *.
    rewrite !append_assoc. cbn [append].
    change (lex LIdle (String "{" ?r)) with (TLBrace :: lex LIdle r).
    cbn [app]. f_equal. rewrite (lex_membersText ms IH Hp), <- app_assoc.
    reflexivity.
Qed.

(** ** Parsing *)

Lemma parseTokens_cons st m t ts :
  parseTokens st m (t :: ts) = resume (pstep st m t) ts.
Proof. reflexivity. Qed.

Lemma openFrame_fits f m st :
  (N.of_nat (length st) < maxNestingDepth)%N ->
  openFrame f m st = PMore (f :: st) m.
Proof.
  intros H. unfold openFrame. apply N.ltb_lt in H. rewrite H. reflexivity.
Qed.

Lemma parse_elems vs :
  Forall parses vs -> vs <> [] ->
  forall acc st m ts,
    m = PValue \/ m = PArrFirst ->
    (N.of_nat (length st) + (1 + elemsDepth vs) <= maxNestingDepth)%N ->
    parseTokens (FArr acc :: st) m (elemsTokens vs ++ TRBrack :: ts)
    = resume (finish (JArr (rev acc ++ vs)) st) ts.
Proof.
  induction 1 as [|x vs Hx Hvs IH]; intros Hne acc st m ts Hm Hd;
    [congruence|].
  assert (Hdx : (N.of_nat (length (FArr acc :: st)) + depth x
                 <= maxNestingDepth)%N).
  { cbn [length]. cbn [elemsDepth] in Hd. lia. }
  destruct vs as [|y vs].
  - cbn [elemsTokens]. rewrite (Hx _ _ _ Hm Hdx).
    cbn [finish resume]. rewrite parseTokens_cons. cbn [pstep].
    cbn [rev]. reflexivity.
  - change (elemsTokens (x :: y :: vs))
      with (tokensOf x ++ TComma :: elemsTokens (y :: vs))%list.
    rewrite <- app_assoc. rewrite (Hx _ _ _ Hm Hdx).
    cbn [finish resume app]. rewrite parseTokens_cons. cbn [pstep resume].
    rewrite IH.
    + cbn [rev]. rewrite <- app_assoc. reflexivity.
    + discriminate.
    + left. reflexivity.
    + change (elemsDepth (x :: y :: vs))
        with (N.max (depth x) (elemsDepth (y :: vs))) in Hd. lia.
Qed.

Lemma parse_members ms :
  Forall (fun kv => parses (snd kv)) ms -> ms <> [] ->
  forall acc st m ts,
    m = PObjFirst \/ m = PKey ->
    (N.of_nat (length st) + (1 + membersDepth ms) <= maxNestingDepth)%N ->
    parseTokens (FObj acc None :: st) m (membersTokens ms ++ TRBrace :: ts)
    = resume (finish (JObj (rev acc ++ ms)) st) ts.
Proof.
  induction 1 as [|[k x] ms Hx Hms IH]; intros Hne acc st m ts Hm Hd;
    [congruence|].
  cbn [snd] in Hx.
  assert (Hdx : (N.of_nat (length (FObj acc (Some k) :: st)) + depth x
                 <= maxNestingDepth)%N).
  { cbn [length]. cbn [membersDepth] in Hd. lia. }
  assert (Hhead : forall tail,
             parseTokens (FObj acc None :: st) m
               (TStr k :: TColon :: tokensOf x ++ tail)
             = parseTokens (FObj ((k, x) :: acc) None :: st) PAfter tail).
  { intros tail. rewrite parseTokens_cons.
    replace (pstep (FObj acc None :: st) m (TStr k))
      with (PMore (FObj acc (Some k) :: st) PColon)
      by (destruct Hm as [-> | ->]; reflexivity).
    cbn [resume]. rewrite parseTokens_cons. cbn [pstep resume].
    rewrite (Hx _ PValue _ (or_introl eq_refl) Hdx). reflexivity. }
  destruct ms as [|[k' y] ms].
  - change (membersTokens [(k, x)]) with (TStr k :: TColon :: tokensOf x).
    cbn [app]. rewrite Hhead.
    rewrite parseTokens_cons. cbn [pstep rev]. reflexivity.
  - change (membersTokens ((k, x) :: (k', y) :: ms))
      with (TStr k :: TColon :: tokensOf x
            ++ TComma :: membersTokens ((k', y) :: ms))%list.
    cbn [app]. rewrite <- app_assoc. rewrite Hhead.
    cbn [app]. rewrite parseTokens_cons. cbn [pstep resume].
    rewrite IH.
    + cbn [rev]. rewrite <- app_assoc. reflexivity.
    + discriminate.
    + right. reflexivity.
    + change (membersDepth ((k, x) :: (k', y) :: ms))
        with (N.max (depth x) (membersDepth ((k', y) :: ms))) in Hd. lia.
Qed.

Lemma parse_tokens v : parses v.
Proof.
  induction v as [ | b | lit | s | vs IH | ms IH ] using json_nested_ind;
    intros st m ts Hm Hd.
  - destruct Hm as [-> | ->]; reflexivity.
  - destruct Hm as [-> | ->]; destruct b; reflexivity.
  - destruct Hm as [-> | ->]; reflexivity.
  - destruct Hm as [-> | ->]; reflexivity.
  - rewrite tokensOf_arr. rewrite depth_arr in Hd.
    cbn [app]. rewrite parseTokens_cons.
    replace (pstep st m TLBrack) with (PMore (FArr [] :: st) PArrFirst)
      by (destruct Hm as [-> | ->]; cbn [pstep];
          rewrite openFrame_fits; [reflexivity | lia | reflexivity | lia]).
    cbn [resume]. rewrite <- app_assoc. cbn [app].
    destruct vs as [|x vs].
    + reflexivity.
    + rewrite (parse_elems (x :: vs) IH); [reflexivity | discriminate | | exact Hd].
      right. reflexivity.
  - rewrite tokensOf_obj. rewrite depth_obj in Hd.
    cbn [app]. rewrite parseTokens_cons.
    replace (pstep st m TLBrace) with (PMore (FObj [] None :: st) PObjFirst)
      by (destruct Hm as [-> | ->]; cbn [pstep];
          rewrite openFrame_fits; [reflexivity | lia | reflexivity | lia]).
    cbn [resume]. rewrite <- app_assoc. cbn [app].
    destruct ms as [|kv ms].
    + reflexivity.
    + rewrite (parse_members (kv :: ms) IH); [reflexivity | discriminate | | exact Hd].
      left. reflexivity.
Qed.

(** What ends a text: nothing, or the line feed Encoder.Encode adds. *)
Lemma lex_end_nothing : lex LIdle "" = [].
Proof. reflexivity. Qed.

Lemma lex_end_newline : lex LIdle Main.newline = [].
Proof. reflexivity. Qed.

Lemma parse_marshal_then tail v :
  lex LIdle tail = [] ->
  plain v = true -> (depth v <= maxNestingDepth)%N ->
  parse (marshal v ++ tail) = Some v.
Proof.
  intros Ht Hp Hd. unfold parse.
  rewrite (lex_marshal v Hp), Ht.
  rewrite (parse_tokens v [] PValue []); [reflexivity | left; reflexivity |].
  cbn [length]. lia.
Qed.

Lemma readValue_marshal_then tail v :
  plain v = true -> (depth v <= maxNestingDepth)%N ->
  readValue (marshal v ++ tail) = Some v.
Proof.
  intros Hp Hd. unfold readValue.
  rewrite (lex_marshal v Hp).
  rewrite (parse_tokens v [] PValue _); [reflexivity | left; reflexivity |].
  cbn [length]. lia.
Qed.

End WireFacts.

(** * Round trips through the encoder and the decoder *)

Module RoundTrip.

Import JSON HTTP Main JSONFacts Wire WireFacts.

Lemma elemsPlain_strings l : elemsPlain (map JStr l) = forallb isASCII l.
Proof.
  induction l as [|x l IH]; [reflexivity|].
  cbn [map elemsPlain forallb plain]. rewrite IH. reflexivity.
Qed.

Lemma elemsDepth_strings l : elemsDepth (map JStr l) = 0%N.
Proof.
  induction l as [|x l IH]; [reflexivity|].
  cbn [map elemsDepth depth]. rewrite IH. reflexivity.
Qed.

Lemma plain_encodeResult res : plain (encodeResult res) = asciiResult res.
Proof.
  unfold encodeResult, asciiResult.
  destruct (ViolatedPolicies res) as [l|]; cbn [encodeStrings elements].
  - change (plain (JObj ?ms)) with (membersPlain ms). cbn [membersPlain].
    rewrite plain_arr, elemsPlain_strings. cbn [plain forallb].
    change (isASCII "content") with true.
    change (isASCII "is_safe") with true.
    change (isASCII "violated_policies") with true.
    cbn [andb]. rewrite andb_true_r. reflexivity.
  - change (plain (JObj ?ms)) with (membersPlain ms). cbn [membersPlain].
    cbn [plain forallb].
    change (isASCII "content") with true.
    change (isASCII "is_safe") with true.
    change (isASCII "violated_policies") with true.
    cbn [andb]. rewrite !andb_true_r. reflexivity.
Qed.

Lemma depth_encodeResult res : (depth (encodeResult res) <= 2)%N.
Proof.
  unfold encodeResult.
  destruct (ViolatedPolicies res) as [l|]; cbn [encodeStrings].
  - rewrite depth_obj. cbn [membersDepth]. rewrite depth_arr, elemsDepth_strings.
    cbn [depth]. lia.
  - rewrite depth_obj. cbn [membersDepth depth]. lia.
Qed.

Lemma elemsPlain_results results :
  elemsPlain (map encodeResult results) = forallb asciiResult results.
Proof.
  induction results as [|res results IH]; [reflexivity|].
  cbn [map elemsPlain forallb]. rewrite plain_encodeResult, IH. reflexivity.
Qed.

Lemma elemsDepth_results results :
  (elemsDepth (map encodeResult results) <= 2)%N.
Proof.
  induction results as [|res results IH]; cbn [map elemsDepth]; [lia|].
  pose proof (depth_encodeResult res). lia.
Qed.

Lemma object_unknown {S : Type} (fields : list (string * store S)) ms (s : S) :
  Forall (fun kv => findField fields (fst kv) = None) ms ->
  object fields ms s = (s, true).
Proof.
  induction 1 as [|[k x] ms Hk _ IH]; [reflexivity|].
  cbn [object]. cbn [fst] in Hk. rewrite Hk. exact IH.
Qed.

Lemma object_after_unknown {S : Type} (fields : list (string * store S))
  ms1 ms2 (s : S) :
  Forall (fun kv => findField fields (fst kv) = None) ms1 ->
  object fields (ms1 ++ ms2)%list s = object fields ms2 s.
Proof.
  induction 1 as [|[k x] ms1 Hk _ IH]; [reflexivity|].
  cbn [app object]. cbn [fst] in Hk. rewrite Hk. exact IH.
Qed.

Lemma Unmarshal_verdictText safe policies :
  forallb isASCII policies = true ->
  Unmarshal (storeStruct moderationResult_fields) (verdictText safe policies)
    zeroModerationResult
  = ({| Safe := safe; ModViolatedPolicies := Some policies |}, None).
Proof.
  intros Hp. unfold Unmarshal, verdictText.
  rewrite <- (append_nil_r (marshal _)).
  rewrite parse_marshal_then; [ | reflexivity | | ].
  - cbn [storeStruct object].
    replace (findField moderationResult_fields "safe")
      with (Some (field Safe
                    (fun m x => {| Safe := x;
                                   ModViolatedPolicies := ModViolatedPolicies m |})
                    storeBool)) by reflexivity.
    replace (findField moderationResult_fields "violated_policies")
      with (Some (field ModViolatedPolicies
                    (fun m x => {| Safe := Safe m; ModViolatedPolicies := x |})
                    storeStrings)) by reflexivity.
    unfold field. cbn [storeBool storeStrings Safe ModViolatedPolicies
                         zeroModerationResult].
    rewrite storeElems_strings. reflexivity.
  - rewrite plain_obj. cbn [membersPlain].
    rewrite plain_arr, elemsPlain_strings, Hp. reflexivity.
  - rewrite depth_obj. cbn [membersDepth]. rewrite depth_arr, elemsDepth_strings.
    cbn [depth]. unfold maxNestingDepth. lia.
Qed.

(** X12.  What handleAnalyze writes is read back as it was meant: for
    results whose strings are ASCII, the body is one JSON value and nothing
    else, an array with one object per result, in order, each with the
    members content, is_safe and violated_policies; what the encoder
    escapes (quotes, backslashes, control characters, the angle brackets
    and the ampersand) comes back as the character it stood for. *)
Theorem encoded_results_parse_back (results : list analysisResult) :
  forallb asciiResult results = true ->
  parse (encodeResults results) = Some (JArr (map encodeResult results)).
Proof.
  intros Ha. unfold encodeResults.
  apply parse_marshal_then.
  - reflexivity.
  - rewrite plain_arr, elemsPlain_results. exact Ha.
  - rewrite depth_arr. pose proof (elemsDepth_results results).
    unfold maxNestingDepth. lia.
Qed.

Lemma encoded_results_parse_back_witness :
  parse (encodeResults
           [ {| Content := js "<b>'you' & me</b>"; IsSafe := false;
                ViolatedPolicies := Some ["hate/harassment"] |};
             {| Content := "fine"; IsSafe := true;
                ViolatedPolicies := None |} ])
  = Some (JArr [ JObj [ ("content", JStr (js "<b>'you' & me</b>"));
                        ("is_safe", JBool false);
                        ("violated_policies", JArr [JStr "hate/harassment"]) ];
                 JObj [ ("content", JStr "fine");
                        ("is_safe", JBool true);
                        ("violated_policies", JNull) ] ]).
Proof.
  apply (encoded_results_parse_back
           [ {| Content := js "<b>'you' & me</b>"; IsSafe := false;
                ViolatedPolicies := Some ["hate/harassment"] |};
             {| Content := "fine"; IsSafe := true;
                ViolatedPolicies := None |} ]).
  reflexivity.
Defined.

(** X13.  The answer the response format asks for is understood: when the
    backend answers a message with status 200 and the response text of its
    reply is the compact JSON object with the members safe and
    violated_policies (ASCII policy names), analyzeMessage returns the
    message with exactly that verdict, the policies as a non-nil slice,
    after its one request. *)
Theorem verdict_is_returned (env : Env) (cfg : Config) (message : string)
  (w : World) (prompt : string) (safe : bool) (policies : list string) :
  answers env cfg message w prompt (verdictText safe policies) ->
  forallb isASCII policies = true ->
  analyzeMessage env message cfg w
  = (Returned (Ok {| Content := message; IsSafe := safe;
                     ViolatedPolicies := Some policies |}),
     addSent (generateRequest cfg prompt) w).
Proof.
  intros Ha Hp.
  rewrite (Spec.analyzeMessage_answers _ _ _ _ _ _ Ha).
  rewrite (Unmarshal_verdictText safe policies Hp). reflexivity.
Qed.

Lemma verdict_is_returned_witness :
  analyzeMessage
    (Demo.env (Demo.answering (verdictText false ["hate/harassment"])))
    "you are all idiots" Demo.cfg emptyWorld
  = (Returned (Ok {| Content := "you are all idiots"; IsSafe := false;
                     ViolatedPolicies := Some ["hate/harassment"] |}),
     addSent (generateRequest Demo.cfg "Input: you are all idiots") emptyWorld).
Proof.
  apply (verdict_is_returned
           (Demo.env (Demo.answering (verdictText false ["hate/harassment"])))
           Demo.cfg "you are all idiots" emptyWorld
           "Input: you are all idiots" false ["hate/harassment"]).
  - split; [reflexivity|]. split; [reflexivity|].
    eexists. split; [reflexivity|]. split; reflexivity.
  - reflexivity.
Defined.

(** X14.  Of the backend's reply analyzeMessage takes the response member
    and nothing else: for a reply that is a JSON object without numbers and
    with ASCII strings, whose other members name no field of the struct,
    the decoder returns the response text as it was encoded and no error,
    whatever the other members hold and whatever bytes follow the
    object. *)
Theorem reply_is_read_for_its_response (ms1 ms2 : list (string * json))
  (text tail : string) :
  let reply := JObj (ms1 ++ ("response", JStr text) :: ms2)%list in
  plain reply = true ->
  (depth reply <= maxNestingDepth)%N ->
  Forall (fun kv => findField ollamaResponse_fields (fst kv) = None)
    (ms1 ++ ms2)%list ->
  Decode (storeStruct ollamaResponse_fields) (marshal reply ++ tail)
    zeroOllamaResponse
  = ({| Response := text |}, None).
Proof.
  intros reply Hp Hd Hu. unfold Decode.
  rewrite (readValue_marshal_then tail reply Hp Hd).
  apply Forall_app in Hu. destruct Hu as [Hu1 Hu2].
  unfold reply. cbn [storeStruct].
  rewrite (object_after_unknown _ _ _ _ Hu1). cbn [object].
  replace (findField ollamaResponse_fields "response")
    with (Some (field Response (fun _ x => {| Response := x |}) storeString))
    by reflexivity.
  unfold field. cbn [storeString].
  rewrite (object_unknown _ _ _ Hu2). reflexivity.
Qed.

Lemma reply_is_read_for_its_response_witness :
  Decode (storeStruct ollamaResponse_fields)
    (marshal (JObj [ ("model", JStr "mistral");
                     ("response", JStr (verdictText true []));
                     ("done", JBool true);
                     ("context", JArr [JNull]) ])
     ++ js "{'response': 1}")
    zeroOllamaResponse
  = ({| Response := verdictText true [] |}, None).
Proof.
  apply (reply_is_read_for_its_response
           [("model", JStr "mistral")]
           [("done", JBool true); ("context", JArr [JNull])]
           (verdictText true []) (js "{'response': 1}")).
  - reflexivity.
  - vm_compute. discriminate.
  - repeat constructor.
Defined.

(** X15.  A client that sends its messages as the compact JSON object with
    the one member messages is understood: for ASCII messages the decoder
    of handleAnalyze returns them as they were, in order, as a non-nil
    slice and without error, whatever follows the object in the body. *)
Theorem request_is_read_back (msgs : list string) (tail : string) :
  forallb isASCII msgs = true ->
  Decode (storeStruct analyzeRequest_fields)
    (marshal (JObj [("messages", JArr (map JStr msgs))]) ++ tail)
    zeroAnalyzeRequest
  = ({| Messages := Some msgs |}, None).
Proof.
  intros Hp. unfold Decode.
  rewrite readValue_marshal_then.
  - cbn [storeStruct object].
    replace (findField analyzeRequest_fields "messages")
      with (Some (field Messages (fun _ x => {| Messages := x |}) storeStrings))
      by reflexivity.
    unfold field. cbn [storeStrings Messages zeroAnalyzeRequest].
    rewrite storeElems_strings. reflexivity.
  - rewrite plain_obj. cbn [membersPlain].
    rewrite plain_arr, elemsPlain_strings, Hp. reflexivity.
  - rewrite depth_obj. cbn [membersDepth]. rewrite depth_arr, elemsDepth_strings.
    unfold maxNestingDepth. lia.
Qed.

Lemma request_is_read_back_witness :
  Decode (storeStruct analyzeRequest_fields)
    (marshal (JObj [("messages", JArr (map JStr ["hello"; js "say 'hi'"]))])
     ++ newline)
    zeroAnalyzeRequest
  = ({| Messages := Some ["hello"; js "say 'hi'"] |}, None).
Proof.
  apply (request_is_read_back ["hello"; js "say 'hi'"] newline).
  reflexivity.
Defined.

(** X16.  The earlier revision returns the verdict on less: it drops the
    error of decoding the reply, so whenever the reply has status 200 and
    the decoder leaves the verdict text in the response field, with or
    without an error, the message is returned with that verdict. *)
Theorem legacy_verdict_is_returned (env : Env) (message : string)
  (w : Legacy.World) (resp : ClientResponse) (safe : bool)
  (policies : list string) :
  urlParseError env "http://localhost:11434/api/generate" = None ->
  clientDo env (Legacy.sent w) (Legacy.generateRequest message)
  = DoResponse resp ->
  StatusCode resp = StatusOK ->
  fst (Decode (storeStruct ollamaResponse_fields) (respBody resp)
         zeroOllamaResponse)
  = {| Response := verdictText safe policies |} ->
  forallb isASCII policies = true ->
  Legacy.analyzeMessage env message w
  = (Returned (inl {| Content := message; IsSafe := safe;
                      ViolatedPolicies := Some policies |}),
     Legacy.addSent (Legacy.generateRequest message) w).
Proof.
  intros Hu Hdo Hs Hdec Hp.
  unfold Legacy.analyzeMessage, NewRequest. rewrite Hu.
  unfold Legacy.bind, Legacy.Do. 
  change (clientDo env (Legacy.sent w) _)
    with (clientDo env (Legacy.sent w) (Legacy.generateRequest message)).
  rewrite Hdo, Hs. cbn [Z.eqb negb].
  destruct (Decode (storeStruct ollamaResponse_fields) (respBody resp)
              zeroOllamaResponse) as [o e].
  cbn [fst] in Hdec. subst o. cbn [Response].
  rewrite (Unmarshal_verdictText safe policies Hp). reflexivity.
Qed.

Lemma legacy_verdict_is_returned_witness :
  let body := marshal (JObj [ ("response", JStr (verdictText true []));
                              ("response", JBool true) ]) in
  snd (Decode (storeStruct ollamaResponse_fields) body zeroOllamaResponse)
  = Some UnmarshalTypeError /\
  Legacy.analyzeMessage (Demo.env (fun _ _ => Demo.ok200 body)) "hi"
    Legacy.emptyWorld
  = (Returned (inl {| Content := "hi"; IsSafe := true;
                      ViolatedPolicies := Some [] |}),
     Legacy.addSent (Legacy.generateRequest "hi") Legacy.emptyWorld).
Proof.
  split; [reflexivity|].
  apply (legacy_verdict_is_returned
           (Demo.env (fun _ _ =>
                        Demo.ok200
                          (marshal (JObj [ ("response", JStr (verdictText true []));
                                           ("response", JBool true) ]))))
           "hi" Legacy.emptyWorld
           {| StatusCode := 200;
              respBody := marshal (JObj [ ("response", JStr (verdictText true []));
                                          ("response", JBool true) ]);
              respBodyErr := false |}
           true []); reflexivity.
Defined.

End RoundTrip.
